(** * Contract generator: the server actions over the three tables

    A shallow embedding of [src/actions/index.ts] (the ten actions of the
    exported [server] object) and of the table definitions
    ([ContractTemplates], [Contracts], [ContractClauses]).

    The handlers are written in a small monad that threads the database,
    records every query the handler issues, and aborts on a thrown
    [ActionError]. *)

From Stdlib Require Import String ZArith List Bool Lia.
Import ListNotations.
Open Scope string_scope.

Set Implicit Arguments.

(** ** JavaScript values and primitives *)

(** A [Date] is its time value (milliseconds since the epoch). *)
Definition Date := Z.

(** The values an input field holds before the schema has parsed it.
    [JNumber n] is the number whose value is the integer [n]; a number is a
    double, so only the integers [is_double] accepts are values.  Numbers
    that are no integers are left out: the one numeric field, [orderIndex],
    is declared [int()]. *)
Inductive JsValue :=
| JUndefined
| JNull
| JBool (b : bool)
| JNumber (n : Z)
| JString (s : string).

(** The odd factor of a positive number. *)
Fixpoint odd_part (p : positive) : positive :=
  match p with
  | xO q => odd_part q
  | _ => p
  end.

(** The integers that are doubles: a significand of at most 53 bits and a
    magnitude below 2^1024. *)
Definition is_double (n : Z) : bool :=
  match n with
  | Z0 => true
  | Zpos p | Zneg p =>
      (Z.pos (odd_part p) <? 2 ^ 53)%Z && (Z.pos p <? 2 ^ 1024)%Z
  end.

(** [Number.isSafeInteger]: the integers of magnitude below 2^53. *)
Definition safe_integer (n : Z) : bool := (Z.abs n <? 2 ^ 53)%Z.

(** The raw input of an action: an object of such values, or a value that
    is no object. *)
Inductive Raw :=
| RValue (v : JsValue)
| RObject (fields : list (string * JsValue)).

(** [o[k]]: a key the object does not have reads as [undefined]. *)
Fixpoint prop (k : string) (fields : list (string * JsValue)) : JsValue :=
  match fields with
  | [] => JUndefined
  | (k', v) :: rest => if k =? k' then v else prop k rest
  end.

(** Truthiness of a string: only the empty string is falsy. *)
Definition truthy (s : string) : bool := negb (s =? "").

(** Truthiness of [string | null | undefined]. *)
Definition truthy_opt (o : option string) : bool :=
  match o with
  | Some s => truthy s
  | None => false
  end.

(** [a ?? b] *)
Definition nullish {A} (a : option A) (b : A) : A :=
  match a with
  | Some x => x
  | None => b
  end.

Definition opt_eqb (a : option string) (b : string) : bool :=
  match a with
  | Some x => x =? b
  | None => false
  end.

(** ** Rows of the three tables (db/tables.ts) *)

Module Template.
Record t := mk {
  id : string;
  userId : option string;
  name : string;
  description : option string;
  category : option string;
  baseLanguage : option string;
  body : string;
  isSystem : bool;
  createdAt : Date;
  updatedAt : Date
}.
End Template.

Module Contract.
Record t := mk {
  id : string;
  userId : string;
  templateId : option string;
  title : string;
  partyAName : option string;
  partyBName : option string;
  effectiveDate : option Date;
  endDate : option Date;
  governingLaw : option string;
  status : option string;
  finalText : string;
  notes : option string;
  createdAt : Date;
  updatedAt : Date
}.
End Contract.

(** The [id] of a clause is null when the row was inserted without one:
    the column is the primary key, has no default, and the store keeps such
    a row. *)
Module Clause.
Record t := mk {
  id : option string;
  contractId : string;
  orderIndex : Z;
  heading : option string;
  body : string;
  clauseKey : option string;
  createdAt : Date
}.
End Clause.

(** ** The database and the action monad *)

Record Db := mkDb {
  ContractTemplates : list Template.t;
  Contracts : list Contract.t;
  ContractClauses : list Clause.t
}.

Inductive TableName := TContractTemplates | TContracts | TContractClauses.

(** One entry per query sent to the store. *)
Inductive Access :=
| Read (table : TableName)
| Write (table : TableName).

(** The error kinds: the three the service raises itself (an [ActionError]
    with code UNAUTHORIZED or NOT_FOUND, the input error of a schema that
    rejects) and a failure raised by the store. *)
Inductive Error := Unauthorized | ValidationError | NotFound | StoreFailure.

Record Run (A : Type) := mkRun {
  run_db : Db;
  run_log : list Access;
  run_res : Error + A
}.

Definition Action (A : Type) := Db -> Run A.

Definition ret {A} (a : A) : Action A :=
  fun d => mkRun d [] (inr a).

Definition throw {A} (e : Error) : Action A :=
  fun d => mkRun d [] (inl e).

Definition bind {A B} (m : Action A) (f : A -> Action B) : Action B :=
  fun d =>
    let r := m d in
    match run_res r with
    | inl e => mkRun (run_db r) (run_log r) (inl e)
    | inr a =>
        let r' := f a (run_db r) in
        mkRun (run_db r') (run_log r ++ run_log r') (run_res r')
    end.

Notation "x <- c1 ;; c2" := (bind c1 (fun x => c2))
  (at level 61, c1 at next level, right associativity).

(** A run with one more query in front of its log. *)
Definition logged {A} (a : Access) (r : Run A) : Run A :=
  mkRun (run_db r) (a :: run_log r) (run_res r).

(** ** The store's queries

    A table is a list of rows in insertion order.  The store enforces what
    the table definitions declare.  The [id] column is the primary key: an
    insert under a key that is present is refused (a null key clashes with
    nothing).  [Contracts.templateId] references [ContractTemplates.id] and
    [ContractClauses.contractId] references [Contracts.id]: a row written
    with a reference that is neither null nor the key of a row of the other
    table is refused, and so is the deletion of a row that another row
    references.  A refused query changes nothing.

    The rows a query returns are read by the client, which refuses an
    integer that is no safe integer: a query whose rows hold an
    [orderIndex] of magnitude 2^53 or more fails, and when the query is a
    write with [returning()], it fails after the write is committed. *)

Record Table (R : Type) := mkTable {
  table_name : TableName;
  rows : Db -> list R;
  with_rows : list R -> Db -> Db;
  key : R -> option string;
  references_ok : Db -> R -> bool;
  referenced : Db -> R -> bool;
  readable : R -> bool
}.

Definition has_template (d : Db) (i : string) : bool :=
  existsb (fun t => Template.id t =? i) (ContractTemplates d).

(** The reference of a contract to its template is null or holds. *)
Definition link_ok (d : Db) (c : Contract.t) : bool :=
  match Contract.templateId c with
  | Some i => has_template d i
  | None => true
  end.

Definition has_contract (d : Db) (i : string) : bool :=
  existsb (fun c => Contract.id c =? i) (Contracts d).

(** Whether a clause is stored under the contract id [i]. *)
Definition has_clauses (d : Db) (i : string) : bool :=
  existsb (fun cl => Clause.contractId cl =? i) (ContractClauses d).

Definition templatesT : Table Template.t :=
  mkTable TContractTemplates ContractTemplates
    (fun l d => mkDb l (Contracts d) (ContractClauses d))
    (fun t => Some (Template.id t))
    (fun _ _ => true)
    (fun d t => existsb (fun c => opt_eqb (Contract.templateId c) (Template.id t))
                  (Contracts d))
    (fun _ => true).

Definition contractsT : Table Contract.t :=
  mkTable TContracts Contracts
    (fun l d => mkDb (ContractTemplates d) l (ContractClauses d))
    (fun c => Some (Contract.id c))
    link_ok
    (fun d c => has_clauses d (Contract.id c))
    (fun _ => true).

Definition clausesT : Table Clause.t :=
  mkTable TContractClauses ContractClauses
    (fun l d => mkDb (ContractTemplates d) (Contracts d) l)
    Clause.id
    (fun d cl => has_contract d (Clause.contractId cl))
    (fun _ _ => false)
    (fun cl => safe_integer (Clause.orderIndex cl)).

(** [.limit(n)] *)
Definition limit {R} (n : option nat) (l : list R) : list R :=
  match n with
  | Some k => firstn k l
  | None => l
  end.

(** [db.select().from(T).where(p).limit(n)]: the rows found are read by
    the client, and the query fails when one of them cannot be. *)
Definition db_select {R} (T : Table R) (cond : R -> bool) (n : option nat)
  : Action (list R) :=
  fun d =>
    let found := limit n (filter cond (rows T d)) in
    mkRun d [Read (table_name T)]
      (if forallb (readable T) found then inr found else inl StoreFailure).

(** A write the store refuses. *)
Definition refused {R} (T : Table R) : Action (list R) :=
  fun d => mkRun d [Write (table_name T)] (inl StoreFailure).

(** A write the store has committed, leaving the database [d'], and the
    rows [returned] read back. *)
Definition committed {R} (T : Table R) (d' : Db) (returned : list R)
  : Run (list R) :=
  mkRun d' [Write (table_name T)]
    (if forallb (readable T) returned then inr returned else inl StoreFailure).

(** Whether a row of the table has the key of [r]. *)
Definition key_taken {R} (T : Table R) (r : R) (d : Db) : bool :=
  match key T r with
  | Some k => existsb (fun x => opt_eqb (key T x) k) (rows T d)
  | None => false
  end.

(** [db.insert(T).values(r).returning()] *)
Definition db_insert {R} (T : Table R) (r : R) : Action (list R) :=
  fun d =>
    if key_taken T r d || negb (references_ok T d r)
    then refused T d
    else committed T (with_rows T (rows T d ++ [r]) d) [r].

(** [db.update(T).set(s).where(p).returning()]; [refs] tells whether the
    object given to [set] has a key that is a reference. *)
Definition db_update {R} (T : Table R) (set : R -> R) (refs : bool)
  (cond : R -> bool) : Action (list R) :=
  fun d =>
    let updated := map set (filter cond (rows T d)) in
    if refs && negb (forallb (references_ok T d) updated)
    then refused T d
    else committed T
           (with_rows T (map (fun x => if cond x then set x else x) (rows T d)) d)
           updated.

(** [db.delete(T).where(p).returning()] *)
Definition db_delete {R} (T : Table R) (cond : R -> bool) : Action (list R) :=
  fun d =>
    let deleted := filter cond (rows T d) in
    if existsb (referenced T d) deleted
    then refused T d
    else committed T
           (with_rows T (filter (fun x => negb (cond x)) (rows T d)) d)
           deleted.

(** [const [x] = rows]: [undefined] when the array is empty. *)
Definition first {R} (l : list R) : option R := hd_error l.

(** ** The calling context *)

Module User.
Record t := mk { id : string }.
End User.

Record Locals := mkLocals { user : option User.t }.

Record Context := mkContext { locals : option Locals }.

(** [context.locals?.user] *)
Definition locals_user (context : Context) : option User.t :=
  match locals context with
  | Some l => user l
  | None => None
  end.

Definition requireUser (context : Context) : Action User.t :=
  match locals_user context with
  | None => throw Unauthorized
  | Some u => ret u
  end.

(** A context carrying the signed-in user [u]. *)
Definition signedIn (u : User.t) : Context :=
  mkContext (Some (mkLocals (Some u))).

(** ** What a call reads from its environment

    [now] is the value of [new Date()] during the call (a handler that
    reads the clock twice gets the same instant), [randomUUID] the value of
    [crypto.randomUUID()].  [coerceDate] is [z.coerce.date()]:
    [new Date(v)], rejected when that is an invalid date. *)
Record Env := mkEnv {
  now : Date;
  randomUUID : string;
  coerceDate : JsValue -> option Date
}.

(** ** Schemas (zod) *)

Definition Schema (A : Type) := JsValue -> option A.

Definition z_string : Schema string :=
  fun v => match v with JString s => Some s | _ => None end.

(** [z.string().min(n)] *)
Definition z_string_min (n : nat) : Schema string :=
  fun v =>
    match v with
    | JString s => if Nat.leb n (String.length s) then Some s else None
    | _ => None
    end.

Definition z_boolean : Schema bool :=
  fun v => match v with JBool b => Some b | _ => None end.

(** [z.number().int().positive()]: any positive integer that is a number,
    with no upper bound. *)
Definition z_number_int_positive : Schema Z :=
  fun v =>
    match v with
    | JNumber n => if is_double n && (0 <? n)%Z then Some n else None
    | _ => None
    end.

(** [s.optional()] *)
Definition z_optional {A} (s : Schema A) : Schema (option A) :=
  fun v =>
    match v with
    | JUndefined => Some None
    | _ => option_map Some (s v)
    end.

Notation "x <~ c1 ;; c2" :=
  (match c1 with Some x => c2 | None => None end)
  (at level 61, c1 at next level, right associativity).

(** [defineAction({ input, handler })]: the framework parses the raw input
    with the schema and calls the handler on the parsed value; an input the
    schema rejects never reaches the handler. *)
Definition defineAction {I O} (input : Raw -> option I)
  (handler : I -> Context -> Action O) : Raw -> Context -> Action O :=
  fun raw context =>
    match input raw with
    | None => throw ValidationError
    | Some i => handler i context
    end.

(** The access guard on a template row:
    [template.userId && template.userId !== user.id]. *)
Definition foreign_owner (t : Template.t) (u : User.t) : bool :=
  truthy_opt (Template.userId t) && negb (opt_eqb (Template.userId t) (User.id u)).

(** A value of [updateData] written over a nullable column: an absent key
    leaves the column as it is. *)
Definition override {A} (new : option A) (old : option A) : option A :=
  match new with
  | Some x => Some x
  | None => old
  end.

(** The same over a column that is not nullable. *)
Definition overwrite {A} (new : option A) (old : A) : A :=
  match new with
  | Some x => x
  | None => old
  end.

(** [v === null], for the value of a nullable column. *)
Definition is_null {A} (o : option A) : bool :=
  match o with
  | Some _ => false
  | None => true
  end.

(** [typeof v !== "undefined"], for an optional field of an input. *)
Definition present {A} (o : option A) : bool :=
  match o with
  | Some _ => true
  | None => false
  end.

(** ** The actions *)

Module createTemplate.
Record input := mkInput {
  id : option string;
  name : string;
  description : option string;
  category : option string;
  baseLanguage : option string;
  body : string;
  isSystem : option bool
}.

Definition schema (raw : Raw) : option input :=
  match raw with
  | RObject o =>
      id <~ z_optional z_string (prop "id" o) ;;
      name <~ z_string_min 1 (prop "name" o) ;;
      description <~ z_optional z_string (prop "description" o) ;;
      category <~ z_optional z_string (prop "category" o) ;;
      baseLanguage <~ z_optional z_string (prop "baseLanguage" o) ;;
      body <~ z_string_min 1 (prop "body" o) ;;
      isSystem <~ z_optional z_boolean (prop "isSystem" o) ;;
      Some (mkInput id name description category baseLanguage body isSystem)
  | RValue _ => None
  end.

Definition handler (E : Env) (input : input) (context : Context)
  : Action (option Template.t) :=
  user <- requireUser context ;;
  returned <- db_insert templatesT
    {| Template.id := nullish (id input) (randomUUID E);
       Template.userId :=
         if nullish (isSystem input) false then None else Some (User.id user);
       Template.name := name input;
       Template.description := description input;
       Template.category := category input;
       Template.baseLanguage := baseLanguage input;
       Template.body := body input;
       Template.isSystem := nullish (isSystem input) false;
       Template.createdAt := now E;
       Template.updatedAt := now E |} ;;
  ret (first returned).
End createTemplate.

Module updateTemplate.
Record input := mkInput {
  id : string;
  name : option string;
  description : option string;
  category : option string;
  baseLanguage : option string;
  body : option string;
  isSystem : option bool
}.

Definition schema (raw : Raw) : option input :=
  match raw with
  | RObject o =>
      id <~ z_string (prop "id" o) ;;
      name <~ z_optional (z_string_min 1) (prop "name" o) ;;
      description <~ z_optional z_string (prop "description" o) ;;
      category <~ z_optional z_string (prop "category" o) ;;
      baseLanguage <~ z_optional z_string (prop "baseLanguage" o) ;;
      body <~ z_optional z_string (prop "body" o) ;;
      isSystem <~ z_optional z_boolean (prop "isSystem" o) ;;
      Some (mkInput id name description category baseLanguage body isSystem)
  | RValue _ => None
  end.

(** [Object.keys(updateData).length === 0], where [updateData] holds the
    entries of [rest] (the input without [id]) that are not [undefined]. *)
Definition no_keys (input : input) : bool :=
  negb (present (name input) || present (description input)
        || present (category input) || present (baseLanguage input)
        || present (body input) || present (isSystem input)).

(** [.set({ ...updateData, updatedAt: new Date() })] on one row. *)
Definition set (E : Env) (input : input) (t : Template.t) : Template.t :=
  {| Template.id := Template.id t;
     Template.userId := Template.userId t;
     Template.name := overwrite (name input) (Template.name t);
     Template.description := override (description input) (Template.description t);
     Template.category := override (category input) (Template.category t);
     Template.baseLanguage := override (baseLanguage input) (Template.baseLanguage t);
     Template.body := overwrite (body input) (Template.body t);
     Template.isSystem := overwrite (isSystem input) (Template.isSystem t);
     Template.createdAt := Template.createdAt t;
     Template.updatedAt := now E |}.

Definition handler (E : Env) (input : input) (context : Context)
  : Action (option Template.t) :=
  user <- requireUser context ;;
  found <- db_select templatesT (fun t => Template.id t =? id input) (Some 1) ;;
  match first found with
  | None => throw NotFound
  | Some existing =>
      if foreign_owner existing user then throw NotFound
      else if no_keys input then ret (Some existing)
      else
        returned <- db_update templatesT (set E input) false
                      (fun t => Template.id t =? id input) ;;
        ret (first returned)
  end.
End updateTemplate.

Module listTemplates.
(** [z.object({}).optional()] *)
Definition schema (raw : Raw) : option unit :=
  match raw with
  | RObject _ => Some tt
  | RValue JUndefined => Some tt
  | RValue _ => None
  end.

Definition handler (E : Env) (input : unit) (context : Context)
  : Action (list Template.t) :=
  user <- requireUser context ;;
  templates <- db_select templatesT (fun _ => true) None ;;
  ret (filter (fun t => is_null (Template.userId t)
                        || opt_eqb (Template.userId t) (User.id user))
              templates).
End listTemplates.

(** [and(eq(Contracts.id, id), eq(Contracts.userId, user.id))] *)
Definition owned (i : string) (user : User.t) (c : Contract.t) : bool :=
  (Contract.id c =? i) && (Contract.userId c =? User.id user).

(** The lookup of the referenced template and its guard, as written in
    createContract ([if (input.templateId) { ... }]) and again in
    updateContract ([if (typeof templateId !== "undefined") { if (templateId)
    { ... } }]): nothing is looked up for an absent or empty [templateId]. *)
Definition check_template (templateId : option string) (user : User.t)
  : Action unit :=
  match templateId with
  | Some tid =>
      if truthy tid then
        found <- db_select templatesT (fun t => Template.id t =? tid) (Some 1) ;;
        match first found with
        | None => throw NotFound
        | Some template =>
            if foreign_owner template user then throw NotFound else ret tt
        end
      else ret tt
  | None => ret tt
  end.

Module createContract.
Record input := mkInput {
  id : option string;
  templateId : option string;
  title : string;
  partyAName : option string;
  partyBName : option string;
  effectiveDate : option Date;
  endDate : option Date;
  governingLaw : option string;
  status : option string;
  finalText : string;
  notes : option string
}.

Definition schema (E : Env) (raw : Raw) : option input :=
  match raw with
  | RObject o =>
      id <~ z_optional z_string (prop "id" o) ;;
      templateId <~ z_optional z_string (prop "templateId" o) ;;
      title <~ z_string_min 1 (prop "title" o) ;;
      partyAName <~ z_optional z_string (prop "partyAName" o) ;;
      partyBName <~ z_optional z_string (prop "partyBName" o) ;;
      effectiveDate <~ z_optional (coerceDate E) (prop "effectiveDate" o) ;;
      endDate <~ z_optional (coerceDate E) (prop "endDate" o) ;;
      governingLaw <~ z_optional z_string (prop "governingLaw" o) ;;
      status <~ z_optional z_string (prop "status" o) ;;
      finalText <~ z_string_min 1 (prop "finalText" o) ;;
      notes <~ z_optional z_string (prop "notes" o) ;;
      Some (mkInput id templateId title partyAName partyBName effectiveDate
              endDate governingLaw status finalText notes)
  | RValue _ => None
  end.

(** The row handed to [db.insert(Contracts).values(...)]. *)
Definition values (E : Env) (input : input) (user : User.t) : Contract.t :=
  {| Contract.id := nullish (id input) (randomUUID E);
     Contract.userId := User.id user;
     Contract.templateId := templateId input;
     Contract.title := title input;
     Contract.partyAName := partyAName input;
     Contract.partyBName := partyBName input;
     Contract.effectiveDate := effectiveDate input;
     Contract.endDate := endDate input;
     Contract.governingLaw := governingLaw input;
     Contract.status := status input;
     Contract.finalText := finalText input;
     Contract.notes := notes input;
     Contract.createdAt := now E;
     Contract.updatedAt := now E |}.

Definition handler (E : Env) (input : input) (context : Context)
  : Action (option Contract.t) :=
  user <- requireUser context ;;
  _ <- check_template (templateId input) user ;;
  returned <- db_insert contractsT (values E input user) ;;
  ret (first returned).
End createContract.

Module updateContract.
Record input := mkInput {
  id : string;
  templateId : option string;
  title : option string;
  partyAName : option string;
  partyBName : option string;
  effectiveDate : option Date;
  endDate : option Date;
  governingLaw : option string;
  status : option string;
  finalText : option string;
  notes : option string
}.

Definition schema (E : Env) (raw : Raw) : option input :=
  match raw with
  | RObject o =>
      id <~ z_string (prop "id" o) ;;
      templateId <~ z_optional z_string (prop "templateId" o) ;;
      title <~ z_optional z_string (prop "title" o) ;;
      partyAName <~ z_optional z_string (prop "partyAName" o) ;;
      partyBName <~ z_optional z_string (prop "partyBName" o) ;;
      effectiveDate <~ z_optional (coerceDate E) (prop "effectiveDate" o) ;;
      endDate <~ z_optional (coerceDate E) (prop "endDate" o) ;;
      governingLaw <~ z_optional z_string (prop "governingLaw" o) ;;
      status <~ z_optional z_string (prop "status" o) ;;
      finalText <~ z_optional z_string (prop "finalText" o) ;;
      notes <~ z_optional z_string (prop "notes" o) ;;
      Some (mkInput id templateId title partyAName partyBName effectiveDate
              endDate governingLaw status finalText notes)
  | RValue _ => None
  end.

(** [Object.keys(updateData).length === 0]: [updateData] holds the entries
    of [rest] that are not [undefined], and [templateId] when it is not
    [undefined]. *)
Definition no_keys (input : input) : bool :=
  negb (present (title input) || present (partyAName input)
        || present (partyBName input) || present (effectiveDate input)
        || present (endDate input) || present (governingLaw input)
        || present (status input) || present (finalText input)
        || present (notes input) || present (templateId input)).

(** [.set({ ...updateData, updatedAt: new Date() })] on one row. *)
Definition set (E : Env) (input : input) (c : Contract.t) : Contract.t :=
  {| Contract.id := Contract.id c;
     Contract.userId := Contract.userId c;
     Contract.templateId := override (templateId input) (Contract.templateId c);
     Contract.title := overwrite (title input) (Contract.title c);
     Contract.partyAName := override (partyAName input) (Contract.partyAName c);
     Contract.partyBName := override (partyBName input) (Contract.partyBName c);
     Contract.effectiveDate := override (effectiveDate input) (Contract.effectiveDate c);
     Contract.endDate := override (endDate input) (Contract.endDate c);
     Contract.governingLaw := override (governingLaw input) (Contract.governingLaw c);
     Contract.status := override (status input) (Contract.status c);
     Contract.finalText := overwrite (finalText input) (Contract.finalText c);
     Contract.notes := override (notes input) (Contract.notes c);
     Contract.createdAt := Contract.createdAt c;
     Contract.updatedAt := now E |}.

Definition handler (E : Env) (input : input) (context : Context)
  : Action (option Contract.t) :=
  user <- requireUser context ;;
  found <- db_select contractsT (owned (id input) user) (Some 1) ;;
  match first found with
  | None => throw NotFound
  | Some existing =>
      _ <- check_template (templateId input) user ;;
      if no_keys input then ret (Some existing)
      else
        returned <- db_update contractsT (set E input)
                      (present (templateId input)) (owned (id input) user) ;;
        ret (first returned)
  end.
End updateContract.

Module listContracts.
Definition schema (raw : Raw) : option unit := listTemplates.schema raw.

Definition handler (E : Env) (input : unit) (context : Context)
  : Action (list Contract.t) :=
  user <- requireUser context ;;
  contracts <- db_select contractsT
                 (fun c => Contract.userId c =? User.id user) None ;;
  ret contracts.
End listContracts.

Module deleteContract.
Record input := mkInput { id : string }.

Definition schema (raw : Raw) : option input :=
  match raw with
  | RObject o =>
      id <~ z_string (prop "id" o) ;;
      Some (mkInput id)
  | RValue _ => None
  end.

Definition handler (E : Env) (input : input) (context : Context)
  : Action Contract.t :=
  user <- requireUser context ;;
  returned <- db_delete contractsT (owned (id input) user) ;;
  match first returned with
  | None => throw NotFound
  | Some deleted => ret deleted
  end.
End deleteContract.

Module saveClause.
Record input := mkInput {
  id : option string;
  contractId : string;
  orderIndex : Z;
  heading : option string;
  body : string;
  clauseKey : option string
}.

Definition schema (raw : Raw) : option input :=
  match raw with
  | RObject o =>
      id <~ z_optional z_string (prop "id" o) ;;
      contractId <~ z_string (prop "contractId" o) ;;
      orderIndex <~ z_number_int_positive (prop "orderIndex" o) ;;
      heading <~ z_optional z_string (prop "heading" o) ;;
      body <~ z_string_min 1 (prop "body" o) ;;
      clauseKey <~ z_optional z_string (prop "clauseKey" o) ;;
      Some (mkInput id contractId orderIndex heading body clauseKey)
  | RValue _ => None
  end.

(** [.set(baseValues)] on one row.  [baseValues] always has the six keys;
    [heading] and [clauseKey] are [undefined] when the input leaves them
    out.  The update builder behind [astro:db] (drizzle) ignores the keys
    of the object given to [set] whose value is [undefined] (a column is
    set to null by passing [null]): an optional field the input leaves out
    keeps the value the row has. *)
Definition set (E : Env) (input : input) (cl : Clause.t) : Clause.t :=
  {| Clause.id := Clause.id cl;
     Clause.contractId := contractId input;
     Clause.orderIndex := orderIndex input;
     Clause.heading := override (heading input) (Clause.heading cl);
     Clause.body := body input;
     Clause.clauseKey := override (clauseKey input) (Clause.clauseKey cl);
     Clause.createdAt := now E |}.

(** [db.insert(ContractClauses).values(baseValues)]: [baseValues] has no
    [id], and the row is stored with a null [id]; a column left [undefined]
    is stored as null. *)
Definition insert (E : Env) (input : input) : Action (list Clause.t) :=
  db_insert clausesT
    {| Clause.id := None;
       Clause.contractId := contractId input;
       Clause.orderIndex := orderIndex input;
       Clause.heading := heading input;
       Clause.body := body input;
       Clause.clauseKey := clauseKey input;
       Clause.createdAt := now E |}.

(** The branch of [if (input.id)], for the truthy id [i]. *)
Definition update (E : Env) (input : input) (i : string)
  : Action (option Clause.t) :=
  found <- db_select clausesT (fun cl => opt_eqb (Clause.id cl) i) (Some 1) ;;
  match first found with
  | None => throw NotFound
  | Some existing =>
      if negb (Clause.contractId existing =? contractId input)
      then throw NotFound
      else
        returned <- db_update clausesT (set E input) true
                      (fun cl => opt_eqb (Clause.id cl) i) ;;
        ret (first returned)
  end.

Definition handler (E : Env) (input : input) (context : Context)
  : Action (option Clause.t) :=
  user <- requireUser context ;;
  found <- db_select contractsT
             (owned (contractId input) user) (Some 1) ;;
  match first found with
  | None => throw NotFound
  | Some contract =>
      match id input with
      | Some i =>
          if truthy i then update E input i
          else returned <- insert E input ;; ret (first returned)
      | None => returned <- insert E input ;; ret (first returned)
      end
  end.
End saveClause.

Module deleteClause.
Record input := mkInput { id : string; contractId : string }.

Definition schema (raw : Raw) : option input :=
  match raw with
  | RObject o =>
      id <~ z_string (prop "id" o) ;;
      contractId <~ z_string (prop "contractId" o) ;;
      Some (mkInput id contractId)
  | RValue _ => None
  end.

Definition handler (E : Env) (input : input) (context : Context)
  : Action Clause.t :=
  user <- requireUser context ;;
  found <- db_select contractsT
             (owned (contractId input) user) (Some 1) ;;
  match first found with
  | None => throw NotFound
  | Some contract =>
      returned <- db_delete clausesT
                    (fun cl => opt_eqb (Clause.id cl) (id input)
                               && (Clause.contractId cl =? contractId input)) ;;
      match first returned with
      | None => throw NotFound
      | Some deleted => ret deleted
      end
  end.
End deleteClause.

Module getContractWithClauses.
Record input := mkInput { id : string }.

Definition schema (raw : Raw) : option input :=
  match raw with
  | RObject o =>
      id <~ z_string (prop "id" o) ;;
      Some (mkInput id)
  | RValue _ => None
  end.

Definition handler (E : Env) (input : input) (context : Context)
  : Action (Contract.t * list Clause.t) :=
  user <- requireUser context ;;
  found <- db_select contractsT (owned (id input) user) (Some 1) ;;
  match first found with
  | None => throw NotFound
  | Some contract =>
      clauses <- db_select clausesT
                   (fun cl => Clause.contractId cl =? id input) None ;;
      ret (contract, clauses)
  end.
End getContractWithClauses.

(** ** The exported [server] object *)

Inductive Op :=
| createTemplate | updateTemplate | listTemplates
| createContract | updateContract | listContracts | deleteContract
| saveClause | deleteClause | getContractWithClauses.

(** What an action returns. *)
Inductive Reply :=
| reply_template (template : option Template.t)
| reply_templates (templates : list Template.t)
| reply_contract (contract : option Contract.t)
| reply_contracts (contracts : list Contract.t)
| reply_clause (clause : option Clause.t)
| reply_contract_clauses (contract : Contract.t) (clauses : list Clause.t).

Definition fmap {A B} (f : A -> B) (m : Action A) : Action B :=
  a <- m ;; ret (f a).

Definition server (E : Env) (op : Op) : Raw -> Context -> Action Reply :=
  match op with
  | createTemplate =>
      defineAction createTemplate.schema
        (fun i c => fmap reply_template (createTemplate.handler E i c))
  | updateTemplate =>
      defineAction updateTemplate.schema
        (fun i c => fmap reply_template (updateTemplate.handler E i c))
  | listTemplates =>
      defineAction listTemplates.schema
        (fun i c => fmap reply_templates (listTemplates.handler E i c))
  | createContract =>
      defineAction (createContract.schema E)
        (fun i c => fmap reply_contract (createContract.handler E i c))
  | updateContract =>
      defineAction (updateContract.schema E)
        (fun i c => fmap reply_contract (updateContract.handler E i c))
  | listContracts =>
      defineAction listContracts.schema
        (fun i c => fmap reply_contracts (listContracts.handler E i c))
  | deleteContract =>
      defineAction deleteContract.schema
        (fun i c => fmap (fun x => reply_contract (Some x)) (deleteContract.handler E i c))
  | saveClause =>
      defineAction saveClause.schema
        (fun i c => fmap reply_clause (saveClause.handler E i c))
  | deleteClause =>
      defineAction deleteClause.schema
        (fun i c => fmap (fun x => reply_clause (Some x)) (deleteClause.handler E i c))
  | getContractWithClauses =>
      defineAction getContractWithClauses.schema
        (fun i c => fmap (fun p => reply_contract_clauses (fst p) (snd p))
                      (getContractWithClauses.handler E i c))
  end.

(** Whether the schema of [op] accepts the raw input. *)
Definition accepts (E : Env) (op : Op) (raw : Raw) : bool :=
  match op with
  | createTemplate => present (createTemplate.schema raw)
  | updateTemplate => present (updateTemplate.schema raw)
  | listTemplates => present (listTemplates.schema raw)
  | createContract => present (createContract.schema E raw)
  | updateContract => present (updateContract.schema E raw)
  | listContracts => present (listContracts.schema raw)
  | deleteContract => present (deleteContract.schema raw)
  | saveClause => present (saveClause.schema raw)
  | deleteClause => present (deleteClause.schema raw)
  | getContractWithClauses => present (getContractWithClauses.schema raw)
  end.

(** ** Lookups and sample data used in the statements below *)

(** The row a [select ... where id = i limit 1] yields. *)
Definition find_template (i : string) (d : Db) : option Template.t :=
  hd_error (filter (fun t => Template.id t =? i) (ContractTemplates d)).

Definition find_contract (i : string) (u : User.t) (d : Db) : option Contract.t :=
  hd_error (filter (owned i u) (Contracts d)).

Definition find_clause (i : string) (d : Db) : option Clause.t :=
  hd_error (filter (fun cl => opt_eqb (Clause.id cl) i) (ContractClauses d)).

Definition empty_db : Db := mkDb [] [] [].

(** An environment whose clock reads [t]. *)
Definition env_at (t : Date) : Env :=
  mkEnv t "00000000-0000-4000-8000-000000000000"
    (fun v => match v with JNumber n => Some n | _ => None end).

Definition alice : User.t := User.mk "alice".
Definition bob : User.t := User.mk "bob".

(** A user object whose [id] is the empty string. *)
Definition nameless : User.t := User.mk "".

(** A context without a signed-in user. *)
Definition anonymous : Context := mkContext (Some (mkLocals None)).

(** The template "t1" as [nameless] creates it, and the database holding
    it. *)
Definition draft_t1 : createTemplate.input :=
  createTemplate.mkInput (Some "t1") "NDA" None None None "Parties agree" None.

Definition db_t1 : Db :=
  run_db (createTemplate.handler (env_at 1000%Z) draft_t1 (signedIn nameless) empty_db).

Definition rename_t1 : updateTemplate.input :=
  updateTemplate.mkInput "t1" (Some "Renamed") None None None None None.

(** A system template "sys" created by bob, then bob's contract "c1". *)
Definition system_sys : createTemplate.input :=
  createTemplate.mkInput (Some "sys") "Lease" None None None "Premises" (Some true).

Definition db_sys : Db :=
  run_db (createTemplate.handler (env_at 1000%Z) system_sys (signedIn bob) empty_db).

Definition contract_on (i : string) (tid : option string) : createContract.input :=
  createContract.mkInput (Some i) tid "T" None None None None None None "F" None.

Definition db_sys_c1 : Db :=
  run_db (createContract.handler (env_at 1500%Z) (contract_on "c1" (Some "sys"))
            (signedIn bob) db_sys).

(** Alice's contract "ca", without a template, next to the system template
    "sys". *)
Definition db_sys_ca : Db :=
  run_db (createContract.handler (env_at 1200%Z) (contract_on "ca" None)
            (signedIn alice) db_sys).

(** Inputs that carry the id alone. *)
Definition only_id_template (i : string) : updateTemplate.input :=
  updateTemplate.mkInput i None None None None None None.

Definition only_id_contract (i : string) : updateContract.input :=
  updateContract.mkInput i None None None None None None None None None None.

(** Alice's contract "ca"; and the same with a clause of key "k1" under
    it, as a seed or another client of the store leaves it (saveClause
    itself stores a new clause without a key). *)
Definition db_ca : Db :=
  run_db (createContract.handler (env_at 1000%Z) (contract_on "ca" None)
            (signedIn alice) empty_db).

Definition payment_clause : saveClause.input :=
  saveClause.mkInput None "ca" 1 (Some "Payment") "Pay within 30 days"
    (Some "payment").

Definition db_ca_k1 : Db :=
  mkDb (ContractTemplates db_ca) (Contracts db_ca)
    [Clause.mk (Some "k1") "ca" 1 (Some "Payment") "Pay within 30 days"
       (Some "payment") 1100%Z].

(** The same clause saved again under its id, without heading and key. *)
Definition payment_clause_again : saveClause.input :=
  saveClause.mkInput (Some "k1") "ca" 1 None "Pay within 15 days" None.

(** The same clause saved again under its id with every field given. *)
Definition payment_clause_retitled : saveClause.input :=
  saveClause.mkInput (Some "k1") "ca" 3 (Some "Payment terms")
    "Pay within 15 days" (Some "terms").

(** A clause saved under the empty id. *)
Definition clause_empty_id : saveClause.input :=
  saveClause.mkInput (Some "") "ca" 2 None "Notices in writing" None.

(** Alice's contract "ca" next to the template "t1" of [nameless]. *)
Definition db_t1_ca : Db :=
  run_db (createContract.handler (env_at 1200%Z) (contract_on "ca" None)
            (signedIn alice) db_t1).

(** An update of a contract that sets its [templateId] and nothing else. *)
Definition relink (i : string) (tid : string) : updateContract.input :=
  updateContract.mkInput i (Some tid) None None None None None None None None None.

(** Updates of a contract that empty its [title], with or without a
    [templateId], or its [finalText]. *)
Definition empty_title (i : string) (tid : option string) : updateContract.input :=
  updateContract.mkInput i tid (Some "") None None None None None None None None.

Definition empty_finalText (i : string) : updateContract.input :=
  updateContract.mkInput i None None None None None None None None (Some "") None.

(** The template "t1" as alice creates it, without [isSystem], and the
    update that then sets [isSystem]. *)
Definition db_alice_t1 : Db :=
  run_db (createTemplate.handler (env_at 1000%Z) draft_t1 (signedIn alice) empty_db).

Definition mark_system_t1 : updateTemplate.input :=
  updateTemplate.mkInput "t1" None None None None None (Some true).

(** Bob's private template "t2". *)
Definition draft_t2 : createTemplate.input :=
  createTemplate.mkInput (Some "t2") "Offer" None None None "Salary" None.

Definition db_bob_t2 : Db :=
  run_db (createTemplate.handler (env_at 1000%Z) draft_t2 (signedIn bob) empty_db).

Definition rename_t2 : updateTemplate.input :=
  updateTemplate.mkInput "t2" (Some "Mine") None None None None None.

(** Alice's second contract "cb" next to "ca" and its clause "k1", and the
    clause "k1" saved under "cb". *)
Definition db_ca_cb_k1 : Db :=
  run_db (createContract.handler (env_at 1200%Z) (contract_on "cb" None)
            (signedIn alice) db_ca_k1).

Definition clause_k1_under_cb : saveClause.input :=
  saveClause.mkInput (Some "k1") "cb" 1 None "Pay within 15 days" None.

(** ** Predicates on databases, for the statements about all actions *)

(** The ids of the clauses that have one. *)
Definition clause_ids (l : list Clause.t) : list string :=
  flat_map (fun cl => match Clause.id cl with
                      | Some k => [k]
                      | None => []
                      end) l.

(** The primary keys hold: no two rows of a table share an [id] that is
    not null. *)
Definition keys_unique (d : Db) : Prop :=
  NoDup (map Template.id (ContractTemplates d))
  /\ NoDup (map Contract.id (Contracts d))
  /\ NoDup (clause_ids (ContractClauses d)).

(** The references hold: the template of every contract and the contract
    of every clause are in the store. *)
Definition references_hold (d : Db) : Prop :=
  (forall c, In c (Contracts d) -> link_ok d c = true)
  /\ (forall cl, In cl (ContractClauses d) ->
                 has_contract d (Clause.contractId cl) = true).

(** The clauses stored without an id. *)
Definition clauses_without_id (d : Db) : list Clause.t :=
  filter (fun cl => is_null (Clause.id cl)) (ContractClauses d).

(** The contracts of [d] that belong to users other than [u]. *)
Definition contracts_of_others (u : User.t) (d : Db) : list Contract.t :=
  filter (fun c => negb (Contract.userId c =? User.id u)) (Contracts d).

(** The templates of [d] that the guard closes to [u]. *)
Definition templates_of_others (u : User.t) (d : Db) : list Template.t :=
  filter (fun t => foreign_owner t u) (ContractTemplates d).

(** Whether [u] owns, in [d], a contract of id [i]. *)
Definition owns_contract (u : User.t) (d : Db) (i : string) : bool :=
  existsb (owned i u) (Contracts d).

(** The clauses of [d] under contracts that [u] does not own in [d0]. *)
Definition clauses_of_others (u : User.t) (d0 d : Db) : list Clause.t :=
  filter (fun cl => negb (owns_contract u d0 (Clause.contractId cl)))
         (ContractClauses d).


Definition failed {A} (r : Run A) : bool :=
  match run_res r with
  | inl _ => true
  | inr _ => false
  end.

(** What a call made by [u] can do to the database [d]: nothing, or one of
    eight writes.  Each case records what the handler has established
    before it writes. *)
Inductive Change (u : User.t) (d : Db) : Db -> Prop :=
| change_none : Change u d d
| change_template_added (t : Template.t) :
    (forall x, In x (ContractTemplates d) -> Template.id x <> Template.id t) ->
    foreign_owner t u = false ->
    Template.name t <> "" ->
    Change u d (mkDb (ContractTemplates d ++ [t]) (Contracts d) (ContractClauses d))
| change_template_updated (i : string) (f : Template.t -> Template.t)
                          (t0 : Template.t) :
    find_template i d = Some t0 ->
    foreign_owner t0 u = false ->
    (forall x, Template.id (f x) = Template.id x
               /\ Template.userId (f x) = Template.userId x
               /\ (Template.name x <> "" -> Template.name (f x) <> "")) ->
    Change u d (mkDb (map (fun x => if Template.id x =? i then f x else x)
                        (ContractTemplates d))
                  (Contracts d) (ContractClauses d))
| change_contract_added (c : Contract.t) :
    (forall x, In x (Contracts d) -> Contract.id x <> Contract.id c) ->
    Contract.userId c = User.id u ->
    link_ok d c = true ->
    Change u d (mkDb (ContractTemplates d) (Contracts d ++ [c]) (ContractClauses d))
| change_contract_updated (i : string) (f : Contract.t -> Contract.t) :
    (forall x, Contract.id (f x) = Contract.id x
               /\ Contract.userId (f x) = Contract.userId x) ->
    (forall x, In x (Contracts d) -> owned i u x = true ->
               link_ok d x = true -> link_ok d (f x) = true) ->
    Change u d (mkDb (ContractTemplates d)
                  (map (fun x => if owned i u x then f x else x) (Contracts d))
                  (ContractClauses d))
| change_contract_deleted (i : string) :
    has_clauses d i = false ->
    Change u d (mkDb (ContractTemplates d)
                  (filter (fun x => negb (owned i u x)) (Contracts d))
                  (ContractClauses d))
| change_clause_added (cl : Clause.t) :
    Clause.id cl = None ->
    owns_contract u d (Clause.contractId cl) = true ->
    Clause.body cl <> "" ->
    (0 < Clause.orderIndex cl)%Z ->
    Change u d (mkDb (ContractTemplates d) (Contracts d) (ContractClauses d ++ [cl]))
| change_clause_updated (i : string) (f : Clause.t -> Clause.t) (e : Clause.t) :
    find_clause i d = Some e ->
    owns_contract u d (Clause.contractId e) = true ->
    (forall x, Clause.id (f x) = Clause.id x
               /\ owns_contract u d (Clause.contractId (f x)) = true
               /\ Clause.body (f x) <> ""
               /\ (0 < Clause.orderIndex (f x))%Z) ->
    Change u d (mkDb (ContractTemplates d) (Contracts d)
                  (map (fun x => if opt_eqb (Clause.id x) i then f x else x)
                     (ContractClauses d)))
| change_clause_deleted (i cid : string) :
    owns_contract u d cid = true ->
    Change u d (mkDb (ContractTemplates d) (Contracts d)
                  (filter (fun x => negb (opt_eqb (Clause.id x) i
                                          && (Clause.contractId x =? cid)))
                     (ContractClauses d))).

(** The texts and numbers the schemas insist on, as a property of the
    stored rows: a template has a name, a clause has a body and a positive
    [orderIndex]. *)
Definition texts_present (d : Db) : Prop :=
  (forall t, In t (ContractTemplates d) -> Template.name t <> "")
  /\ (forall cl, In cl (ContractClauses d) ->
                 Clause.body cl <> "" /\ (0 < Clause.orderIndex cl)%Z).

(** Bob's private template "t2" and alice's "t1" side by side. *)
Definition db_t2_t1 : Db :=
  run_db (createTemplate.handler (env_at 1100%Z) draft_t1 (signedIn alice) db_bob_t2).

(** Alice's contract "ca" with its clause "k1", and bob's contract "cz"
    with its clause "k9". *)
Definition db_ca_cz : Db :=
  run_db (createContract.handler (env_at 1300%Z) (contract_on "cz" None)
            (signedIn bob) db_ca_k1).

Definition db_ca_cz_k9 : Db :=
  mkDb (ContractTemplates db_ca_cz) (Contracts db_ca_cz)
    (ContractClauses db_ca_cz
       ++ [Clause.mk (Some "k9") "cz" 1 (Some "Notices") "Notices in writing"
             None 1400%Z]).

(** A call to the server: the environment it runs in, the action, the raw
    input and the calling context. *)
Record Call := mkCall {
  call_env : Env;
  call_op : Op;
  call_raw : Raw;
  call_context : Context
}.

(** The database after a sequence of calls. *)
Definition after (calls : list Call) (d : Db) : Db :=
  fold_left
    (fun d k => run_db (server (call_env k) (call_op k) (call_raw k)
                          (call_context k) d))
    calls d.

(** Bob tries to delete alice's contract "ca"; alice deletes her clause
    "k1" and gives "ca" a new title. *)
Definition later_calls : list Call :=
  [ mkCall (env_at 3000%Z) deleteContract (RObject [("id", JString "ca")])
      (signedIn bob);
    mkCall (env_at 4000%Z) deleteClause
      (RObject [("id", JString "k1"); ("contractId", JString "ca")])
      (signedIn alice);
    mkCall (env_at 5000%Z) updateContract
      (RObject [("id", JString "ca"); ("title", JString "Sale")])
      (signedIn alice) ].

(** The table an action writes, if it writes at all. *)
Definition written_table (op : Op) : option TableName :=
  match op with
  | createTemplate | updateTemplate => Some TContractTemplates
  | createContract | updateContract | deleteContract => Some TContracts
  | saveClause | deleteClause => Some TContractClauses
  | listTemplates | listContracts | getContractWithClauses => None
  end.

Definition TableName_eqb (a b : TableName) : bool :=
  match a, b with
  | TContractTemplates, TContractTemplates => true
  | TContracts, TContracts => true
  | TContractClauses, TContractClauses => true
  | _, _ => false
  end.

(** A query that reads, or that writes the table [o]. *)
Definition read_or_writes (o : option TableName) (a : Access) : bool :=
  match a with
  | Read _ => true
  | Write t =>
      match o with
      | Some t' => TableName_eqb t t'
      | None => false
      end
  end.

(** The run [r] from [d] has left every table but [o] as it was and has
    sent no write to another table. *)
Definition confined_to {A} (o : option TableName) (d : Db) (r : Run A) : Prop :=
  (o <> Some TContractTemplates ->
   ContractTemplates (run_db r) = ContractTemplates d)
  /\ (o <> Some TContracts -> Contracts (run_db r) = Contracts d)
  /\ (o <> Some TContractClauses ->
      ContractClauses (run_db r) = ContractClauses d)
  /\ forallb (read_or_writes o) (run_log r) = true.

(** * Properties *)

(** ** Lists, strings and the monad *)

Lemma first_limit_one {R} (l : list R) : first (limit (Some 1) l) = hd_error l.
Proof. destruct l; reflexivity. Qed.

Lemma hd_error_filter_some {R} (p : R -> bool) (l : list R) (x : R) :
  hd_error (filter p l) = Some x -> In x l /\ p x = true.
Proof.
  intros H. apply filter_In.
  destruct (filter p l) as [|y ys] eqn:F; [discriminate|].
  injection H as ->. rewrite <- F. rewrite F. now left.
Qed.

Lemma hd_error_filter_none {R} (p : R -> bool) (l : list R) :
  hd_error (filter p l) = None <-> forall x, In x l -> p x = false.
Proof.
  split.
  - intros H x Hx. destruct (p x) eqn:P; [|reflexivity].
    assert (Hin : In x (filter p l)) by (apply filter_In; auto).
    destruct (filter p l); [contradiction | discriminate].
  - intros H. destruct (filter p l) as [|y ys] eqn:F; [reflexivity|].
    assert (Hin : In y (filter p l)) by (rewrite F; now left).
    apply filter_In in Hin as [Hy Py]. rewrite (H y Hy) in Py. discriminate.
Qed.

Lemma truthy_true (s : string) : truthy s = true <-> s <> "".
Proof.
  unfold truthy. rewrite negb_true_iff. apply String.eqb_neq.
Qed.

Lemma truthy_false (s : string) : truthy s = false <-> s = "".
Proof.
  unfold truthy. rewrite negb_false_iff. apply String.eqb_eq.
Qed.

(** The guard rejects exactly the rows whose [userId] is a non-empty string
    other than the caller's id. *)
Lemma foreign_owner_true (t : Template.t) (u : User.t) :
  foreign_owner t u = true <->
  exists o, Template.userId t = Some o /\ o <> "" /\ o <> User.id u.
Proof.
  unfold foreign_owner, truthy_opt, opt_eqb.
  destruct (Template.userId t) as [o|]; simpl.
  - rewrite andb_true_iff, truthy_true, negb_true_iff, String.eqb_neq.
    split.
    + intros [H1 H2]. exists o. auto.
    + intros (o' & [= <-] & H1 & H2). auto.
  - split; [discriminate|]. intros (o & [=] & _).
Qed.

Lemma foreign_owner_false (t : Template.t) (u : User.t) :
  foreign_owner t u = false <->
  Template.userId t = None \/ Template.userId t = Some ""
  \/ Template.userId t = Some (User.id u).
Proof.
  unfold foreign_owner, truthy_opt, opt_eqb.
  destruct (Template.userId t) as [o|]; simpl.
  - rewrite andb_false_iff, truthy_false, negb_false_iff, String.eqb_eq.
    split.
    + intros [->| ->]; auto.
    + intros [[=]|[[= ->]|[= ->]]]; auto.
  - split; auto.
Qed.

(** On a row whose owner is not the empty string the guard is the test
    "the owner is not null and is not the caller". *)
Lemma foreign_owner_nonempty (t : Template.t) (u : User.t) :
  Template.userId t <> Some "" ->
  (foreign_owner t u = true <->
   exists o, Template.userId t = Some o /\ o <> User.id u).
Proof.
  intros Hne. rewrite foreign_owner_true. split.
  - intros (o & Ho & _ & H). exists o. auto.
  - intros (o & Ho & H). exists o. repeat split; auto.
    intros ->. contradiction.
Qed.

Lemma bind_ret {A B} (a : A) (k : A -> Action B) (d : Db) :
  bind (ret a) k d = k a d.
Proof. unfold bind, ret. simpl. now destruct (k a d). Qed.

Lemma bind_throw {A B} (e : Error) (k : A -> Action B) (d : Db) :
  bind (throw e) k d = mkRun d [] (inl e).
Proof. reflexivity. Qed.

Lemma bind_requireUser {B} (u : User.t) (k : User.t -> Action B) (d : Db) :
  bind (requireUser (signedIn u)) k d = k u d.
Proof. apply bind_ret. Qed.

Lemma bind_requireUser_none {B} (c : Context) (k : User.t -> Action B) (d : Db) :
  locals_user c = None ->
  bind (requireUser c) k d = mkRun d [] (inl Unauthorized).
Proof. intros H. unfold requireUser. rewrite H. reflexivity. Qed.

Lemma forallb_always {R} (l : list R) : forallb (fun _ => true) l = true.
Proof. induction l; [reflexivity|exact IHl]. Qed.

Lemma bind_select {R B} (T : Table R) (c : R -> bool) (n : option nat)
      (k : list R -> Action B) (d : Db) :
  bind (db_select T c n) k d
  = if forallb (readable T) (limit n (filter c (rows T d)))
    then logged (Read (table_name T)) (k (limit n (filter c (rows T d))) d)
    else mkRun d [Read (table_name T)] (inl StoreFailure).
Proof.
  unfold bind, db_select. cbv zeta. cbn [run_res].
  destruct (forallb (readable T) _); reflexivity.
Qed.

(** The rows of a lookup of one row can be read when the row found can. *)
Lemma forallb_limit_one {R} (p : R -> bool) (l : list R) :
  forallb p (limit (Some 1) l)
  = match hd_error l with Some x => p x | None => true end.
Proof.
  destruct l as [|x l]; [reflexivity|]. cbn. apply andb_true_r.
Qed.

Lemma bind_update {R B} (T : Table R) (f : R -> R) (refs : bool) (c : R -> bool)
      (k : list R -> Action B) (d : Db) :
  bind (db_update T f refs c) k d
  = let updated := map f (filter c (rows T d)) in
    let d' := with_rows T (map (fun x => if c x then f x else x) (rows T d)) d in
    if refs && negb (forallb (references_ok T d) updated)
    then mkRun d [Write (table_name T)] (inl StoreFailure)
    else if forallb (readable T) updated
         then logged (Write (table_name T)) (k updated d')
         else mkRun d' [Write (table_name T)] (inl StoreFailure).
Proof.
  unfold bind, db_update, refused, committed. cbv zeta.
  destruct (refs && negb _); [reflexivity|].
  cbn [run_res]. destruct (forallb (readable T) _); reflexivity.
Qed.

Lemma bind_delete {R B} (T : Table R) (c : R -> bool)
      (k : list R -> Action B) (d : Db) :
  bind (db_delete T c) k d
  = let deleted := filter c (rows T d) in
    let d' := with_rows T (filter (fun x => negb (c x)) (rows T d)) d in
    if existsb (referenced T d) deleted
    then mkRun d [Write (table_name T)] (inl StoreFailure)
    else if forallb (readable T) deleted
         then logged (Write (table_name T)) (k deleted d')
         else mkRun d' [Write (table_name T)] (inl StoreFailure).
Proof.
  unfold bind, db_delete, refused, committed. cbv zeta.
  destruct (existsb _ _); [reflexivity|].
  cbn [run_res]. destruct (forallb (readable T) _); reflexivity.
Qed.

Lemma bind_insert {R B} (T : Table R) (r : R) (k : list R -> Action B) (d : Db) :
  bind (db_insert T r) k d
  = let d' := with_rows T (rows T d ++ [r]) d in
    if key_taken T r d || negb (references_ok T d r)
    then mkRun d [Write (table_name T)] (inl StoreFailure)
    else if readable T r
         then logged (Write (table_name T)) (k [r] d')
         else mkRun d' [Write (table_name T)] (inl StoreFailure).
Proof.
  unfold bind, db_insert, refused, committed. cbv zeta.
  destruct (key_taken T r d || negb _); [reflexivity|].
  cbn [run_res forallb]. rewrite andb_true_r.
  destruct (readable T r); reflexivity.
Qed.

Lemma bind_assoc {A B C} (m : Action A) (f : A -> Action B) (g : B -> Action C)
      (d : Db) :
  bind (bind m f) g d = bind m (fun a => bind (f a) g) d.
Proof.
  unfold bind. simpl.
  destruct (run_res (m d)) as [e|a]; simpl; [reflexivity|].
  destruct (run_res (f a (run_db (m d)))) as [e|b]; simpl; [reflexivity|].
  now rewrite app_assoc.
Qed.

#[local] Arguments limit : simpl never.
#[local] Arguments first : simpl never.

(** Runs a handler up to the next case distinction. *)
Ltac step :=
  repeat (first
            [ rewrite bind_requireUser
            | rewrite bind_select
            | rewrite bind_ret
            | rewrite bind_throw
            | rewrite first_limit_one ];
          cbn [rows with_rows table_name readable
               templatesT contractsT clausesT];
          rewrite ?forallb_always).

(** Runs a write on the templates or the contracts, whose rows can always
    be read back. *)
Ltac write_step :=
  first [ rewrite bind_update | rewrite bind_delete | rewrite bind_insert ];
  cbv zeta;
  cbn [rows with_rows table_name key references_ok referenced readable
       templatesT contractsT clausesT andb negb];
  rewrite ?forallb_always.

(** ** C1: visibility of templates *)

(** C1. For every signed-in caller and every database, listTemplates leaves
    the database alone and returns exactly the templates whose [userId] is
    null or the caller's id: an ownerless template is in every caller's
    list, and a template with an owner is only in its owner's list. *)
Theorem listTemplates_visibility :
  forall (E : Env) (d : Db) (u : User.t),
    exists ts,
      listTemplates.handler E tt (signedIn u) d
        = mkRun d [Read TContractTemplates] (inr ts)
      /\ (forall t, In t ts <->
            In t (ContractTemplates d)
            /\ (Template.userId t = None
                \/ Template.userId t = Some (User.id u)))
      /\ (forall t, In t (ContractTemplates d) ->
            Template.userId t = None -> In t ts)
      /\ (forall t o, In t ts -> Template.userId t = Some o -> o = User.id u).
Proof.
  intros E d u.
  assert (Hmem : forall t,
    In t (filter (fun t => is_null (Template.userId t)
                           || opt_eqb (Template.userId t) (User.id u))
            (ContractTemplates d)) <->
    In t (ContractTemplates d)
    /\ (Template.userId t = None \/ Template.userId t = Some (User.id u))).
  { intros t. rewrite filter_In.
    destruct (Template.userId t) as [o|]; simpl.
    - rewrite String.eqb_eq. split.
      + intros [H ->]. auto.
      + intros [H [[=]|[= ->]]]. auto.
    - split; intros [H _]; auto. }
  eexists. split; [|split; [exact Hmem|split]].
  - unfold listTemplates.handler. step. unfold ret, logged, limit. simpl.
    rewrite filter_true. reflexivity.
  - intros t Hin Hnone. apply Hmem. auto.
  - intros t o Hin Ho. apply Hmem in Hin as [_ [H|H]]; congruence.
Qed.

Lemma find_template_none (i : string) (d : Db) :
  find_template i d = None <->
  forall t, In t (ContractTemplates d) -> Template.id t <> i.
Proof.
  unfold find_template. rewrite hd_error_filter_none.
  split; intros H t Ht; specialize (H t Ht); now apply String.eqb_neq.
Qed.

Lemma hd_error_map {A B} (f : A -> B) (l : list A) :
  hd_error (map f l) = option_map f (hd_error l).
Proof. destruct l; reflexivity. Qed.

(** What updateTemplate does, by cases on the lookup, the guard and the
    keys of [updateData]. *)
Lemma updateTemplate_run (E : Env) (u : User.t) (input : updateTemplate.input) (d : Db) :
  updateTemplate.handler E input (signedIn u) d =
  match find_template (updateTemplate.id input) d with
  | None => mkRun d [Read TContractTemplates] (inl NotFound)
  | Some existing =>
      if foreign_owner existing u
      then mkRun d [Read TContractTemplates] (inl NotFound)
      else if updateTemplate.no_keys input
      then mkRun d [Read TContractTemplates] (inr (Some existing))
      else mkRun
             (mkDb (map (fun x => if Template.id x =? updateTemplate.id input
                                  then updateTemplate.set E input x else x)
                      (ContractTemplates d))
                   (Contracts d) (ContractClauses d))
             [Read TContractTemplates; Write TContractTemplates]
             (inr (Some (updateTemplate.set E input existing)))
  end.
Proof.
  unfold updateTemplate.handler, find_template. step.
  destruct (hd_error _) as [existing|] eqn:F; [|reflexivity].
  destruct (foreign_owner existing u); [reflexivity|].
  destruct (updateTemplate.no_keys input); [reflexivity|].
  write_step. step. unfold first. rewrite hd_error_map, F. reflexivity.
Qed.
(** The first row a condition selects, after an update of the rows it
    selects that keeps them selected. *)
Lemma hd_error_filter_update {R} (p : R -> bool) (f : R -> R) (l : list R) :
  (forall x, p x = true -> p (f x) = true) ->
  hd_error (filter p (map (fun x => if p x then f x else x) l))
  = option_map f (hd_error (filter p l)).
Proof.
  intros Hp. induction l as [|a l IH]; [reflexivity|].
  simpl. destruct (p a) eqn:Pa.
  - rewrite (Hp a Pa). reflexivity.
  - rewrite Pa. exact IH.
Qed.

(** ** C2: when updateTemplate answers NotFound *)

(** X23. What updateTemplate answers to a signed-in caller: NotFound
    exactly when no template has the id or the guard closes the one found,
    and then nothing has changed; a template whose owner is null is open
    to every caller, who gets the stored row when the input has no field,
    the database being left as it is, and otherwise the updated row,
    stored under the id, the other rows and tables being as before. *)
Lemma updateTemplate_guard_outcome :
  forall (E : Env) (u : User.t) (input : updateTemplate.input) (d : Db),
    let r := updateTemplate.handler E input (signedIn u) d in
    (run_res r = inl NotFound <->
       (forall t, In t (ContractTemplates d) ->
                  Template.id t <> updateTemplate.id input)
       \/ exists t, find_template (updateTemplate.id input) d = Some t
                    /\ foreign_owner t u = true)
    /\ (run_res r = inl NotFound ->
          run_db r = d /\ run_log r = [Read TContractTemplates])
    /\ (forall t, find_template (updateTemplate.id input) d = Some t ->
          Template.userId t = None ->
          run_res r
          = inr (Some (if updateTemplate.no_keys input then t
                       else updateTemplate.set E input t))
          /\ find_template (updateTemplate.id input) (run_db r)
             = Some (if updateTemplate.no_keys input then t
                     else updateTemplate.set E input t)
          /\ run_db r
             = (if updateTemplate.no_keys input then d
                else mkDb (map (fun x => if Template.id x =? updateTemplate.id input
                                         then updateTemplate.set E input x else x)
                             (ContractTemplates d))
                       (Contracts d) (ContractClauses d))).
Proof.
  intros E u input d r. subst r. rewrite updateTemplate_run.
  rewrite <- find_template_none.
  destruct (find_template (updateTemplate.id input) d) as [t|] eqn:F.
  - destruct (foreign_owner t u) eqn:G.
    + split; [|split].
      * split; [|reflexivity]. intros _. right. now exists t.
      * intros _. split; reflexivity.
      * intros t' [= <-] Hn.
        apply foreign_owner_true in G as (o & Ho & _). congruence.
    + split; [|split].
      * split.
        -- destruct (updateTemplate.no_keys input); discriminate.
        -- intros [H|(t' & [= <-] & H)]; [discriminate|congruence].
      * destruct (updateTemplate.no_keys input); discriminate.
      * intros t' [= <-] _.
        destruct (updateTemplate.no_keys input); cbn [run_res run_db];
          (split; [reflexivity|]); (split; [|reflexivity]); [exact F|].
        unfold find_template. cbn [ContractTemplates].
        rewrite hd_error_filter_update by (intros x Hx; exact Hx).
        fold (find_template (updateTemplate.id input) d). now rewrite F.
  - split; [|split].
    + split; auto.
    + intros _. split; reflexivity.
    + intros t [=].
Qed.

(** C2, where the code departs from it. A user whose id is the empty string
    creates the template "t1": its owner is not null and is not alice.  The
    claim has alice's updateTemplate on "t1" fail with NotFound and leave
    the row alone, and listTemplates agrees that "t1" is not alice's to
    see; the guard of updateTemplate, which tests the owner for truthiness
    and not against null, lets alice through and her update rewrites the
    row. *)
Theorem updateTemplate_empty_owner_not_rejected :
  (exists t, find_template "t1" db_t1 = Some t
             /\ Template.userId t = Some ""
             /\ Template.userId t <> None
             /\ Template.userId t <> Some (User.id alice))
  /\ run_res (listTemplates.handler (env_at 2000%Z) tt (signedIn alice) db_t1)
     = inr []
  /\ run_res (updateTemplate.handler (env_at 2000%Z) rename_t1 (signedIn alice) db_t1)
     <> inl NotFound
  /\ option_map Template.name
       (find_template "t1"
          (run_db (updateTemplate.handler (env_at 2000%Z) rename_t1
                     (signedIn alice) db_t1)))
     = Some "Renamed".
Proof.
  split; [|split; [|split]].
  - eexists. split; [reflexivity|]. cbn. repeat split; discriminate.
  - reflexivity.
  - vm_compute. discriminate.
  - reflexivity.
Qed.

(** ** C3: createContract and the referenced template *)

Lemma existsb_key_false {R} (k : R -> string) (i : string) (l : list R) :
  existsb (fun x => k x =? i) l = false <-> forall x, In x l -> k x <> i.
Proof.
  induction l as [|y l IH]; simpl.
  - split; [intros _ x []|reflexivity].
  - rewrite orb_false_iff, IH, String.eqb_neq. split.
    + intros [H1 H2] x [<-|Hx]; auto.
    + intros H. split; [apply H; now left|]. intros x Hx. apply H. now right.
Qed.

(** What the template check does, by cases. *)
Lemma check_template_run (tid : option string) (u : User.t) (d : Db) :
  check_template tid u d =
  match tid with
  | Some i =>
      if truthy i then
        match find_template i d with
        | None => mkRun d [Read TContractTemplates] (inl NotFound)
        | Some t =>
            if foreign_owner t u
            then mkRun d [Read TContractTemplates] (inl NotFound)
            else mkRun d [Read TContractTemplates] (inr tt)
        end
      else mkRun d [] (inr tt)
  | None => mkRun d [] (inr tt)
  end.
Proof.
  unfold check_template, find_template.
  destruct tid as [i|]; [|reflexivity].
  destruct (truthy i); [|reflexivity].
  step. destruct (hd_error _) as [t|]; [|reflexivity].
  destruct (foreign_owner t u); reflexivity.
Qed.

(** The check rejects a non-empty id exactly when no template has it or the
    template found has a non-empty owner other than the caller. *)
Lemma check_template_rejects (i : string) (u : User.t) (d : Db) :
  i <> "" ->
  (run_res (check_template (Some i) u d) = inl NotFound <->
     (forall t, In t (ContractTemplates d) -> Template.id t <> i)
     \/ exists t o, find_template i d = Some t
                    /\ Template.userId t = Some o /\ o <> "" /\ o <> User.id u)
  /\ (run_res (check_template (Some i) u d) = inl NotFound
      \/ run_res (check_template (Some i) u d) = inr tt)
  /\ run_db (check_template (Some i) u d) = d
  /\ run_log (check_template (Some i) u d) = [Read TContractTemplates].
Proof.
  intros Hi. rewrite check_template_run.
  apply truthy_true in Hi. rewrite Hi.
  rewrite <- find_template_none.
  destruct (find_template i d) as [t|] eqn:F.
  - destruct (foreign_owner t u) eqn:G; simpl.
    + repeat split; auto. intros _. right.
      apply foreign_owner_true in G as (o & Ho & H1 & H2). exists t, o. auto.
    + repeat split; auto; try discriminate.
      intros [H|(t' & o & [= <-] & Ho & H1 & H2)]; [discriminate|].
      assert (foreign_owner t u = true)
        by (apply foreign_owner_true; exists o; auto).
      congruence.
  - simpl. repeat split; auto.
Qed.

Lemma check_template_db (tid : option string) (u : User.t) (d : Db) :
  run_db (check_template tid u d) = d.
Proof.
  rewrite check_template_run.
  destruct tid as [i|]; [|reflexivity].
  destruct (truthy i); [|reflexivity].
  destruct (find_template i d) as [t|]; [|reflexivity].
  destruct (foreign_owner t u); reflexivity.
Qed.

Lemma has_template_find (i : string) (d : Db) :
  has_template d i = negb (is_null (find_template i d)).
Proof.
  unfold has_template, find_template.
  induction (ContractTemplates d) as [|t l IH]; [reflexivity|].
  simpl. destruct (Template.id t =? i); [reflexivity|exact IH].
Qed.

Lemma key_taken_contract (c : Contract.t) (d : Db) :
  key_taken contractsT c d = has_contract d (Contract.id c).
Proof. reflexivity. Qed.

(** What createContract does once the caller is known: after the template
    check, the insert is refused when the id is taken or when the
    [templateId] of the row is not the id of a template. *)
Lemma createContract_run (E : Env) (u : User.t) (input : createContract.input)
      (d : Db) :
  createContract.handler E input (signedIn u) d =
  let chk := check_template (createContract.templateId input) u d in
  let c := createContract.values E input u in
  match run_res chk with
  | inl e => mkRun d (run_log chk) (inl e)
  | inr _ =>
      if has_contract d (Contract.id c) || negb (link_ok d c)
      then mkRun d (run_log chk ++ [Write TContracts]) (inl StoreFailure)
      else mkRun (mkDb (ContractTemplates d) (Contracts d ++ [c]) (ContractClauses d))
             (run_log chk ++ [Write TContracts]) (inr (Some c))
  end.
Proof.
  unfold createContract.handler. rewrite bind_requireUser.
  unfold bind at 1. cbv zeta. rewrite check_template_db.
  destruct (run_res (check_template _ u d)) as [e|[]]; [reflexivity|].
  write_step. rewrite key_taken_contract.
  destruct (has_contract d _ || negb _); reflexivity.
Qed.

(** C3, as stated, fails. The template "sys" is ownerless, and alice's
    createContract on it under the id "c1", which bob's contract already
    has, creates nothing: [Contracts.id] is the primary key and the store
    refuses the insert. *)
Lemma createContract_key_clash :
  let r := createContract.handler (env_at 2000%Z) (contract_on "c1" (Some "sys"))
             (signedIn alice) db_sys_c1 in
  option_map Template.userId (find_template "sys" db_sys_c1) = Some None
  /\ run_res r = inl StoreFailure
  /\ run_db r = db_sys_c1
  /\ find_contract "c1" alice (run_db r) = None.
Proof.
  cbv zeta. repeat split; reflexivity.
Qed.

(** C3, amended. For a signed-in caller and a non-empty [templateId]: when
    no template has that id, or the one found has a non-empty owner other
    than the caller, createContract fails with NotFound after the template
    lookup alone and the database is as before; when the template found is
    ownerless or the caller's, and no contract has the id of the new row,
    the row is appended to Contracts with the caller as its owner and is
    returned. *)
Theorem createContract_template_guard :
  forall (E : Env) (u : User.t) (input : createContract.input) (d : Db)
         (tid : string),
    createContract.templateId input = Some tid ->
    tid <> "" ->
    let r := createContract.handler E input (signedIn u) d in
    ((forall t, In t (ContractTemplates d) -> Template.id t <> tid)
     \/ (exists t o, find_template tid d = Some t
                     /\ Template.userId t = Some o /\ o <> "" /\ o <> User.id u)
     -> r = mkRun d [Read TContractTemplates] (inl NotFound))
    /\
    (forall t, find_template tid d = Some t ->
       Template.userId t = None \/ Template.userId t = Some (User.id u) ->
       (forall c, In c (Contracts d) ->
                  Contract.id c <> nullish (createContract.id input) (randomUUID E)) ->
       let c := createContract.values E input u in
       r = mkRun (mkDb (ContractTemplates d) (Contracts d ++ [c]) (ContractClauses d))
             [Read TContractTemplates; Write TContracts] (inr (Some c))
       /\ Contract.userId c = User.id u
       /\ Contract.templateId c = Some tid).
Proof.
  intros E u input d tid Htid Hne r. subst r.
  rewrite createContract_run. cbv zeta.
  rewrite Htid, check_template_run.
  apply truthy_true in Hne. rewrite Hne.
  split.
  - intros H. rewrite <- find_template_none in H.
    destruct (find_template tid d) as [t|] eqn:F.
    + destruct H as [H|(t' & o & [= <-] & Ho & H1 & H2)]; [discriminate|].
      assert (G : foreign_owner t u = true)
        by (apply foreign_owner_true; exists o; auto).
      rewrite G. reflexivity.
    + reflexivity.
  - intros t F Hown Hfresh.
    rewrite F.
    assert (G : foreign_owner t u = false)
      by (apply foreign_owner_false; tauto).
    rewrite G. cbn [run_res run_log app].
    apply existsb_key_false in Hfresh.
    unfold has_contract, link_ok.
    unfold createContract.values at 1 2. cbn [Contract.id Contract.templateId].
    rewrite Hfresh, Htid, has_template_find, F.
    repeat split; auto.
Qed.

(** The guard at work on the database with the system template "sys": a
    contract on "sys" is created for alice, one on a missing template is
    not. *)
Lemma createContract_template_guard_witness :
  createContract.handler (env_at 2000%Z) (contract_on "c2" (Some "sys"))
    (signedIn alice) db_sys_c1
  = mkRun (mkDb (ContractTemplates db_sys_c1)
             (Contracts db_sys_c1
                ++ [createContract.values (env_at 2000%Z)
                      (contract_on "c2" (Some "sys")) alice])
             (ContractClauses db_sys_c1))
      [Read TContractTemplates; Write TContracts]
      (inr (Some (createContract.values (env_at 2000%Z)
                    (contract_on "c2" (Some "sys")) alice)))
  /\ createContract.handler (env_at 2000%Z) (contract_on "c2" (Some "nope"))
       (signedIn alice) db_sys_c1
     = mkRun db_sys_c1 [Read TContractTemplates] (inl NotFound).
Proof.
  split.
  - refine (proj1 (proj2 (@createContract_template_guard (env_at 2000%Z) alice
             (contract_on "c2" (Some "sys")) db_sys_c1 "sys" eq_refl _) _ eq_refl _ _)).
    + discriminate.
    + left. reflexivity.
    + intros c Hc. vm_compute in Hc. destruct Hc as [<-|[]]. discriminate.
  - refine (proj1 (@createContract_template_guard (env_at 2000%Z) alice
             (contract_on "c2" (Some "nope")) db_sys_c1 "nope" eq_refl _) _).
    + discriminate.
    + left. intros t Ht. vm_compute in Ht. destruct Ht as [<-|[]]. discriminate.
Defined.

(** ** C4: the order of validation and authentication *)

Lemma fmap_requireUser_none {A B} (f : A -> B) (c : Context)
      (k : User.t -> Action A) (d : Db) :
  locals_user c = None ->
  fmap f (bind (requireUser c) k) d = mkRun d [] (inl Unauthorized).
Proof.
  intros H. unfold fmap. rewrite bind_assoc.
  now apply bind_requireUser_none.
Qed.

(** C4, as stated, fails: without a signed-in user, createTemplate on an
    input whose [name] is empty fails with ValidationError, not with
    Unauthorized; the schema has rejected the input before the handler,
    and with it [requireUser], runs. *)
Lemma validation_precedes_authentication :
  locals_user anonymous = None
  /\ server (env_at 0%Z) createTemplate
       (RObject [("name", JString ""); ("body", JString "text")])
       anonymous empty_db
     = mkRun empty_db [] (inl ValidationError).
Proof. split; reflexivity. Qed.

(** C4, amended. For every operation, every raw input and every database:
    an input the schema of the operation rejects fails with
    ValidationError, whoever calls, the schema being applied before the
    handler checks the user; and when the context carries no signed-in
    user, an input the schema accepts fails with Unauthorized.  Neither
    failure comes with a query to the store. *)
Theorem unauthenticated_call_fails :
  forall (E : Env) (op : Op) (raw : Raw) (context : Context) (d : Db),
    (accepts E op raw = false ->
     server E op raw context d = mkRun d [] (inl ValidationError))
    /\
    (locals_user context = None ->
     server E op raw context d
     = mkRun d []
         (inl (if accepts E op raw then Unauthorized else ValidationError))).
Proof.
  intros E op raw context d.
  destruct op; unfold server, defineAction, accepts.
  - destruct (createTemplate.schema raw);
      (split; [try discriminate; reflexivity|intros H; try reflexivity]).
    now apply fmap_requireUser_none.
  - destruct (updateTemplate.schema raw);
      (split; [try discriminate; reflexivity|intros H; try reflexivity]).
    now apply fmap_requireUser_none.
  - destruct (listTemplates.schema raw);
      (split; [try discriminate; reflexivity|intros H; try reflexivity]).
    now apply fmap_requireUser_none.
  - destruct (createContract.schema E raw);
      (split; [try discriminate; reflexivity|intros H; try reflexivity]).
    now apply fmap_requireUser_none.
  - destruct (updateContract.schema E raw);
      (split; [try discriminate; reflexivity|intros H; try reflexivity]).
    now apply fmap_requireUser_none.
  - destruct (listContracts.schema raw);
      (split; [try discriminate; reflexivity|intros H; try reflexivity]).
    now apply fmap_requireUser_none.
  - destruct (deleteContract.schema raw);
      (split; [try discriminate; reflexivity|intros H; try reflexivity]).
    now apply fmap_requireUser_none.
  - destruct (saveClause.schema raw);
      (split; [try discriminate; reflexivity|intros H; try reflexivity]).
    now apply fmap_requireUser_none.
  - destruct (deleteClause.schema raw);
      (split; [try discriminate; reflexivity|intros H; try reflexivity]).
    now apply fmap_requireUser_none.
  - destruct (getContractWithClauses.schema raw);
      (split; [try discriminate; reflexivity|intros H; try reflexivity]).
    now apply fmap_requireUser_none.
Qed.

(** Two calls without a user on inputs their schemas accept, and a call by
    alice on an input the schema rejects. *)
Lemma unauthenticated_call_fails_witness :
  server (env_at 0%Z) createTemplate
    (RObject [("name", JString "NDA"); ("body", JString "text")])
    anonymous db_sys_c1
  = mkRun db_sys_c1 [] (inl Unauthorized)
  /\ server (env_at 0%Z) deleteContract (RObject [("id", JString "c1")])
       (mkContext None) db_sys_c1
     = mkRun db_sys_c1 [] (inl Unauthorized)
  /\ server (env_at 0%Z) saveClause
       (RObject [("contractId", JString "c1"); ("orderIndex", JNumber 0);
                 ("body", JString "text")])
       (signedIn alice) db_sys_c1
     = mkRun db_sys_c1 [] (inl ValidationError).
Proof.
  split; [|split].
  - exact (proj2 (@unauthenticated_call_fails (env_at 0%Z) createTemplate
             (RObject [("name", JString "NDA"); ("body", JString "text")])
             anonymous db_sys_c1) eq_refl).
  - exact (proj2 (@unauthenticated_call_fails (env_at 0%Z) deleteContract
             (RObject [("id", JString "c1")]) (mkContext None) db_sys_c1) eq_refl).
  - exact (proj1 (@unauthenticated_call_fails (env_at 0%Z) saveClause
             (RObject [("contractId", JString "c1"); ("orderIndex", JNumber 0);
                       ("body", JString "text")])
             (signedIn alice) db_sys_c1) eq_refl).
Defined.
(** ** C5: an update without fields *)

Lemma forallb_map_const {A B} (p : B -> bool) (f : A -> B) (b : bool)
      (l : list A) :
  (forall x, p (f x) = b) ->
  forallb p (map f l) = match l with [] => true | _ => b end.
Proof.
  intros H. induction l as [|a l IH]; [reflexivity|].
  simpl. rewrite H, IH. destruct l, b; reflexivity.
Qed.

Lemma hd_error_some_cons {R} (l : list R) (x : R) :
  hd_error l = Some x -> exists rest, l = x :: rest.
Proof.
  destruct l as [|y rest]; [discriminate|]. intros [= ->]. now exists rest.
Qed.

(** What updateContract does once the caller is known: after the lookup
    and the template check, an update that sets [templateId] to a value
    that is not the id of a template is refused. *)
Lemma updateContract_run (E : Env) (u : User.t) (input : updateContract.input)
      (d : Db) :
  updateContract.handler E input (signedIn u) d =
  match find_contract (updateContract.id input) u d with
  | None => mkRun d [Read TContracts] (inl NotFound)
  | Some existing =>
      let chk := check_template (updateContract.templateId input) u d in
      match run_res chk with
      | inl e => mkRun d (Read TContracts :: run_log chk) (inl e)
      | inr _ =>
          if updateContract.no_keys input
          then mkRun d (Read TContracts :: run_log chk) (inr (Some existing))
          else if match updateContract.templateId input with
                  | Some tid => negb (has_template d tid)
                  | None => false
                  end
          then mkRun d (Read TContracts :: run_log chk ++ [Write TContracts])
                 (inl StoreFailure)
          else mkRun
                 (mkDb (ContractTemplates d)
                       (map (fun x => if owned (updateContract.id input) u x
                                      then updateContract.set E input x else x)
                          (Contracts d))
                       (ContractClauses d))
                 (Read TContracts :: run_log chk ++ [Write TContracts])
                 (inr (Some (updateContract.set E input existing)))
      end
  end.
Proof.
  unfold updateContract.handler, find_contract. step.
  destruct (hd_error _) as [existing|] eqn:F; [|reflexivity].
  unfold bind at 1. cbv zeta. rewrite check_template_db.
  destruct (run_res (check_template _ u d)) as [e|[]]; [reflexivity|].
  destruct (updateContract.no_keys input).
  - unfold ret, logged. cbn. now rewrite app_nil_r.
  - write_step.
    assert (Hrefs :
      present (updateContract.templateId input)
      && negb (forallb (link_ok d)
                 (map (updateContract.set E input)
                    (filter (owned (updateContract.id input) u) (Contracts d))))
      = match updateContract.templateId input with
        | Some tid => negb (has_template d tid)
        | None => false
        end).
    { destruct (updateContract.templateId input) as [tid|] eqn:T; [|reflexivity].
      cbn [present andb].
      rewrite (@forallb_map_const _ _ (link_ok d) (updateContract.set E input)
                 (has_template d tid)).
      - apply hd_error_some_cons in F as (rest & ->). reflexivity.
      - intros x. unfold link_ok, updateContract.set.
        cbn [Contract.templateId]. rewrite T. reflexivity. }
    rewrite Hrefs.
    destruct (match updateContract.templateId input with
              | Some tid => negb (has_template d tid)
              | None => false
              end); [reflexivity|].
    step. unfold ret, logged, first. cbn.
    rewrite hd_error_map, F. reflexivity.
Qed.

(** C5. For a signed-in caller, updateTemplate on a template the guard lets
    the caller reach, and updateContract on a contract of the caller, each
    called with the id and no other field, issue the lookup and nothing
    else: the database is the one before the call, so every column of the
    row, [updatedAt] included, is as it was, and the row returned is the
    stored one. *)
Theorem update_without_fields_writes_nothing :
  (forall (E : Env) (u : User.t) (d : Db) (i : string) (t : Template.t),
      find_template i d = Some t ->
      foreign_owner t u = false ->
      updateTemplate.handler E (only_id_template i) (signedIn u) d
      = mkRun d [Read TContractTemplates] (inr (Some t)))
  /\
  (forall (E : Env) (u : User.t) (d : Db) (i : string) (c : Contract.t),
      find_contract i u d = Some c ->
      updateContract.handler E (only_id_contract i) (signedIn u) d
      = mkRun d [Read TContracts] (inr (Some c))).
Proof.
  split.
  - intros E u d i t F G. rewrite updateTemplate_run. cbn.
    rewrite F, G. reflexivity.
  - intros E u d i c F. rewrite updateContract_run. cbn.
    rewrite F. reflexivity.
Qed.

(** The system template "sys" and bob's contract "c1", updated with the id
    alone long after their creation, keep their [updatedAt]. *)
Lemma update_without_fields_writes_nothing_witness :
  (exists t,
      updateTemplate.handler (env_at 9000%Z) (only_id_template "sys")
        (signedIn alice) db_sys_c1
      = mkRun db_sys_c1 [Read TContractTemplates] (inr (Some t))
      /\ Template.updatedAt t = 1000%Z)
  /\
  (exists c,
      updateContract.handler (env_at 9000%Z) (only_id_contract "c1")
        (signedIn bob) db_sys_c1
      = mkRun db_sys_c1 [Read TContracts] (inr (Some c))
      /\ Contract.updatedAt c = 1500%Z).
Proof.
  split; eexists; split.
  - apply (proj1 update_without_fields_writes_nothing); reflexivity.
  - reflexivity.
  - apply (proj2 update_without_fields_writes_nothing); reflexivity.
  - reflexivity.
Defined.


(** ** C6: saveClause under a given id *)

Lemma find_clause_none (i : string) (d : Db) :
  find_clause i d = None <->
  forall cl, In cl (ContractClauses d) -> Clause.id cl <> Some i.
Proof.
  unfold find_clause. rewrite hd_error_filter_none.
  split; intros H cl Hcl; specialize (H cl Hcl);
    destruct (Clause.id cl) as [k|]; cbn in *.
  - apply String.eqb_neq in H. congruence.
  - discriminate.
  - apply String.eqb_neq. congruence.
  - reflexivity.
Qed.

Lemma find_clause_id (i : string) (d : Db) (cl : Clause.t) :
  find_clause i d = Some cl -> In cl (ContractClauses d) /\ Clause.id cl = Some i.
Proof.
  intros F. apply hd_error_filter_some in F as [Hin F]. split; [exact Hin|].
  destruct (Clause.id cl) as [k|]; [|discriminate].
  cbn in F. apply String.eqb_eq in F. now subst.
Qed.

Lemma find_contract_has (i : string) (u : User.t) (d : Db) (c : Contract.t) :
  find_contract i u d = Some c -> has_contract d i = true.
Proof.
  intros F. apply hd_error_filter_some in F as [Hin F].
  unfold owned in F. apply andb_true_iff in F as [F _].
  unfold has_contract. apply existsb_exists. now exists c.
Qed.

(** What saveClause does for a caller who owns the contract and an id that
    is not empty: the lookup fails when the clause found cannot be read;
    the update of a clause under the contract is committed, and the call
    then succeeds when the [orderIndex] written can be read back. *)
Lemma saveClause_run (E : Env) (u : User.t) (input : saveClause.input) (d : Db)
      (i : string) :
  saveClause.id input = Some i ->
  i <> "" ->
  saveClause.handler E input (signedIn u) d =
  match find_contract (saveClause.contractId input) u d with
  | None => mkRun d [Read TContracts] (inl NotFound)
  | Some _ =>
      match find_clause i d with
      | None => mkRun d [Read TContracts; Read TContractClauses] (inl NotFound)
      | Some existing =>
          if negb (safe_integer (Clause.orderIndex existing))
          then mkRun d [Read TContracts; Read TContractClauses] (inl StoreFailure)
          else if Clause.contractId existing =? saveClause.contractId input
          then mkRun
                 (mkDb (ContractTemplates d) (Contracts d)
                       (map (fun x => if opt_eqb (Clause.id x) i
                                      then saveClause.set E input x else x)
                          (ContractClauses d)))
                 [Read TContracts; Read TContractClauses; Write TContractClauses]
                 (if safe_integer (saveClause.orderIndex input)
                  then inr (Some (saveClause.set E input existing))
                  else inl StoreFailure)
          else mkRun d [Read TContracts; Read TContractClauses] (inl NotFound)
      end
  end.
Proof.
  intros Hid Hi. apply truthy_true in Hi.
  unfold saveClause.handler. step.
  fold (find_contract (saveClause.contractId input) u d).
  destruct (find_contract _ u d) as [c|] eqn:C; [|reflexivity].
  rewrite Hid, Hi. unfold saveClause.update. step.
  rewrite forallb_limit_one.
  fold (find_clause i d).
  destruct (find_clause i d) as [existing|] eqn:F; [|reflexivity].
  destruct (safe_integer (Clause.orderIndex existing)); [|reflexivity].
  cbn [negb].
  destruct (Clause.contractId existing =? saveClause.contractId input);
    [|reflexivity].
  cbn [negb]. write_step.
  unfold find_clause in F. apply hd_error_some_cons in F as (rest & F).
  rewrite F.
  rewrite (@forallb_map_const _ _
             (fun cl => has_contract d (Clause.contractId cl))
             (saveClause.set E input) true)
    by (intros x; cbn; exact (find_contract_has _ _ _ C)).
  rewrite (@forallb_map_const _ _
             (fun cl => safe_integer (Clause.orderIndex cl))
             (saveClause.set E input)
             (safe_integer (saveClause.orderIndex input)))
    by (intros x; reflexivity).
  cbn [negb].
  destruct (safe_integer (saveClause.orderIndex input)); [|reflexivity].
  step. unfold ret, logged, first. cbn. reflexivity.
Qed.

(** C6, as stated, fails. An id that is the empty string is taken as no
    id: no clause has the id "", alice owns the contract "ca", and her
    saveClause under the id "" does not fail with NotFound; it inserts a
    new row, stored without an id, and returns it. *)
Lemma saveClause_empty_id_inserts :
  let r := saveClause.handler (env_at 2000%Z) clause_empty_id
             (signedIn alice) db_ca_k1 in
  saveClause.id clause_empty_id = Some ""
  /\ find_clause "" db_ca_k1 = None
  /\ find_contract "ca" alice db_ca_k1 <> None
  /\ exists cl,
       run_res r = inr (Some cl)
       /\ Clause.id cl = None
       /\ ContractClauses (run_db r) = (ContractClauses db_ca_k1 ++ [cl])%list.
Proof.
  cbv zeta. repeat split; try reflexivity.
  - vm_compute. discriminate.
  - eexists. repeat split; reflexivity.
Qed.

(** C6, amended. For a signed-in caller who owns the contract and an id
    that is not empty: saveClause fails with NotFound only when no clause
    has the id or the clause found belongs to another contract, and the
    database is then as before; it does fail so when no clause has the id,
    and when the clause found, a row the store can read, belongs to
    another contract.  When the clause found can be read and is under the
    contract, and the [orderIndex] given is a safe integer, the row of
    that id gets the contractId, orderIndex and body of the input, the
    heading and clauseKey that the input supplies, and [createdAt] set to
    now; this row is stored under the id and returned, and the other two
    tables are as before. *)
Theorem saveClause_with_id :
  forall (E : Env) (u : User.t) (input : saveClause.input) (d : Db)
         (i : string) (c : Contract.t),
    saveClause.id input = Some i ->
    i <> "" ->
    find_contract (saveClause.contractId input) u d = Some c ->
    let r := saveClause.handler E input (signedIn u) d in
    (run_res r = inl NotFound ->
       ((forall cl, In cl (ContractClauses d) -> Clause.id cl <> Some i)
        \/ exists cl, find_clause i d = Some cl
                      /\ Clause.contractId cl <> saveClause.contractId input)
       /\ run_db r = d)
    /\ ((forall cl, In cl (ContractClauses d) -> Clause.id cl <> Some i) ->
        run_res r = inl NotFound)
    /\ (forall cl, find_clause i d = Some cl ->
          safe_integer (Clause.orderIndex cl) = true ->
          Clause.contractId cl <> saveClause.contractId input ->
          run_res r = inl NotFound)
    /\ (forall cl, find_clause i d = Some cl ->
          safe_integer (Clause.orderIndex cl) = true ->
          Clause.contractId cl = saveClause.contractId input ->
          safe_integer (saveClause.orderIndex input) = true ->
          exists saved,
            run_res r = inr (Some saved)
            /\ find_clause i (run_db r) = Some saved
            /\ Clause.id saved = Some i
            /\ Clause.contractId saved = saveClause.contractId input
            /\ Clause.orderIndex saved = saveClause.orderIndex input
            /\ Clause.body saved = saveClause.body input
            /\ Clause.createdAt saved = now E
            /\ (forall h, saveClause.heading input = Some h ->
                          Clause.heading saved = Some h)
            /\ (forall k, saveClause.clauseKey input = Some k ->
                          Clause.clauseKey saved = Some k)
            /\ ContractTemplates (run_db r) = ContractTemplates d
            /\ Contracts (run_db r) = Contracts d).
Proof.
  intros E u input d i c Hid Hi Hc r. subst r.
  rewrite (saveClause_run E u input d Hid Hi), Hc.
  rewrite <- find_clause_none.
  destruct (find_clause i d) as [cl|] eqn:F.
  - destruct (find_clause_id _ _ F) as [_ Hcl].
    destruct (safe_integer (Clause.orderIndex cl)) eqn:S; cbn [negb].
    + destruct (Clause.contractId cl =? saveClause.contractId input) eqn:Q.
      * apply String.eqb_eq in Q. split; [|split; [|split]].
        -- cbn [run_res].
           destruct (safe_integer (saveClause.orderIndex input)); discriminate.
        -- discriminate.
        -- intros cl' [= <-] _ H. contradiction.
        -- intros cl' [= <-] _ _ Hsafe. rewrite Hsafe.
           exists (saveClause.set E input cl).
           cbn [run_res run_db ContractTemplates Contracts].
           split; [reflexivity|]. split.
           { unfold find_clause. cbn [ContractClauses].
             rewrite hd_error_filter_update by (intros x Hx; exact Hx).
             fold (find_clause i d). rewrite F. reflexivity. }
           cbn. repeat split; try assumption.
           ++ intros h ->. reflexivity.
           ++ intros k ->. reflexivity.
      * apply String.eqb_neq in Q. split; [|split; [|split]].
        -- intros _. split; [|reflexivity]. right. exists cl. auto.
        -- discriminate.
        -- reflexivity.
        -- intros cl' [= <-] _ Heq. contradiction.
    + split; [|split; [|split]].
      * discriminate.
      * discriminate.
      * intros cl' [= <-] H. congruence.
      * intros cl' [= <-] H. congruence.
  - split; [|split; [|split]].
    + intros _. split; [now left|reflexivity].
    + reflexivity.
    + intros cl [=].
    + intros cl [=].
Qed.

(** The clause "k1" saved again under its id with a new heading, body,
    key and position; and saved under the contract "cb", to which it does
    not belong. *)
Lemma saveClause_with_id_witness :
  (let r := saveClause.handler (env_at 2000%Z) payment_clause_retitled
              (signedIn alice) db_ca_k1 in
   exists saved,
     run_res r = inr (Some saved)
     /\ find_clause "k1" (run_db r) = Some saved
     /\ saved = Clause.mk (Some "k1") "ca" 3 (Some "Payment terms")
                  "Pay within 15 days" (Some "terms") 2000%Z)
  /\
  (let r := saveClause.handler (env_at 2000%Z) clause_k1_under_cb
              (signedIn alice) db_ca_cb_k1 in
   find_clause "k1" db_ca_cb_k1 <> None
   /\ run_res r = inl NotFound
   /\ run_db r = db_ca_cb_k1).
Proof.
  assert (Hne : "k1" <> "") by discriminate.
  split; cbv zeta.
  - pose proof (@saveClause_with_id (env_at 2000%Z) alice payment_clause_retitled
                  db_ca_k1 "k1"
                  (createContract.values (env_at 1000%Z) (contract_on "ca" None) alice)
                  eq_refl Hne eq_refl) as H.
    cbv zeta in H. destruct H as (_ & _ & _ & H).
    specialize (H (Clause.mk (Some "k1") "ca" 1 (Some "Payment")
                     "Pay within 30 days" (Some "payment") 1100%Z)
                  eq_refl eq_refl eq_refl eq_refl).
    destruct H as (saved & H1 & H2 & _).
    exists saved. split; [exact H1|]. split; [exact H2|].
    vm_compute in H1. now injection H1 as <-.
  - pose proof (@saveClause_with_id (env_at 2000%Z) alice clause_k1_under_cb
                  db_ca_cb_k1 "k1"
                  (createContract.values (env_at 1200%Z) (contract_on "cb" None) alice)
                  eq_refl Hne eq_refl) as H.
    cbv zeta in H. destruct H as (Honly & _ & Hother & _).
    assert (Hnf : run_res (saveClause.handler (env_at 2000%Z) clause_k1_under_cb
                             (signedIn alice) db_ca_cb_k1) = inl NotFound).
    { refine (Hother _ eq_refl eq_refl _). discriminate. }
    split; [discriminate|]. split; [exact Hnf | exact (proj2 (Honly Hnf))].
Defined.

(** ** C7: updateContract and the template link *)

(** X24. What updateContract does with the empty string as [templateId],
    for a caller who owns the contract: no template is looked up, and the update
    that sets [templateId] to the empty string is refused by the store
    unless a template has the empty string as id; the store is then as it
    was, the link of the contract included. *)
Lemma updateContract_empty_templateId :
  forall (E : Env) (u : User.t) (input : updateContract.input) (d : Db)
         (c : Contract.t),
    find_contract (updateContract.id input) u d = Some c ->
    updateContract.templateId input = Some "" ->
    (forall t, In t (ContractTemplates d) -> Template.id t <> "") ->
    updateContract.handler E input (signedIn u) d
    = mkRun d [Read TContracts; Write TContracts] (inl StoreFailure).
Proof.
  intros E u input d c Hc Htid Hnone.
  rewrite updateContract_run, Hc. cbv zeta. rewrite Htid. cbn.
  assert (Hkeys : updateContract.no_keys input = false).
  { unfold updateContract.no_keys. rewrite Htid. cbn.
    now rewrite !orb_true_r. }
  rewrite Hkeys.
  apply find_template_none in Hnone.
  rewrite has_template_find, Hnone. reflexivity.
Qed.

(** X25. What updateContract does with a non-empty [templateId], for a
    caller who owns the contract: it fails with NotFound exactly when no template
    has that id or the template found has a non-empty owner other than the
    caller, and the database is then as before; otherwise the new
    [templateId] is stored and the updated row returned. *)
Lemma updateContract_link_guard :
  forall (E : Env) (u : User.t) (input : updateContract.input) (d : Db)
         (c : Contract.t) (tid : string),
    find_contract (updateContract.id input) u d = Some c ->
    updateContract.templateId input = Some tid ->
    tid <> "" ->
    let r := updateContract.handler E input (signedIn u) d in
    (run_res r = inl NotFound <->
       (forall t, In t (ContractTemplates d) -> Template.id t <> tid)
       \/ exists t o, find_template tid d = Some t
                      /\ Template.userId t = Some o
                      /\ o <> "" /\ o <> User.id u)
    /\ (run_res r = inl NotFound -> run_db r = d)
    /\ (run_res r <> inl NotFound ->
          exists c', run_res r = inr (Some c')
                     /\ find_contract (updateContract.id input) u (run_db r)
                        = Some c'
                     /\ Contract.templateId c' = Some tid).
Proof.
  intros E u input d c tid Hc Htid Hne r. subst r.
  rewrite updateContract_run, Hc. cbv zeta.
  assert (Hkeys : updateContract.no_keys input = false).
  { unfold updateContract.no_keys. rewrite Htid. cbn.
    now rewrite !orb_true_r. }
  destruct (check_template_rejects u d Hne) as (Hiff & Hres & _ & _).
  rewrite Htid, Hkeys.
  destruct Hres as [Hres|Hres]; rewrite Hres.
  - split; [|split].
    + split; [intros _; now apply Hiff | reflexivity].
    + reflexivity.
    + intros H. now contradiction H.
  - assert (Hhas : has_template d tid = true).
    { rewrite has_template_find.
      destruct (find_template tid d) eqn:F; [reflexivity|].
      assert (X : run_res (check_template (Some tid) u d) = inl NotFound)
        by (apply Hiff; left; now apply find_template_none).
      congruence. }
    rewrite Hhas. cbn [negb].
    split; [|split].
    + split; [discriminate|]. intros H. apply Hiff in H. congruence.
    + discriminate.
    + intros _. eexists. split; [reflexivity|]. split.
      * unfold find_contract. cbn [run_db Contracts].
        rewrite hd_error_filter_update by (intros x Hx; exact Hx).
        fold (find_contract (updateContract.id input) u d). now rewrite Hc.
      * cbn. rewrite Htid. reflexivity.
Qed.

(** C7, where the code departs from it. Bob owns the contract "c1", linked
    to the template "sys", and calls updateContract with the empty string
    as [templateId].  The claim has the link cleared.  The handler skips
    the template check, as the claim says, but then writes the empty
    string itself into [templateId], a column that references the
    templates: no template has the empty id, the store refuses the update,
    the call fails, and "c1" is still linked to "sys". *)
Theorem updateContract_empty_templateId_refused :
  let r := updateContract.handler (env_at 2000%Z) (relink "c1" "")
             (signedIn bob) db_sys_c1 in
  option_map Contract.templateId (find_contract "c1" bob db_sys_c1)
  = Some (Some "sys")
  /\ updateContract.templateId (relink "c1" "") = Some ""
  /\ has_template db_sys_c1 "" = false
  /\ r = mkRun db_sys_c1 [Read TContracts; Write TContracts] (inl StoreFailure)
  /\ option_map Contract.templateId (find_contract "c1" bob (run_db r))
     = Some (Some "sys").
Proof.
  cbv zeta. repeat split; reflexivity.
Qed.

(** ** C8: a created contract read back *)

Lemma filter_nil_iff {R} (p : R -> bool) (l : list R) :
  filter p l = [] <-> forall x, In x l -> p x = false.
Proof.
  induction l as [|a l IH]; simpl.
  - split; [intros _ x []|reflexivity].
  - destruct (p a) eqn:Pa.
    + split; [discriminate|]. intros H.
      specialize (H a (or_introl eq_refl)). congruence.
    + rewrite IH. split.
      * intros H x [<-|Hx]; auto.
      * intros H x Hx. apply H. now right.
Qed.

(** A createContract that succeeds has appended the row it returns, and no
    earlier contract has that row's id. *)
Lemma createContract_success (E : Env) (u : User.t)
      (input : createContract.input) (d : Db) (c : Contract.t) :
  run_res (createContract.handler E input (signedIn u) d) = inr (Some c) ->
  c = createContract.values E input u
  /\ run_db (createContract.handler E input (signedIn u) d)
     = mkDb (ContractTemplates d) (Contracts d ++ [c]) (ContractClauses d)
  /\ (forall x, In x (Contracts d) -> Contract.id x <> Contract.id c).
Proof.
  rewrite createContract_run. cbv zeta.
  destruct (run_res (check_template _ u d)) as [e|[]]; [discriminate|].
  destruct (has_contract d _ || negb _) eqn:X; [discriminate|].
  cbn. intros [= <-]. repeat split.
  apply orb_false_iff in X as [X _]. now apply existsb_key_false.
Qed.

(** C8. After a createContract that succeeded for a signed-in caller, in a
    store holding no clause for the new contract's id,
    getContractWithClauses by the same caller on the id of the returned
    contract succeeds and returns that contract, with the title and final
    text given at creation, and an empty list of clauses. *)
Theorem createContract_then_get :
  forall (E E' : Env) (u : User.t) (input : createContract.input) (d : Db)
         (c : Contract.t),
    run_res (createContract.handler E input (signedIn u) d) = inr (Some c) ->
    (forall cl, In cl (ContractClauses d) -> Clause.contractId cl <> Contract.id c) ->
    let d' := run_db (createContract.handler E input (signedIn u) d) in
    getContractWithClauses.handler E'
      (getContractWithClauses.mkInput (Contract.id c)) (signedIn u) d'
    = mkRun d' [Read TContracts; Read TContractClauses] (inr (c, []))
    /\ Contract.title c = createContract.title input
    /\ Contract.finalText c = createContract.finalText input
    /\ Contract.userId c = User.id u.
Proof.
  intros E E' u input d c Hok Hnone d'. subst d'.
  destruct (createContract_success E u input d Hok) as (Hc & Hd & Hfresh).
  rewrite Hd. split; [|subst c; repeat split].
  unfold getContractWithClauses.handler. step.
  cbn [getContractWithClauses.id Contracts].
  rewrite filter_app.
  assert (Hold : filter (owned (Contract.id c) u) (Contracts d) = []).
  { apply filter_nil_iff. intros x Hx. unfold owned.
    apply Hfresh in Hx. apply String.eqb_neq in Hx. now rewrite Hx. }
  assert (Hnew : owned (Contract.id c) u c = true).
  { unfold owned. rewrite String.eqb_refl. subst c. cbn.
    now rewrite String.eqb_refl. }
  rewrite Hold. cbn [filter app]. rewrite Hnew. cbn [hd_error].
  step. cbn [ContractClauses].
  assert (Hcl : filter (fun cl => Clause.contractId cl =? Contract.id c)
                  (ContractClauses d) = []).
  { apply filter_nil_iff. intros x Hx. apply Hnone in Hx.
    now apply String.eqb_neq. }
  unfold limit. rewrite Hcl. reflexivity.
Qed.

(** Alice's contract "ca", created in the empty database and read back. *)
Lemma createContract_then_get_witness :
  getContractWithClauses.handler (env_at 3000%Z)
    (getContractWithClauses.mkInput "ca") (signedIn alice) db_ca
  = mkRun db_ca [Read TContracts; Read TContractClauses]
      (inr (createContract.values (env_at 1000%Z) (contract_on "ca" None) alice, []))
  /\ Contract.title
       (createContract.values (env_at 1000%Z) (contract_on "ca" None) alice) = "T"
  /\ Contract.finalText
       (createContract.values (env_at 1000%Z) (contract_on "ca" None) alice) = "F".
Proof.
  destruct (@createContract_then_get (env_at 1000%Z) (env_at 3000%Z) alice
              (contract_on "ca" None) empty_db
              (createContract.values (env_at 1000%Z) (contract_on "ca" None) alice)
              eq_refl (fun cl (H : In cl []) => match H with end))
    as (H1 & H2 & H3 & _).
  split; [exact H1 | split; [exact H2 | exact H3]].
Defined.

(** ** C9: the owner of a template under updateTemplate *)

Lemma requireUser_signedIn (c : Context) (u : User.t) :
  locals_user c = Some u -> requireUser c = requireUser (signedIn u).
Proof. intros H. unfold requireUser. now rewrite H. Qed.

(** What createTemplate does once the caller is known. *)
Lemma createTemplate_run (E : Env) (u : User.t) (input : createTemplate.input)
      (d : Db) :
  createTemplate.handler E input (signedIn u) d =
  let t :=
    {| Template.id := nullish (createTemplate.id input) (randomUUID E);
       Template.userId :=
         if nullish (createTemplate.isSystem input) false
         then None else Some (User.id u);
       Template.name := createTemplate.name input;
       Template.description := createTemplate.description input;
       Template.category := createTemplate.category input;
       Template.baseLanguage := createTemplate.baseLanguage input;
       Template.body := createTemplate.body input;
       Template.isSystem := nullish (createTemplate.isSystem input) false;
       Template.createdAt := now E;
       Template.updatedAt := now E |} in
  if existsb (fun x => Template.id x =? Template.id t) (ContractTemplates d)
  then mkRun d [Write TContractTemplates] (inl StoreFailure)
  else mkRun (mkDb (ContractTemplates d ++ [t]) (Contracts d) (ContractClauses d))
         [Write TContractTemplates] (inr (Some t)).
Proof.
  unfold createTemplate.handler. rewrite bind_requireUser. write_step.
  unfold key_taken.
  cbn [rows key templatesT opt_eqb Template.id orb]. rewrite orb_false_r.
  destruct (existsb _ _); reflexivity.
Qed.

(** C9. updateTemplate never changes the [userId] of a template, whatever
    the input (an [isSystem] included) and the caller: after the call the
    templates carry, in order, the ids and owners they had.  createTemplate
    returns a row whose [isSystem] is true exactly when its owner is null.
    The two together do not keep that correspondence: alice creating "t1"
    without [isSystem] and then updating it with [isSystem] true leaves a
    stored template with [isSystem] true and owner alice. *)
Theorem updateTemplate_keeps_owner :
  (forall (E : Env) (input : updateTemplate.input) (context : Context) (d : Db),
      map (fun t => (Template.id t, Template.userId t))
          (ContractTemplates (run_db (updateTemplate.handler E input context d)))
      = map (fun t => (Template.id t, Template.userId t)) (ContractTemplates d))
  /\
  (forall (E : Env) (input : createTemplate.input) (u : User.t) (d : Db)
          (t : Template.t),
      run_res (createTemplate.handler E input (signedIn u) d) = inr (Some t) ->
      (Template.isSystem t = true <-> Template.userId t = None))
  /\
  (createTemplate.isSystem draft_t1 = None
   /\ exists t,
        find_template "t1"
          (run_db (updateTemplate.handler (env_at 2000%Z) mark_system_t1
                     (signedIn alice) db_alice_t1)) = Some t
        /\ Template.isSystem t = true
        /\ Template.userId t = Some "alice").
Proof.
  split; [|split].
  - intros E input context d.
    destruct (locals_user context) as [u|] eqn:L.
    + unfold updateTemplate.handler.
      rewrite (requireUser_signedIn context L).
      fold (updateTemplate.handler E input (signedIn u)).
      rewrite updateTemplate_run.
      destruct (find_template _ d) as [t|]; [|reflexivity].
      destruct (foreign_owner t u); [reflexivity|].
      destruct (updateTemplate.no_keys input); [reflexivity|].
      cbn [run_db ContractTemplates]. rewrite map_map.
      apply map_ext. intros x.
      destruct (Template.id x =? updateTemplate.id input); reflexivity.
    + unfold updateTemplate.handler.
      now rewrite (bind_requireUser_none _ _ d L).
  - intros E input u d t. rewrite createTemplate_run. cbv zeta.
    destruct (existsb _ _); [discriminate|].
    cbn [run_res]. intros [= <-]. cbn.
    destruct (nullish (createTemplate.isSystem input) false).
    + split; reflexivity.
    + split; discriminate.
  - split; [reflexivity|]. eexists. repeat split; reflexivity.
Qed.


(** ** C10: empty texts on update *)

(** C10, as stated, fails: an updateContract by the owner with an empty
    [title] does not succeed whenever the schema accepts it.  Bob owns
    "c1"; his update with an empty [title] and the [templateId] "missing",
    which no template has, fails with NotFound and the title of "c1" is as
    it was. *)
Lemma updateContract_empty_title_not_found :
  let r := updateContract.handler (env_at 2000%Z)
             (empty_title "c1" (Some "missing")) (signedIn bob) db_sys_c1 in
  find_contract "c1" bob db_sys_c1 <> None
  /\ updateContract.title (empty_title "c1" (Some "missing")) = Some ""
  /\ run_res r = inl NotFound
  /\ option_map Contract.title (find_contract "c1" bob (run_db r)) = Some "T".
Proof.
  cbv zeta. repeat split; try reflexivity. vm_compute. discriminate.
Qed.

(** C10, amended. The update schemas take the empty string where the
    creation schemas refuse it: an input of updateTemplate stays acceptable
    when an empty [body] is put in front of its fields, and one of
    updateContract when an empty [title] or [finalText] is; createTemplate
    rejects every object whose [body] is empty, createContract every object
    whose [title] or [finalText] is.  For a signed-in caller who owns the
    row, updateTemplate with an empty [body] succeeds and the stored row
    then has the empty body; updateContract with an empty [title] or
    [finalText] succeeds and stores the empty value when the input has no
    [templateId], or has a non-empty one naming a template that is
    ownerless or the caller's. *)
Theorem updates_accept_empty_text :
  (forall fields i,
      updateTemplate.schema (RObject fields) = Some i ->
      updateTemplate.schema (RObject (("body", JString "") :: fields))
      = Some (updateTemplate.mkInput
                (updateTemplate.id i) (updateTemplate.name i)
                (updateTemplate.description i) (updateTemplate.category i)
                (updateTemplate.baseLanguage i) (Some "")
                (updateTemplate.isSystem i)))
  /\
  (forall E fields i,
      updateContract.schema E (RObject fields) = Some i ->
      (exists i', updateContract.schema E (RObject (("title", JString "") :: fields))
                  = Some i'
                  /\ updateContract.title i' = Some ""
                  /\ updateContract.id i' = updateContract.id i)
      /\
      (exists i', updateContract.schema E (RObject (("finalText", JString "") :: fields))
                  = Some i'
                  /\ updateContract.finalText i' = Some ""
                  /\ updateContract.id i' = updateContract.id i))
  /\
  (forall fields,
      prop "body" fields = JString "" ->
      createTemplate.schema (RObject fields) = None)
  /\
  (forall E fields,
      prop "title" fields = JString "" \/ prop "finalText" fields = JString "" ->
      createContract.schema E (RObject fields) = None)
  /\
  (forall E u d input t,
      updateTemplate.body input = Some "" ->
      find_template (updateTemplate.id input) d = Some t ->
      Template.userId t = Some (User.id u) ->
      let r := updateTemplate.handler E input (signedIn u) d in
      exists t', run_res r = inr (Some t')
                 /\ find_template (updateTemplate.id input) (run_db r) = Some t'
                 /\ Template.body t' = "")
  /\
  (forall E u d input c,
      find_contract (updateContract.id input) u d = Some c ->
      (updateContract.templateId input = None
       \/ exists tid t,
            updateContract.templateId input = Some tid
            /\ tid <> ""
            /\ find_template tid d = Some t
            /\ (Template.userId t = None
                \/ Template.userId t = Some (User.id u))) ->
      let r := updateContract.handler E input (signedIn u) d in
      (updateContract.title input = Some "" ->
         exists c', run_res r = inr (Some c')
                    /\ find_contract (updateContract.id input) u (run_db r) = Some c'
                    /\ Contract.title c' = "")
      /\
      (updateContract.finalText input = Some "" ->
         exists c', run_res r = inr (Some c')
                    /\ find_contract (updateContract.id input) u (run_db r) = Some c'
                    /\ Contract.finalText c' = "")).
Proof.
  split; [|split; [|split; [|split; [|split]]]].
  - intros fields i H. unfold updateTemplate.schema in *.
    cbn [prop String.eqb Ascii.eqb Bool.eqb].
    destruct (z_string (prop "id" fields)); [|discriminate].
    destruct (z_optional (z_string_min 1) (prop "name" fields)); [|discriminate].
    destruct (z_optional z_string (prop "description" fields)); [|discriminate].
    destruct (z_optional z_string (prop "category" fields)); [|discriminate].
    destruct (z_optional z_string (prop "baseLanguage" fields)); [|discriminate].
    destruct (z_optional z_string (prop "body" fields)); [|discriminate].
    destruct (z_optional z_boolean (prop "isSystem" fields)); [|discriminate].
    injection H as <-. reflexivity.
  - intros E fields i H. unfold updateContract.schema in *.
    cbn [prop String.eqb Ascii.eqb Bool.eqb].
    destruct (z_string (prop "id" fields)); [|discriminate].
    destruct (z_optional z_string (prop "templateId" fields)); [|discriminate].
    destruct (z_optional z_string (prop "title" fields)); [|discriminate].
    destruct (z_optional z_string (prop "partyAName" fields)); [|discriminate].
    destruct (z_optional z_string (prop "partyBName" fields)); [|discriminate].
    destruct (z_optional (coerceDate E) (prop "effectiveDate" fields)); [|discriminate].
    destruct (z_optional (coerceDate E) (prop "endDate" fields)); [|discriminate].
    destruct (z_optional z_string (prop "governingLaw" fields)); [|discriminate].
    destruct (z_optional z_string (prop "status" fields)); [|discriminate].
    destruct (z_optional z_string (prop "finalText" fields)); [|discriminate].
    destruct (z_optional z_string (prop "notes" fields)); [|discriminate].
    injection H as <-. split; eexists; (split; [reflexivity|split; reflexivity]).
  - intros fields H. unfold createTemplate.schema. rewrite H.
    destruct (z_optional z_string (prop "id" fields)); [|reflexivity].
    destruct (z_string_min 1 (prop "name" fields)); [|reflexivity].
    destruct (z_optional z_string (prop "description" fields)); [|reflexivity].
    destruct (z_optional z_string (prop "category" fields)); [|reflexivity].
    destruct (z_optional z_string (prop "baseLanguage" fields)); reflexivity.
  - intros E fields H. unfold createContract.schema.
    destruct (z_optional z_string (prop "id" fields)); [|reflexivity].
    destruct (z_optional z_string (prop "templateId" fields)); [|reflexivity].
    destruct H as [H|H]; rewrite H; [reflexivity|].
    destruct (z_string_min 1 (prop "title" fields)); [|reflexivity].
    destruct (z_optional z_string (prop "partyAName" fields)); [|reflexivity].
    destruct (z_optional z_string (prop "partyBName" fields)); [|reflexivity].
    destruct (z_optional (coerceDate E) (prop "effectiveDate" fields)); [|reflexivity].
    destruct (z_optional (coerceDate E) (prop "endDate" fields)); [|reflexivity].
    destruct (z_optional z_string (prop "governingLaw" fields)); [|reflexivity].
    destruct (z_optional z_string (prop "status" fields)); reflexivity.
  - intros E u d input t Hb F Ho r. subst r.
    rewrite updateTemplate_run, F.
    assert (G : foreign_owner t u = false)
      by (apply foreign_owner_false; auto).
    assert (K : updateTemplate.no_keys input = false).
    { unfold updateTemplate.no_keys. rewrite Hb. cbn.
      now rewrite !orb_true_r. }
    rewrite G, K. eexists. split; [reflexivity|]. split.
    + unfold find_template. cbn [run_db ContractTemplates].
      rewrite hd_error_filter_update by (intros x Hx; exact Hx).
      fold (find_template (updateTemplate.id input) d). now rewrite F.
    + cbn. now rewrite Hb.
  - intros E u d input c F Htid r. subst r.
    rewrite updateContract_run, F. cbv zeta.
    assert (Hchk : run_res (check_template (updateContract.templateId input) u d)
                   = inr tt
                   /\ match updateContract.templateId input with
                      | Some tid => negb (has_template d tid)
                      | None => false
                      end = false).
    { destruct Htid as [->|(tid & t & -> & Hne & Ft & Ho)]; [split; reflexivity|].
      rewrite check_template_run, has_template_find, Ft.
      apply truthy_true in Hne. rewrite Hne.
      assert (G : foreign_owner t u = false)
        by (apply foreign_owner_false; tauto).
      rewrite G. split; reflexivity. }
    destruct Hchk as [Hchk Hlink]. rewrite Hchk, Hlink.
    assert (Hfind : find_contract (updateContract.id input) u
                      (mkDb (ContractTemplates d)
                         (map (fun x => if owned (updateContract.id input) u x
                                        then updateContract.set E input x else x)
                            (Contracts d))
                         (ContractClauses d))
                    = Some (updateContract.set E input c)).
    { unfold find_contract. cbn [Contracts].
      rewrite hd_error_filter_update by (intros x Hx; exact Hx).
      fold (find_contract (updateContract.id input) u d). now rewrite F. }
    split; intros Hempty.
    + assert (K : updateContract.no_keys input = false)
        by (unfold updateContract.no_keys; now rewrite Hempty).
      rewrite K. eexists. split; [reflexivity|]. split; [exact Hfind|].
      cbn. now rewrite Hempty.
    + assert (K : updateContract.no_keys input = false).
      { unfold updateContract.no_keys. rewrite Hempty. cbn.
        now rewrite !orb_true_r. }
      rewrite K. eexists. split; [reflexivity|]. split; [exact Hfind|].
      cbn. now rewrite Hempty.
Qed.

(** Alice empties the body of her template "t1", and bob the title and
    the final text of his contract "c1", the first while linking it to the
    system template "sys" again; creating a template with an empty body is
    refused. *)
Lemma updates_accept_empty_text_witness :
  (exists t',
      run_res (updateTemplate.handler (env_at 2000%Z)
                 (updateTemplate.mkInput "t1" None None None None (Some "") None)
                 (signedIn alice) db_alice_t1) = inr (Some t')
      /\ find_template "t1"
           (run_db (updateTemplate.handler (env_at 2000%Z)
                      (updateTemplate.mkInput "t1" None None None None (Some "") None)
                      (signedIn alice) db_alice_t1)) = Some t'
      /\ Template.body t' = "")
  /\ (exists c',
        run_res (updateContract.handler (env_at 2000%Z)
                   (empty_title "c1" (Some "sys")) (signedIn bob) db_sys_c1)
        = inr (Some c')
        /\ find_contract "c1" bob
             (run_db (updateContract.handler (env_at 2000%Z)
                        (empty_title "c1" (Some "sys")) (signedIn bob) db_sys_c1))
           = Some c'
        /\ Contract.title c' = "")
  /\ (exists c',
        run_res (updateContract.handler (env_at 2000%Z)
                   (empty_finalText "c1") (signedIn bob) db_sys_c1)
        = inr (Some c')
        /\ find_contract "c1" bob
             (run_db (updateContract.handler (env_at 2000%Z)
                        (empty_finalText "c1") (signedIn bob) db_sys_c1))
           = Some c'
        /\ Contract.finalText c' = "")
  /\ createTemplate.schema
       (RObject [("name", JString "NDA"); ("body", JString "")]) = None.
Proof.
  destruct updates_accept_empty_text
    as (_ & _ & Hcreate & _ & Hupdate & Hcontract).
  split; [|split; [|split]].
  - exact (Hupdate (env_at 2000%Z) alice db_alice_t1
             (updateTemplate.mkInput "t1" None None None None (Some "") None)
             (Template.mk "t1" (Some "alice") "NDA" None None None
                "Parties agree" false 1000%Z 1000%Z)
             eq_refl eq_refl eq_refl).
  - refine (proj1 (Hcontract (env_at 2000%Z) bob db_sys_c1
                     (empty_title "c1" (Some "sys"))
                     (createContract.values (env_at 1500%Z)
                        (contract_on "c1" (Some "sys")) bob)
                     eq_refl _) eq_refl).
    right. exists "sys".
    exists (Template.mk "sys" None "Lease" None None None "Premises" true
              1000%Z 1000%Z).
    split; [reflexivity|]. split; [discriminate|].
    split; [reflexivity|]. left. reflexivity.
  - refine (proj2 (Hcontract (env_at 2000%Z) bob db_sys_c1
                     (empty_finalText "c1")
                     (createContract.values (env_at 1500%Z)
                        (contract_on "c1" (Some "sys")) bob)
                     eq_refl _) eq_refl).
    left. reflexivity.
  - exact (Hcreate [("name", JString "NDA"); ("body", JString "")] eq_refl).
Defined.

(** * Properties of all the actions *)

(** ** Contexts, [fmap] and the remaining handlers *)

Lemma context_cases (c : Context) :
  locals_user c = None \/ exists u, c = signedIn u.
Proof.
  destruct c as [[[[u|]]|]]; [right; now exists u | now left | now left].
Qed.

Lemma db_eta (d : Db) :
  mkDb (ContractTemplates d) (Contracts d) (ContractClauses d) = d.
Proof. now destruct d. Qed.

Lemma run_db_fmap {A B} (f : A -> B) (m : Action A) (d : Db) :
  run_db (fmap f m d) = run_db (m d).
Proof. unfold fmap, bind, ret. now destruct (run_res (m d)). Qed.

Lemma run_log_fmap {A B} (f : A -> B) (m : Action A) (d : Db) :
  run_log (fmap f m d) = run_log (m d).
Proof.
  unfold fmap, bind, ret. destruct (run_res (m d)); [reflexivity|].
  cbn. apply app_nil_r.
Qed.

Lemma run_res_fmap {A B} (f : A -> B) (m : Action A) (d : Db) :
  run_res (fmap f m d)
  = match run_res (m d) with inl e => inl e | inr a => inr (f a) end.
Proof. unfold fmap, bind, ret. now destruct (run_res (m d)). Qed.

Lemma failed_fmap {A B} (f : A -> B) (m : Action A) (d : Db) :
  failed (fmap f m d) = failed (m d).
Proof. unfold failed. rewrite run_res_fmap. now destruct (run_res (m d)). Qed.

Lemma filter_negb_none {R} (p : R -> bool) (l : list R) :
  hd_error (filter p l) = None -> filter (fun x => negb (p x)) l = l.
Proof.
  intros H. induction l as [|a l IH]; [reflexivity|].
  simpl in *. destruct (p a); [discriminate|]. simpl. now rewrite IH.
Qed.

Lemma hd_error_none_nil {R} (l : list R) : hd_error l = None -> l = [].
Proof. destruct l; [reflexivity|discriminate]. Qed.

Lemma listTemplates_run (E : Env) (u : User.t) (d : Db) :
  listTemplates.handler E tt (signedIn u) d
  = mkRun d [Read TContractTemplates]
      (inr (filter (fun t => is_null (Template.userId t)
                             || opt_eqb (Template.userId t) (User.id u))
              (ContractTemplates d))).
Proof.
  unfold listTemplates.handler. step. unfold ret, logged, limit. simpl.
  now rewrite filter_true.
Qed.

Lemma listContracts_run (E : Env) (u : User.t) (d : Db) :
  listContracts.handler E tt (signedIn u) d
  = mkRun d [Read TContracts]
      (inr (filter (fun c => Contract.userId c =? User.id u) (Contracts d))).
Proof. unfold listContracts.handler. step. reflexivity. Qed.

Lemma existsb_never {R} (l : list R) : existsb (fun _ => false) l = false.
Proof. induction l; [reflexivity|exact IHl]. Qed.

Lemma existsb_filter_const {R} (p q : R -> bool) (b : bool) (l : list R) :
  (forall x, p x = true -> q x = b) ->
  existsb q (filter p l) = match filter p l with [] => false | _ => b end.
Proof.
  intros H. induction l as [|a l IH]; [reflexivity|].
  simpl. destruct (p a) eqn:P; [|exact IH].
  simpl. rewrite (H a P), IH. destruct (filter p l), b; reflexivity.
Qed.

Lemma owned_id (i : string) (u : User.t) (c : Contract.t) :
  owned i u c = true -> Contract.id c = i.
Proof.
  unfold owned. intros H. apply andb_true_iff in H as [H _].
  now apply String.eqb_eq.
Qed.

(** What deleteContract does once the caller is known: the delete of a
    contract of the caller is refused while a clause is stored under its
    id. *)
Lemma deleteContract_run (E : Env) (u : User.t) (input : deleteContract.input)
      (d : Db) :
  deleteContract.handler E input (signedIn u) d =
  match find_contract (deleteContract.id input) u d with
  | None => mkRun d [Write TContracts] (inl NotFound)
  | Some c =>
      if has_clauses d (deleteContract.id input)
      then mkRun d [Write TContracts] (inl StoreFailure)
      else mkRun (mkDb (ContractTemplates d)
                    (filter (fun x => negb (owned (deleteContract.id input) u x))
                       (Contracts d))
                    (ContractClauses d))
             [Write TContracts] (inr c)
  end.
Proof.
  unfold deleteContract.handler, find_contract. step. write_step.
  rewrite (@existsb_filter_const _ (owned (deleteContract.id input) u)
             (fun c => has_clauses d (Contract.id c))
             (has_clauses d (deleteContract.id input)))
    by (intros x Hx; now rewrite (owned_id _ _ _ Hx)).
  destruct (filter (owned (deleteContract.id input) u) (Contracts d))
    as [|c rest] eqn:F.
  - cbn [hd_error]. unfold throw, logged, first. cbn.
    rewrite filter_negb_none by (now rewrite F). now rewrite db_eta.
  - cbn [hd_error].
    destruct (has_clauses d (deleteContract.id input)); reflexivity.
Qed.

(** What getContractWithClauses does once the caller is known. *)
Lemma getContractWithClauses_run (E : Env) (u : User.t)
      (input : getContractWithClauses.input) (d : Db) :
  getContractWithClauses.handler E input (signedIn u) d =
  match find_contract (getContractWithClauses.id input) u d with
  | None => mkRun d [Read TContracts] (inl NotFound)
  | Some c =>
      mkRun d [Read TContracts; Read TContractClauses]
        (if forallb (fun cl => safe_integer (Clause.orderIndex cl))
              (filter (fun cl => Clause.contractId cl
                                 =? getContractWithClauses.id input)
                 (ContractClauses d))
         then inr (c, filter (fun cl => Clause.contractId cl
                                        =? getContractWithClauses.id input)
                        (ContractClauses d))
         else inl StoreFailure)
  end.
Proof.
  unfold getContractWithClauses.handler, find_contract. step.
  destruct (hd_error _) as [c|]; [|reflexivity].
  step. unfold limit.
  destruct (forallb _ _); reflexivity.
Qed.

(** What deleteClause does once the caller is known: the clauses of the
    id under the contract are deleted, and the call then fails when one of
    them cannot be read back. *)
Lemma deleteClause_run (E : Env) (u : User.t) (input : deleteClause.input)
      (d : Db) :
  deleteClause.handler E input (signedIn u) d =
  match find_contract (deleteClause.contractId input) u d with
  | None => mkRun d [Read TContracts] (inl NotFound)
  | Some _ =>
      match hd_error (filter (fun cl => opt_eqb (Clause.id cl) (deleteClause.id input)
                                         && (Clause.contractId cl
                                             =? deleteClause.contractId input))
                        (ContractClauses d)) with
      | None => mkRun d [Read TContracts; Write TContractClauses] (inl NotFound)
      | Some cl =>
          mkRun (mkDb (ContractTemplates d) (Contracts d)
                   (filter (fun cl => negb (opt_eqb (Clause.id cl) (deleteClause.id input)
                                            && (Clause.contractId cl
                                                =? deleteClause.contractId input)))
                      (ContractClauses d)))
            [Read TContracts; Write TContractClauses]
            (if forallb (fun cl => safe_integer (Clause.orderIndex cl))
                  (filter (fun cl => opt_eqb (Clause.id cl) (deleteClause.id input)
                                     && (Clause.contractId cl
                                         =? deleteClause.contractId input))
                     (ContractClauses d))
             then inr cl else inl StoreFailure)
      end
  end.
Proof.
  unfold deleteClause.handler, find_contract. step.
  destruct (hd_error _) as [c|]; [|reflexivity].
  write_step. rewrite existsb_never.
  destruct (filter _ (ContractClauses d)) as [|cl rest] eqn:F.
  - cbn [forallb hd_error]. unfold throw, logged, first. cbn.
    rewrite filter_negb_none by (now rewrite F). now rewrite db_eta.
  - cbn [hd_error].
    destruct (forallb _ (cl :: rest)); reflexivity.
Qed.

(** saveClause without an id, or with the empty id: the insert branch.  The
    row is stored without an id, and the call then succeeds when the
    [orderIndex] written can be read back. *)
Lemma saveClause_insert_run (E : Env) (u : User.t) (input : saveClause.input)
      (d : Db) :
  truthy_opt (saveClause.id input) = false ->
  saveClause.handler E input (signedIn u) d =
  match find_contract (saveClause.contractId input) u d with
  | None => mkRun d [Read TContracts] (inl NotFound)
  | Some _ =>
      mkRun (mkDb (ContractTemplates d) (Contracts d)
               (ContractClauses d
                  ++ [Clause.mk None (saveClause.contractId input)
                        (saveClause.orderIndex input) (saveClause.heading input)
                        (saveClause.body input) (saveClause.clauseKey input)
                        (now E)]))
        [Read TContracts; Write TContractClauses]
        (if safe_integer (saveClause.orderIndex input)
         then inr (Some (Clause.mk None (saveClause.contractId input)
                           (saveClause.orderIndex input)
                           (saveClause.heading input) (saveClause.body input)
                           (saveClause.clauseKey input) (now E)))
         else inl StoreFailure)
  end.
Proof.
  intros Hid.
  unfold saveClause.handler. step.
  fold (find_contract (saveClause.contractId input) u d).
  destruct (find_contract _ u d) as [c|] eqn:C; [|reflexivity].
  assert (Hins :
    bind (saveClause.insert E input) (fun returned => ret (first returned)) d
    = mkRun (mkDb (ContractTemplates d) (Contracts d)
               (ContractClauses d
                  ++ [Clause.mk None (saveClause.contractId input)
                        (saveClause.orderIndex input) (saveClause.heading input)
                        (saveClause.body input) (saveClause.clauseKey input)
                        (now E)]))
        [Write TContractClauses]
        (if safe_integer (saveClause.orderIndex input)
         then inr (Some (Clause.mk None (saveClause.contractId input)
                           (saveClause.orderIndex input)
                           (saveClause.heading input) (saveClause.body input)
                           (saveClause.clauseKey input) (now E)))
         else inl StoreFailure)).
  { unfold saveClause.insert. write_step.
    unfold key_taken. cbn [key clausesT Clause.id Clause.contractId
                           Clause.orderIndex orb].
    rewrite (find_contract_has _ _ _ C). cbn [negb].
    destruct (safe_integer (saveClause.orderIndex input)); reflexivity. }
  destruct (saveClause.id input) as [i|]; cbn in Hid.
  - rewrite Hid, Hins.
    destruct (safe_integer (saveClause.orderIndex input)); reflexivity.
  - rewrite Hins.
    destruct (safe_integer (saveClause.orderIndex input)); reflexivity.
Qed.

(** ** What the schemas guarantee *)

Lemma z_string_min_1 (v : JsValue) (s : string) :
  z_string_min 1 v = Some s -> s <> "".
Proof.
  destruct v; try discriminate. cbn.
  destruct s0; cbn; [discriminate|]. now intros [= <-].
Qed.

Lemma z_optional_string_min_1 (v : JsValue) (s : string) :
  z_optional (z_string_min 1) v = Some (Some s) -> s <> "".
Proof.
  destruct v; try discriminate; cbn [z_optional option_map].
  destruct (z_string_min 1 (JString s0)) eqn:Z; [|discriminate].
  intros [= <-]. eapply z_string_min_1. exact Z.
Qed.

Lemma z_number_int_positive_pos (v : JsValue) (n : Z) :
  z_number_int_positive v = Some n -> (0 < n)%Z.
Proof.
  destruct v; try discriminate. cbn.
  destruct (is_double n0 && (0 <? n0)%Z) eqn:P; [|discriminate].
  intros [= <-]. apply andb_true_iff in P as [_ P]. now apply Z.ltb_lt.
Qed.

(** Peels the fields off a schema that has accepted its input. *)
Ltac schema_fields H :=
  repeat match type of H with
         | match ?x with Some _ => _ | None => None end = Some _ =>
             let Q := fresh "Q" in destruct x eqn:Q; [|discriminate H]
         end.

Lemma createTemplate_schema_texts (raw : Raw) (i : createTemplate.input) :
  createTemplate.schema raw = Some i ->
  createTemplate.name i <> "" /\ createTemplate.body i <> "".
Proof.
  intros H. unfold createTemplate.schema in H.
  destruct raw as [v|o]; [discriminate|]. schema_fields H.
  injection H as <-. cbn. split; eapply z_string_min_1; eassumption.
Qed.

Lemma updateTemplate_schema_name (raw : Raw) (i : updateTemplate.input) (n : string) :
  updateTemplate.schema raw = Some i ->
  updateTemplate.name i = Some n -> n <> "".
Proof.
  intros H. unfold updateTemplate.schema in H.
  destruct raw as [v|o]; [discriminate|]. schema_fields H.
  injection H as <-. cbn. intros ->.
  eapply z_optional_string_min_1; eassumption.
Qed.

Lemma createContract_schema_texts (E : Env) (raw : Raw) (i : createContract.input) :
  createContract.schema E raw = Some i ->
  createContract.title i <> "" /\ createContract.finalText i <> "".
Proof.
  intros H. unfold createContract.schema in H.
  destruct raw as [v|o]; [discriminate|]. schema_fields H.
  injection H as <-. cbn. split; eapply z_string_min_1; eassumption.
Qed.

Lemma saveClause_schema_texts (raw : Raw) (i : saveClause.input) :
  saveClause.schema raw = Some i ->
  saveClause.body i <> "" /\ (0 < saveClause.orderIndex i)%Z.
Proof.
  intros H. unfold saveClause.schema in H.
  destruct raw as [v|o]; [discriminate|]. schema_fields H.
  injection H as <-. cbn. split.
  - eapply z_string_min_1; eassumption.
  - eapply z_number_int_positive_pos; eassumption.
Qed.

(** ** Every call is one [Change] *)

Lemma find_contract_owns (i : string) (u : User.t) (d : Db) (c : Contract.t) :
  find_contract i u d = Some c -> owns_contract u d i = true.
Proof.
  intros H. apply hd_error_filter_some in H as [Hin Hp].
  apply existsb_exists. now exists c.
Qed.

Lemma createTemplate_change (E : Env) (u : User.t) (i : createTemplate.input)
      (d : Db) :
  createTemplate.name i <> "" ->
  let r := createTemplate.handler E i (signedIn u) d in
  Change u d (run_db r) /\ (failed r = true -> run_db r = d).
Proof.
  intros Hname r. subst r. rewrite createTemplate_run. cbv zeta.
  destruct (existsb _ _) eqn:X; cbn [run_db].
  - split; [constructor|reflexivity].
  - split; [|discriminate].
    apply change_template_added.
    + now apply existsb_key_false.
    + apply foreign_owner_false. cbn.
      destruct (nullish (createTemplate.isSystem i) false); auto.
    + exact Hname.
Qed.

Lemma updateTemplate_change (E : Env) (u : User.t) (i : updateTemplate.input)
      (d : Db) :
  (forall n, updateTemplate.name i = Some n -> n <> "") ->
  let r := updateTemplate.handler E i (signedIn u) d in
  Change u d (run_db r) /\ (failed r = true -> run_db r = d).
Proof.
  intros Hname r. subst r. rewrite updateTemplate_run.
  destruct (find_template _ d) as [t0|] eqn:F; [|split; [constructor|reflexivity]].
  destruct (foreign_owner t0 u) eqn:G; [split; [constructor|reflexivity]|].
  destruct (updateTemplate.no_keys i); [split; [constructor|reflexivity]|].
  split; [|discriminate]. cbn [run_db].
  apply change_template_updated with (t0 := t0); auto.
  intros x. repeat split. cbn.
  destruct (updateTemplate.name i) as [n|]; cbn; auto.
Qed.

Lemma createContract_change (E : Env) (u : User.t) (i : createContract.input)
      (d : Db) :
  let r := createContract.handler E i (signedIn u) d in
  Change u d (run_db r) /\ (failed r = true -> run_db r = d).
Proof.
  intros r. subst r. rewrite createContract_run. cbv zeta.
  destruct (run_res (check_template _ u d)) as [e|[]];
    [split; [constructor|reflexivity]|].
  destruct (has_contract d _ || negb _) eqn:X; cbn [run_db].
  - split; [constructor|reflexivity].
  - split; [|discriminate].
    apply orb_false_iff in X as [X1 X2]. apply negb_false_iff in X2.
    apply change_contract_added; [|reflexivity|exact X2].
    now apply existsb_key_false.
Qed.

Lemma updateContract_change (E : Env) (u : User.t) (i : updateContract.input)
      (d : Db) :
  let r := updateContract.handler E i (signedIn u) d in
  Change u d (run_db r) /\ (failed r = true -> run_db r = d).
Proof.
  intros r. subst r. rewrite updateContract_run.
  destruct (find_contract _ u d) as [c|]; [|split; [constructor|reflexivity]].
  cbv zeta.
  destruct (run_res (check_template _ u d)) as [e|[]];
    [split; [constructor|reflexivity]|].
  destruct (updateContract.no_keys i); [split; [constructor|reflexivity]|].
  destruct (updateContract.templateId i) as [tid|] eqn:T.
  - destruct (has_template d tid) eqn:H; cbn [negb];
      [|split; [constructor|reflexivity]].
    split; [|discriminate]. cbn [run_db].
    apply change_contract_updated.
    + intros x. split; reflexivity.
    + intros x _ _ _. unfold link_ok, updateContract.set.
      cbn [Contract.templateId]. rewrite T. exact H.
  - split; [|discriminate]. cbn [run_db].
    apply change_contract_updated.
    + intros x. split; reflexivity.
    + intros x _ _ L. unfold link_ok, updateContract.set in *.
      cbn [Contract.templateId]. rewrite T. exact L.
Qed.

Lemma deleteContract_change (E : Env) (u : User.t) (i : deleteContract.input)
      (d : Db) :
  let r := deleteContract.handler E i (signedIn u) d in
  Change u d (run_db r) /\ (failed r = true -> run_db r = d).
Proof.
  intros r. subst r. rewrite deleteContract_run.
  destruct (find_contract _ u d) as [c|]; [|split; [constructor|reflexivity]].
  destruct (has_clauses d (deleteContract.id i)) eqn:H;
    [split; [constructor|reflexivity]|].
  split; [|discriminate]. now apply change_contract_deleted.
Qed.

Lemma saveClause_change (E : Env) (u : User.t) (i : saveClause.input) (d : Db) :
  saveClause.body i <> "" ->
  (0 < saveClause.orderIndex i)%Z ->
  let r := saveClause.handler E i (signedIn u) d in
  Change u d (run_db r)
  /\ (failed r = true -> run_db r = d \/ run_res r = inl StoreFailure).
Proof.
  intros Hbody Hpos r. subst r.
  destruct (truthy_opt (saveClause.id i)) eqn:T.
  - destruct (saveClause.id i) as [k|] eqn:Hid; [|discriminate].
    cbn in T. apply truthy_true in T.
    rewrite (saveClause_run E u i d Hid T).
    destruct (find_contract _ u d) as [c|] eqn:Fc;
      [|split; [constructor|now left]].
    destruct (find_clause k d) as [e|] eqn:Fe;
      [|split; [constructor|now left]].
    destruct (negb (safe_integer (Clause.orderIndex e)));
      [split; [constructor|now left]|].
    destruct (Clause.contractId e =? saveClause.contractId i) eqn:Q;
      [|split; [constructor|now left]].
    apply String.eqb_eq in Q.
    split.
    + cbn [run_db].
      apply change_clause_updated with (e := e); auto.
      * rewrite Q. eapply find_contract_owns; eassumption.
      * intros x. cbn. repeat split; auto.
        eapply find_contract_owns; eassumption.
    + cbn [run_res].
      destruct (safe_integer (saveClause.orderIndex i)); [discriminate|].
      intros _. now right.
  - rewrite (saveClause_insert_run E u i d T).
    destruct (find_contract _ u d) as [c|] eqn:Fc;
      [|split; [constructor|now left]].
    split.
    + cbn [run_db].
      apply change_clause_added; cbn; auto.
      eapply find_contract_owns; eassumption.
    + cbn [run_res].
      destruct (safe_integer (saveClause.orderIndex i)); [discriminate|].
      intros _. now right.
Qed.

Lemma deleteClause_change (E : Env) (u : User.t) (i : deleteClause.input) (d : Db) :
  let r := deleteClause.handler E i (signedIn u) d in
  Change u d (run_db r)
  /\ (failed r = true -> run_db r = d \/ run_res r = inl StoreFailure).
Proof.
  intros r. subst r. rewrite deleteClause_run.
  destruct (find_contract _ u d) as [c|] eqn:Fc;
    [|split; [constructor|now left]].
  destruct (hd_error _) as [cl|]; [|split; [constructor|now left]].
  split.
  - cbn [run_db].
    apply change_clause_deleted. eapply find_contract_owns; eassumption.
  - cbn [run_res]. destruct (forallb _ _); [discriminate|].
    intros _. now right.
Qed.

Lemma run_res_fmap_inl {A B} (f : A -> B) (m : Action A) (d : Db) (e : Error) :
  run_res (m d) = inl e -> run_res (fmap f m d) = inl e.
Proof. intros H. rewrite run_res_fmap, H. reflexivity. Qed.

(** Whatever the action and the raw input, a call by the signed-in user [u]
    changes the database by one [Change]; and by none when it fails, unless
    the failure is that of the store on a write of a clause. *)
Lemma server_change (E : Env) (op : Op) (raw : Raw) (u : User.t) (d : Db) :
  Change u d (run_db (server E op raw (signedIn u) d))
  /\ (failed (server E op raw (signedIn u) d) = true ->
      run_db (server E op raw (signedIn u) d) = d
      \/ (run_res (server E op raw (signedIn u) d) = inl StoreFailure
          /\ written_table op = Some TContractClauses)).
Proof.
  destruct op; unfold server, defineAction.
  - destruct (createTemplate.schema raw) as [i|] eqn:S;
      [|split; [constructor|now left]].
    rewrite run_db_fmap, failed_fmap.
    destruct (@createTemplate_change E u i d) as [H1 H2];
      [eapply createTemplate_schema_texts, S|]. split; auto.
  - destruct (updateTemplate.schema raw) as [i|] eqn:S;
      [|split; [constructor|now left]].
    rewrite run_db_fmap, failed_fmap.
    destruct (@updateTemplate_change E u i d) as [H1 H2];
      [intros n; eapply updateTemplate_schema_name, S|]. split; auto.
  - destruct (listTemplates.schema raw) as [[]|];
      [|split; [constructor|now left]].
    rewrite run_db_fmap, failed_fmap, listTemplates_run.
    split; [constructor|now left].
  - destruct (createContract.schema E raw) as [i|];
      [|split; [constructor|now left]].
    rewrite run_db_fmap, failed_fmap.
    destruct (createContract_change E u i d) as [H1 H2]. split; auto.
  - destruct (updateContract.schema E raw) as [i|];
      [|split; [constructor|now left]].
    rewrite run_db_fmap, failed_fmap.
    destruct (updateContract_change E u i d) as [H1 H2]. split; auto.
  - destruct (listContracts.schema raw) as [[]|];
      [|split; [constructor|now left]].
    rewrite run_db_fmap, failed_fmap, listContracts_run.
    split; [constructor|now left].
  - destruct (deleteContract.schema raw) as [i|];
      [|split; [constructor|now left]].
    rewrite run_db_fmap, failed_fmap.
    destruct (deleteContract_change E u i d) as [H1 H2]. split; auto.
  - destruct (saveClause.schema raw) as [i|] eqn:S;
      [|split; [constructor|now left]].
    rewrite run_db_fmap, failed_fmap.
    destruct (saveClause_schema_texts _ S) as [Hb Hp].
    destruct (saveClause_change E u i d Hb Hp) as [H1 H2].
    split; [exact H1|]. intros Hf. destruct (H2 Hf) as [H|H]; [now left|].
    right. split; [now apply run_res_fmap_inl|reflexivity].
  - destruct (deleteClause.schema raw) as [i|];
      [|split; [constructor|now left]].
    rewrite run_db_fmap, failed_fmap.
    destruct (deleteClause_change E u i d) as [H1 H2].
    split; [exact H1|]. intros Hf. destruct (H2 Hf) as [H|H]; [now left|].
    right. split; [now apply run_res_fmap_inl|reflexivity].
  - destruct (getContractWithClauses.schema raw) as [i|];
      [|split; [constructor|now left]].
    rewrite run_db_fmap, failed_fmap, getContractWithClauses_run.
    destruct (find_contract _ u d); cbn [run_db];
      (split; [apply change_none|now left]).
Qed.

(** Without a signed-in user the database is left as it is. *)
Lemma server_anonymous (E : Env) (op : Op) (raw : Raw) (c : Context) (d : Db) :
  locals_user c = None -> run_db (server E op raw c d) = d.
Proof.
  intros H.
  destruct op; unfold server, defineAction;
    match goal with |- context [match ?s with Some _ => _ | None => _ end] =>
      destruct s; [|reflexivity] end;
    match goal with |- run_db (fmap ?f ?m d) = d =>
      replace (fmap f m d) with (mkRun (A := Reply) d [] (inl Unauthorized))
        by (symmetry; now apply fmap_requireUser_none)
    end; reflexivity.
Qed.


(** ** Lists under the three kinds of write *)

Lemma filter_snoc_false {R} (q : R -> bool) (l : list R) (c : R) :
  q c = false -> filter q (l ++ [c]) = filter q l.
Proof. intros H. rewrite filter_app. cbn. rewrite H. apply app_nil_r. Qed.

Lemma filter_map_keep {R} (q : R -> bool) (g : R -> R) (l : list R) :
  (forall x, In x l -> q (g x) = q x /\ (q x = true -> g x = x)) ->
  filter q (map g l) = filter q l.
Proof.
  induction l as [|a l IH]; intros H; [reflexivity|].
  cbn. destruct (H a (or_introl eq_refl)) as [H1 H2]. rewrite H1.
  rewrite IH by (intros x Hx; apply H; now right).
  destruct (q a); [|reflexivity]. now rewrite H2.
Qed.

Lemma filter_filter_keep {R} (q p : R -> bool) (l : list R) :
  (forall x, q x = true -> p x = true) ->
  filter q (filter p l) = filter q l.
Proof.
  intros H. induction l as [|a l IH]; [reflexivity|].
  cbn. destruct (p a) eqn:P; cbn; rewrite IH; [reflexivity|].
  destruct (q a) eqn:Q; [|reflexivity].
  rewrite (H a Q) in P. discriminate.
Qed.

Lemma NoDup_map_snoc {R} (k : R -> string) (l : list R) (r : R) :
  NoDup (map k l) -> (forall x, In x l -> k x <> k r) ->
  NoDup (map k (l ++ [r])).
Proof.
  induction l as [|a l IH]; intros N F; cbn.
  - constructor; [intros []|constructor].
  - inversion N as [|? ? Hn N']; subst. constructor.
    + rewrite map_app, in_app_iff. intros [H|[H|[]]]; [contradiction|].
      apply (F a (or_introl eq_refl)). now symmetry.
    + apply IH; [exact N'|]. intros x Hx. apply F. now right.
Qed.

Lemma map_key_update {R} (k : R -> string) (c : R -> bool) (f : R -> R)
      (l : list R) :
  (forall x, k (f x) = k x) ->
  map k (map (fun x => if c x then f x else x) l) = map k l.
Proof.
  intros H. rewrite map_map. apply map_ext. intros x.
  destruct (c x); [apply H|reflexivity].
Qed.

Lemma NoDup_map_filter {R} (k : R -> string) (p : R -> bool) (l : list R) :
  NoDup (map k l) -> NoDup (map k (filter p l)).
Proof.
  induction l as [|a l IH]; intros N; [constructor|].
  inversion N as [|? ? Hn N']; subst. cbn.
  destruct (p a); [|now apply IH]. cbn. constructor; [|now apply IH].
  intros H. apply Hn. apply in_map_iff in H as (x & Hx & Hin).
  apply in_map_iff. exists x. split; [exact Hx|].
  now apply filter_In in Hin.
Qed.

(** With unique keys, the row found under a key is the only one of that
    key. *)
Lemma found_is_only {R} (k : R -> string) (i : string) (l : list R) (t : R) :
  NoDup (map k l) ->
  hd_error (filter (fun x => k x =? i) l) = Some t ->
  forall x, In x l -> k x = i -> x = t.
Proof.
  induction l as [|a l IH]; intros N F x Hx Hk; [contradiction|].
  inversion N as [|? ? Hn N']; subst. cbn in F.
  destruct (k a =? k x) eqn:Q.
  - injection F as <-. destruct Hx as [->|Hx]; [reflexivity|].
    apply String.eqb_eq in Q. exfalso. apply Hn. rewrite Q.
    now apply in_map.
  - destruct Hx as [->|Hx]; [now rewrite String.eqb_refl in Q|].
    now apply IH.
Qed.

Lemma foreign_owner_userId (t t' : Template.t) (u : User.t) :
  Template.userId t' = Template.userId t ->
  foreign_owner t' u = foreign_owner t u.
Proof. intros H. unfold foreign_owner. now rewrite H. Qed.

Lemma clause_ids_cons (a : Clause.t) (l : list Clause.t) :
  clause_ids (a :: l)
  = match Clause.id a with
    | Some k => k :: clause_ids l
    | None => clause_ids l
    end.
Proof. unfold clause_ids. cbn. now destruct (Clause.id a). Qed.

Lemma clause_ids_app (l l' : list Clause.t) :
  clause_ids (l ++ l') = (clause_ids l ++ clause_ids l')%list.
Proof. unfold clause_ids. apply flat_map_app. Qed.

Lemma clause_ids_update (c : Clause.t -> bool) (f : Clause.t -> Clause.t)
      (l : list Clause.t) :
  (forall x, Clause.id (f x) = Clause.id x) ->
  clause_ids (map (fun x => if c x then f x else x) l) = clause_ids l.
Proof.
  intros H. induction l as [|a l IH]; [reflexivity|].
  cbn [map]. rewrite !clause_ids_cons, IH.
  destruct (c a); [rewrite H|]; reflexivity.
Qed.

Lemma clause_ids_in (k : string) (l : list Clause.t) :
  In k (clause_ids l) <-> exists cl, In cl l /\ Clause.id cl = Some k.
Proof.
  unfold clause_ids. rewrite in_flat_map. split.
  - intros (cl & Hin & Hk). exists cl. split; [exact Hin|].
    destruct (Clause.id cl) as [k'|]; [|contradiction].
    destruct Hk as [->|[]]. reflexivity.
  - intros (cl & Hin & Hk). exists cl. split; [exact Hin|].
    rewrite Hk. now left.
Qed.

Lemma NoDup_clause_ids_tail (a : Clause.t) (l : list Clause.t) :
  NoDup (clause_ids (a :: l)) -> NoDup (clause_ids l).
Proof.
  rewrite clause_ids_cons. destruct (Clause.id a); [|auto].
  intros N. now inversion N.
Qed.

Lemma NoDup_clause_ids_filter (p : Clause.t -> bool) (l : list Clause.t) :
  NoDup (clause_ids l) -> NoDup (clause_ids (filter p l)).
Proof.
  induction l as [|a l IH]; intros N; [constructor|].
  pose proof (@NoDup_clause_ids_tail a l N) as N'.
  cbn [filter]. destruct (p a); [|now apply IH].
  rewrite clause_ids_cons in *.
  destruct (Clause.id a) as [k|]; [|now apply IH].
  inversion N as [|? ? Hn _]; subst.
  constructor; [|now apply IH].
  intros H. apply Hn. apply clause_ids_in in H as (cl & Hin & Hk).
  apply clause_ids_in. exists cl. split; [|exact Hk].
  now apply filter_In in Hin.
Qed.

Lemma opt_eqb_true (o : option string) (i : string) :
  opt_eqb o i = true <-> o = Some i.
Proof.
  destruct o as [k|]; cbn.
  - rewrite String.eqb_eq. split; [now intros ->|now intros [= ->]].
  - split; discriminate.
Qed.

(** With unique keys, the clause found under an id is the only one of that
    id. *)
Lemma found_clause_is_only (i : string) (l : list Clause.t) (e : Clause.t) :
  NoDup (clause_ids l) ->
  hd_error (filter (fun x => opt_eqb (Clause.id x) i) l) = Some e ->
  forall x, In x l -> opt_eqb (Clause.id x) i = true -> x = e.
Proof.
  induction l as [|a l IH]; intros N F x Hx Hk; [contradiction|].
  pose proof (@NoDup_clause_ids_tail a l N) as N'.
  cbn [filter] in F. destruct (opt_eqb (Clause.id a) i) eqn:Q.
  - injection F as <-. destruct Hx as [->|Hx]; [reflexivity|].
    exfalso. apply opt_eqb_true in Q, Hk.
    rewrite clause_ids_cons, Q in N. inversion N as [|? ? Hn _]; subst.
    apply Hn. apply clause_ids_in. now exists x.
  - destruct Hx as [->|Hx]; [congruence|]. now apply IH.
Qed.

(** ** X1: what a call that fails has changed *)

(** X1. Whatever the action, the raw input and the caller: when a call to
    the server fails, the database after the call is the database before
    it, unless the call is a saveClause or a deleteClause that fails with
    the failure of the store (the write is committed and the rows it
    returns cannot be read back).  So a call that fails on validation,
    for want of a signed-in user, with NotFound, or on a write the store
    refuses, has changed nothing. *)
Theorem failed_call_keeps_database :
  forall (E : Env) (op : Op) (raw : Raw) (c : Context) (d : Db),
    failed (server E op raw c d) = true ->
    run_db (server E op raw c d) = d
    \/ (run_res (server E op raw c d) = inl StoreFailure
        /\ written_table op = Some TContractClauses).
Proof.
  intros E op raw c d H.
  destruct (context_cases c) as [Hc|[u ->]].
  - left. now apply server_anonymous.
  - now apply server_change.
Qed.

(** Three failing calls.  Alice deletes bob's contract "c1", bob creates
    "c1" again: the database is as it was.  Alice saves her clause "k1"
    again with 2^53 as [orderIndex]: the call fails, and the clause has
    the new [orderIndex]. *)
Lemma failed_call_keeps_database_witness :
  run_db (server (env_at 5000%Z) deleteContract (RObject [("id", JString "c1")])
            (signedIn alice) db_sys_c1) = db_sys_c1
  /\ run_db (server (env_at 5000%Z) createContract
               (RObject [("id", JString "c1"); ("title", JString "T");
                         ("finalText", JString "F")])
               (signedIn bob) db_sys_c1) = db_sys_c1
  /\ (let r := server (env_at 5000%Z) saveClause
                 (RObject [("id", JString "k1"); ("contractId", JString "ca");
                           ("orderIndex", JNumber 9007199254740992);
                           ("body", JString "Pay now")])
                 (signedIn alice) db_ca_k1 in
      run_res r = inl StoreFailure
      /\ option_map Clause.orderIndex (find_clause "k1" db_ca_k1) = Some 1%Z
      /\ option_map Clause.orderIndex (find_clause "k1" (run_db r))
         = Some 9007199254740992%Z).
Proof.
  split; [|split].
  - destruct (@failed_call_keeps_database (env_at 5000%Z) deleteContract
                (RObject [("id", JString "c1")]) (signedIn alice) db_sys_c1
                eq_refl) as [H|[H _]]; [exact H|].
    vm_compute in H. discriminate H.
  - destruct (@failed_call_keeps_database (env_at 5000%Z) createContract
                (RObject [("id", JString "c1"); ("title", JString "T");
                          ("finalText", JString "F")])
                (signedIn bob) db_sys_c1 eq_refl) as [H|[_ H]]; [exact H|].
    discriminate H.
  - cbv zeta.
    destruct (@failed_call_keeps_database (env_at 5000%Z) saveClause
                (RObject [("id", JString "k1"); ("contractId", JString "ca");
                          ("orderIndex", JNumber 9007199254740992);
                          ("body", JString "Pay now")])
                (signedIn alice) db_ca_k1 eq_refl) as [H|[H _]].
    + apply (f_equal (fun d => option_map Clause.orderIndex (find_clause "k1" d)))
        in H.
      vm_compute in H. discriminate H.
    + split; [exact H|]. split; reflexivity.
Defined.

(** ** X2: the primary keys *)

Lemma change_keeps_keys (u : User.t) (d d' : Db) :
  Change u d d' -> keys_unique d -> keys_unique d'.
Proof.
  intros Ch (Nt & Nc & Ncl).
  destruct Ch as [ | t Hfresh Hown Hname
                   | i f t0 Hfind Hown Hf
                   | x Hfresh Hown Hlink
                   | i f Hf Hlink
                   | i Hnone
                   | cl Hnull Hown Hbody Hpos
                   | i f e Hfind Hown Hf
                   | i cid Hown ];
    unfold keys_unique; cbn [ContractTemplates Contracts ContractClauses];
    repeat split; auto.
  - now apply NoDup_map_snoc.
  - rewrite map_key_update; [exact Nt|]. intros y. apply Hf.
  - now apply NoDup_map_snoc.
  - rewrite map_key_update; [exact Nc|]. intros y. apply Hf.
  - now apply NoDup_map_filter.
  - rewrite clause_ids_app, clause_ids_cons, Hnull. cbn.
    now rewrite app_nil_r.
  - rewrite clause_ids_update; [exact Ncl|]. intros y. apply Hf.
  - now apply NoDup_clause_ids_filter.
Qed.

(** X2. Every call to the server keeps the primary keys: if no two
    templates share an id, no two contracts share an id, and no two
    clauses share an id that is not null before the call, the same holds
    after it, whatever the action, the input and the caller. *)
Theorem server_keeps_keys_unique :
  forall (E : Env) (op : Op) (raw : Raw) (c : Context) (d : Db),
    keys_unique d ->
    keys_unique (run_db (server E op raw c d)).
Proof.
  intros E op raw c d K.
  destruct (context_cases c) as [Hc|[u ->]].
  - now rewrite server_anonymous.
  - eapply change_keeps_keys; [apply server_change|exact K].
Qed.

Lemma keys_unique_db_sys_c1 : keys_unique db_sys_c1.
Proof.
  repeat split; cbn; repeat constructor; cbn; intuition discriminate.
Qed.

Lemma keys_unique_db_ca_k1 : keys_unique db_ca_k1.
Proof.
  repeat split; cbn; repeat constructor; cbn; intuition discriminate.
Qed.

(** Alice creates a second contract next to bob's "c1"; and alice saves a
    clause without an id next to her clause "k1": the new row has no id,
    and "k1" is still the one id among the clauses. *)
Lemma server_keeps_keys_unique_witness :
  (let d' := run_db (server (env_at 5000%Z) createContract
                       (RObject [("id", JString "c2"); ("title", JString "T");
                                 ("finalText", JString "F")])
                       (signedIn alice) db_sys_c1) in
   keys_unique d' /\ map Contract.id (Contracts d') = ["c1"; "c2"])
  /\
  (let d' := run_db (server (env_at 5000%Z) saveClause
                       (RObject [("contractId", JString "ca");
                                 ("orderIndex", JNumber 2);
                                 ("body", JString "Notices in writing")])
                       (signedIn alice) db_ca_k1) in
   keys_unique d'
   /\ map Clause.id (ContractClauses d') = [Some "k1"; None]).
Proof.
  split; cbv zeta.
  - split; [|reflexivity].
    apply server_keeps_keys_unique. exact keys_unique_db_sys_c1.
  - split; [|reflexivity].
    apply server_keeps_keys_unique. exact keys_unique_db_ca_k1.
Defined.

(** ** X3: the contracts of other users *)

Lemma change_keeps_contracts_of_others (u : User.t) (d d' : Db) :
  Change u d d' -> contracts_of_others u d' = contracts_of_others u d.
Proof.
  intros Ch.
  destruct Ch as [ | t Hfresh Hown Hname
                   | i f t0 Hfind Hown Hf
                   | x Hfresh Hown Hlink
                   | i f Hf Hlink
                   | i Hnone
                   | cl Hnull Hown Hbody Hpos
                   | i f e Hfind Hown Hf
                   | i cid Hown ];
    unfold contracts_of_others; cbn [Contracts]; try reflexivity.
  - apply filter_snoc_false. rewrite Hown, String.eqb_refl. reflexivity.
  - apply filter_map_keep. intros y _. unfold owned.
    destruct (Contract.userId y =? User.id u) eqn:Q.
    + destruct (Contract.id y =? i); cbn; [|now rewrite Q].
      rewrite (proj2 (Hf y)), Q. split; [reflexivity|discriminate].
    + rewrite andb_false_r, Q. split; reflexivity.
  - apply filter_filter_keep. intros y Hy. unfold owned.
    apply negb_true_iff in Hy. rewrite Hy. now rewrite andb_false_r.
Qed.

(** X3. No call made by a signed-in user touches the contracts of the other
    users: whatever the action and the input, the contracts whose
    [userId] is not the caller's id are, after the call, the same rows in
    the same order as before. *)
Theorem server_keeps_contracts_of_others :
  forall (E : Env) (op : Op) (raw : Raw) (u : User.t) (d : Db),
    contracts_of_others u (run_db (server E op raw (signedIn u) d))
    = contracts_of_others u d.
Proof.
  intros E op raw u d.
  apply change_keeps_contracts_of_others. apply server_change.
Qed.

(** ** X4: the templates of other users *)

Lemma change_keeps_templates_of_others (u : User.t) (d d' : Db) :
  Change u d d' -> keys_unique d ->
  templates_of_others u d' = templates_of_others u d.
Proof.
  intros Ch (Nt & _).
  destruct Ch as [ | t Hfresh Hown Hname
                   | i f t0 Hfind Hown Hf
                   | x Hfresh Hown Hlink
                   | i f Hf Hlink
                   | i Hnone
                   | cl Hnull Hown Hbody Hpos
                   | i f e Hfind Hown Hf
                   | i cid Hown ];
    unfold templates_of_others; cbn [ContractTemplates]; try reflexivity.
  - now apply filter_snoc_false.
  - apply filter_map_keep. intros y Hy.
    destruct (Template.id y =? i) eqn:Q; [|split; reflexivity].
    apply String.eqb_eq in Q.
    assert (y = t0) by (eapply found_is_only; eassumption). subst y.
    rewrite (foreign_owner_userId _ _ u (proj1 (proj2 (Hf t0)))), Hown.
    split; [reflexivity|discriminate].
Qed.

(** X4. In a database with unique keys, no call made by a signed-in user
    touches a template that the guard closes to that user (one whose
    [userId] is a non-empty string other than the caller's id): after the
    call these templates are the same rows in the same order as before. *)
Theorem server_keeps_templates_of_others :
  forall (E : Env) (op : Op) (raw : Raw) (u : User.t) (d : Db),
    keys_unique d ->
    templates_of_others u (run_db (server E op raw (signedIn u) d))
    = templates_of_others u d.
Proof.
  intros E op raw u d K.
  apply change_keeps_templates_of_others; [apply server_change|exact K].
Qed.

(** Alice renames her template "t1"; bob's "t2" beside it is as before. *)
Lemma server_keeps_templates_of_others_witness :
  templates_of_others alice
    (run_db (server (env_at 5000%Z) updateTemplate
               (RObject [("id", JString "t1"); ("name", JString "Renamed")])
               (signedIn alice) db_t2_t1))
  = templates_of_others alice db_t2_t1
  /\ List.length (templates_of_others alice db_t2_t1) = 1%nat
  /\ option_map Template.name
       (find_template "t1"
          (run_db (server (env_at 5000%Z) updateTemplate
                     (RObject [("id", JString "t1"); ("name", JString "Renamed")])
                     (signedIn alice) db_t2_t1))) = Some "Renamed".
Proof.
  split; [|split; reflexivity].
  apply server_keeps_templates_of_others.
  repeat split; cbn; repeat constructor; cbn; intuition discriminate.
Defined.

(** ** X5: the clauses under contracts of other users *)

Lemma change_keeps_clauses_of_others (u : User.t) (d d' : Db) :
  Change u d d' -> keys_unique d ->
  clauses_of_others u d d' = clauses_of_others u d d.
Proof.
  intros Ch (_ & _ & Ncl).
  destruct Ch as [ | t Hfresh Hown Hname
                   | i f t0 Hfind Hown Hf
                   | x Hfresh Hown Hlink
                   | i f Hf Hlink
                   | i Hnone
                   | cl Hnull Hown Hbody Hpos
                   | i f e Hfind Hown Hf
                   | i cid Hown ];
    unfold clauses_of_others; cbn [ContractClauses]; try reflexivity.
  - apply filter_snoc_false. now rewrite Hown.
  - apply filter_map_keep. intros y Hy.
    destruct (opt_eqb (Clause.id y) i) eqn:Q; [|split; reflexivity].
    assert (y = e) by (eapply found_clause_is_only; eassumption). subst y.
    rewrite (proj1 (proj2 (Hf e))), Hown.
    split; [reflexivity|discriminate].
  - apply filter_filter_keep. intros y Hy.
    apply negb_true_iff in Hy. apply negb_true_iff.
    destruct (Clause.contractId y =? cid) eqn:Q; [|apply andb_false_r].
    apply String.eqb_eq in Q. rewrite Q in Hy. congruence.
Qed.

(** X5. In a database with unique keys, no call made by a signed-in user
    touches a clause under a contract the caller does not own: the clauses
    whose [contractId] is not the id of a contract of the caller are, after
    the call, the same rows in the same order as before. *)
Theorem server_keeps_clauses_of_others :
  forall (E : Env) (op : Op) (raw : Raw) (u : User.t) (d : Db),
    keys_unique d ->
    clauses_of_others u d (run_db (server E op raw (signedIn u) d))
    = clauses_of_others u d d.
Proof.
  intros E op raw u d K.
  apply change_keeps_clauses_of_others; [apply server_change|exact K].
Qed.

(** Alice deletes her clause "k1"; bob's clause "k9" is as before. *)
Lemma server_keeps_clauses_of_others_witness :
  clauses_of_others alice db_ca_cz_k9
    (run_db (server (env_at 5000%Z) deleteClause
               (RObject [("id", JString "k1"); ("contractId", JString "ca")])
               (signedIn alice) db_ca_cz_k9))
  = clauses_of_others alice db_ca_cz_k9 db_ca_cz_k9
  /\ map Clause.id (clauses_of_others alice db_ca_cz_k9 db_ca_cz_k9)
     = [Some "k9"]
  /\ map Clause.id
       (ContractClauses
          (run_db (server (env_at 5000%Z) deleteClause
                     (RObject [("id", JString "k1"); ("contractId", JString "ca")])
                     (signedIn alice) db_ca_cz_k9))) = [Some "k9"].
Proof.
  split; [|split; reflexivity].
  apply server_keeps_clauses_of_others.
  repeat split; cbn; repeat constructor; cbn; intuition discriminate.
Defined.

(** ** X6: names, bodies and order indexes *)

Lemma change_keeps_texts (u : User.t) (d d' : Db) :
  Change u d d' -> texts_present d -> texts_present d'.
Proof.
  intros Ch (Ht & Hc).
  destruct Ch as [ | t Hfresh Hown Hname
                   | i f t0 Hfind Hown Hf
                   | x Hfresh Hown Hlink
                   | i f Hf Hlink
                   | i Hnone
                   | cl Hnull Hown Hbody Hpos
                   | i f e Hfind Hown Hf
                   | i cid Hown ];
    unfold texts_present; cbn [ContractTemplates ContractClauses];
    split; auto.
  - intros y Hy. apply in_app_iff in Hy as [Hy|[<-|[]]]; auto.
  - intros y Hy. apply in_map_iff in Hy as (z & <- & Hz).
    destruct (Template.id z =? i); [|now apply Ht].
    apply Hf. now apply Ht.
  - intros y Hy. apply in_app_iff in Hy as [Hy|[<-|[]]]; auto.
  - intros y Hy. apply in_map_iff in Hy as (z & <- & Hz).
    destruct (opt_eqb (Clause.id z) i); [|now apply Hc].
    split; apply Hf.
  - intros y Hy. apply filter_In in Hy as [Hy _]. now apply Hc.
Qed.

(** X6. The server keeps what its schemas insist on for templates and
    clauses: if every template has a non-empty name and every clause a
    non-empty body and a positive [orderIndex] before a call, the same
    holds after it, whatever the action, the input and the caller. *)
Theorem server_keeps_texts_present :
  forall (E : Env) (op : Op) (raw : Raw) (c : Context) (d : Db),
    texts_present d ->
    texts_present (run_db (server E op raw c d)).
Proof.
  intros E op raw c d T.
  destruct (context_cases c) as [Hc|[u ->]].
  - now rewrite server_anonymous.
  - eapply change_keeps_texts; [apply server_change|exact T].
Qed.

(** Alice saves her clause "k1" again with a new body. *)
Lemma server_keeps_texts_present_witness :
  texts_present
    (run_db (server (env_at 5000%Z) saveClause
               (RObject [("id", JString "k1"); ("contractId", JString "ca");
                         ("orderIndex", JNumber 2); ("body", JString "Pay now")])
               (signedIn alice) db_ca_k1))
  /\ map Clause.body
       (ContractClauses
          (run_db (server (env_at 5000%Z) saveClause
                     (RObject [("id", JString "k1"); ("contractId", JString "ca");
                               ("orderIndex", JNumber 2); ("body", JString "Pay now")])
                     (signedIn alice) db_ca_k1))) = ["Pay now"].
Proof.
  split; [|reflexivity].
  apply server_keeps_texts_present.
  split; cbn.
  - intros t [].
  - intros cl [<-|[]]. cbn. split; [discriminate|reflexivity].
Defined.


(** ** X7 to X9: deleting a contract *)

Lemma owned_true (i : string) (u : User.t) (c : Contract.t) :
  owned i u c = true <-> Contract.id c = i /\ Contract.userId c = User.id u.
Proof.
  unfold owned. now rewrite andb_true_iff, !String.eqb_eq.
Qed.

Lemma find_contract_none (i : string) (u : User.t) (d : Db) :
  find_contract i u d = None <->
  forall c, In c (Contracts d) ->
            Contract.id c = i -> Contract.userId c <> User.id u.
Proof.
  unfold find_contract. rewrite hd_error_filter_none. split.
  - intros H c Hc Hi Hu.
    assert (owned i u c = true) by (apply owned_true; auto).
    rewrite (H c Hc) in *. discriminate.
  - intros H c Hc. destruct (owned i u c) eqn:O; [|reflexivity].
    apply owned_true in O as [Hi Hu]. now elim (H c Hc Hi).
Qed.

Lemma find_contract_some (i : string) (u : User.t) (d : Db) (c : Contract.t) :
  find_contract i u d = Some c ->
  In c (Contracts d) /\ Contract.id c = i /\ Contract.userId c = User.id u.
Proof.
  intros H. apply hd_error_filter_some in H as [Hin Ho].
  apply owned_true in Ho. tauto.
Qed.

Lemma find_contract_after_delete (i : string) (u : User.t) (d : Db) :
  find_contract i u
    (mkDb (ContractTemplates d)
       (filter (fun x => negb (owned i u x)) (Contracts d))
       (ContractClauses d)) = None.
Proof.
  unfold find_contract. cbn [Contracts]. apply hd_error_filter_none.
  intros x Hx. apply filter_In in Hx as [_ Hx]. now apply negb_true_iff.
Qed.

Lemma has_clauses_true (d : Db) (i : string) :
  has_clauses d i = true <->
  exists cl, In cl (ContractClauses d) /\ Clause.contractId cl = i.
Proof.
  unfold has_clauses. rewrite existsb_exists. split.
  - intros (cl & Hin & H). exists cl. split; [exact Hin|].
    now apply String.eqb_eq.
  - intros (cl & Hin & H). exists cl. split; [exact Hin|].
    now apply String.eqb_eq.
Qed.

Lemma has_clauses_false (d : Db) (i : string) :
  has_clauses d i = false <->
  forall cl, In cl (ContractClauses d) -> Clause.contractId cl <> i.
Proof. apply existsb_key_false. Qed.

(** X7. For a signed-in caller, deleteContract fails with NotFound exactly
    when the caller owns no contract of the given id (another user's
    contract of that id counts as absent); it fails with the failure of
    the store exactly when the caller owns one and a clause is stored
    under the id; a call that fails leaves the database as it was.
    Otherwise it returns a contract of that id owned by the caller, no
    clause was stored under the id, the contracts are those of before
    without the caller's contracts of that id, and the clauses and
    templates are as before. *)
Theorem deleteContract_outcome :
  forall (E : Env) (u : User.t) (input : deleteContract.input) (d : Db),
    let i := deleteContract.id input in
    let r := deleteContract.handler E input (signedIn u) d in
    (run_res r = inl NotFound <->
       forall c, In c (Contracts d) ->
                 Contract.id c = i -> Contract.userId c <> User.id u)
    /\ (run_res r = inl StoreFailure <->
          (exists c, In c (Contracts d) /\ Contract.id c = i
                     /\ Contract.userId c = User.id u)
          /\ exists cl, In cl (ContractClauses d) /\ Clause.contractId cl = i)
    /\ (run_res r = inl NotFound \/ run_res r = inl StoreFailure
        \/ exists c, run_res r = inr c)
    /\ (failed r = true -> run_db r = d)
    /\ (forall c, run_res r = inr c ->
          In c (Contracts d) /\ Contract.id c = i
          /\ Contract.userId c = User.id u
          /\ (forall cl, In cl (ContractClauses d) -> Clause.contractId cl <> i)
          /\ (forall x, In x (Contracts (run_db r)) <->
                        In x (Contracts d)
                        /\ ~ (Contract.id x = i /\ Contract.userId x = User.id u))
          /\ ContractClauses (run_db r) = ContractClauses d
          /\ ContractTemplates (run_db r) = ContractTemplates d).
Proof.
  intros E u input d i r. subst i r. rewrite deleteContract_run.
  rewrite <- find_contract_none.
  destruct (find_contract _ u d) as [c|] eqn:F.
  - pose proof (find_contract_some _ _ _ F) as (Hin & Hi & Hu).
    destruct (has_clauses d (deleteContract.id input)) eqn:H.
    + split; [split; discriminate|].
      split.
      { split; [|reflexivity]. intros _. split.
        - exists c. auto.
        - now apply has_clauses_true. }
      split; [right; now left|]. split; [reflexivity|]. intros c' [=].
    + split; [split; discriminate|].
      split.
      { split; [discriminate|]. intros [_ Hcl].
        apply has_clauses_true in Hcl. congruence. }
      split; [right; right; now exists c|]. split; [discriminate|].
      intros c' [= <-].
      split; [exact Hin|]. split; [exact Hi|]. split; [exact Hu|].
      split; [now apply has_clauses_false|].
      split; [|split; reflexivity].
      intros x. cbn [run_db Contracts]. rewrite filter_In, negb_true_iff.
      split.
      * intros [Hx Ho]. split; [exact Hx|]. intros Hn.
        apply owned_true in Hn. congruence.
      * intros [Hx Hn]. split; [exact Hx|].
        destruct (owned _ u x) eqn:O; [|reflexivity].
        apply owned_true in O. contradiction.
  - split; [split; reflexivity|].
    split.
    { split; [discriminate|]. intros [(c & Hin & Hi & Hu) _].
      exfalso. apply (proj1 (find_contract_none _ _ _) F c Hin Hi Hu). }
    split; [now left|]. split; [reflexivity|]. intros c [=].
Qed.

(** X8. A deleteContract that succeeded has removed a contract under which
    no clause is stored, before or after; and the caller then owns no
    contract of that id: getContractWithClauses, saveClause and
    deleteClause on that contract id all fail with NotFound after the
    contract lookup. *)
Theorem deleted_contract_has_no_clauses :
  forall (E E' : Env) (u : User.t) (input : deleteContract.input) (d : Db)
         (c : Contract.t),
    run_res (deleteContract.handler E input (signedIn u) d) = inr c ->
    let i := deleteContract.id input in
    let d' := run_db (deleteContract.handler E input (signedIn u) d) in
    filter (fun cl => Clause.contractId cl =? i) (ContractClauses d) = []
    /\ filter (fun cl => Clause.contractId cl =? i) (ContractClauses d') = []
    /\ getContractWithClauses.handler E' (getContractWithClauses.mkInput i)
         (signedIn u) d'
       = mkRun d' [Read TContracts] (inl NotFound)
    /\ (forall s, saveClause.contractId s = i ->
          saveClause.handler E' s (signedIn u) d'
          = mkRun d' [Read TContracts] (inl NotFound))
    /\ (forall k,
          deleteClause.handler E' (deleteClause.mkInput k i) (signedIn u) d'
          = mkRun d' [Read TContracts] (inl NotFound)).
Proof.
  intros E E' u input d c H i d'. subst i d'.
  rewrite deleteContract_run in *.
  destruct (find_contract _ u d) as [c0|]; [|discriminate].
  destruct (has_clauses d (deleteContract.id input)) eqn:Hcl; [discriminate|].
  cbn [run_db ContractClauses].
  pose proof (find_contract_after_delete (deleteContract.id input) u d) as N.
  assert (Hnone : filter (fun cl => Clause.contractId cl =? deleteContract.id input)
                    (ContractClauses d) = []).
  { apply filter_nil_iff. intros x Hx. apply String.eqb_neq.
    exact (proj1 (has_clauses_false _ _) Hcl x Hx). }
  split; [exact Hnone|]. split; [exact Hnone|]. split; [|split].
  - rewrite getContractWithClauses_run. cbn [getContractWithClauses.id].
    now rewrite N.
  - intros s Hs. unfold saveClause.handler. step.
    rewrite Hs. fold (find_contract (deleteContract.id input) u
                        (mkDb (ContractTemplates d)
                           (filter (fun x => negb (owned (deleteContract.id input) u x))
                              (Contracts d))
                           (ContractClauses d))).
    now rewrite N.
  - intros k. rewrite deleteClause_run. cbn [deleteClause.contractId].
    now rewrite N.
Qed.

(** X9. In a store whose references hold, a contract that createContract
    has just created is removed again by deleteContract on its id: the
    call returns the created row and the database is back to what it was
    before the creation. *)
Theorem createContract_then_deleteContract :
  forall (E E' : Env) (u : User.t) (input : createContract.input) (d : Db)
         (c : Contract.t),
    references_hold d ->
    run_res (createContract.handler E input (signedIn u) d) = inr (Some c) ->
    deleteContract.handler E' (deleteContract.mkInput (Contract.id c)) (signedIn u)
      (run_db (createContract.handler E input (signedIn u) d))
    = mkRun d [Write TContracts] (inr c).
Proof.
  intros E E' u input d c [_ Hrefs] H.
  destruct (createContract_success E u input d H) as (Hc & Hd & Hfresh).
  rewrite Hd, deleteContract_run.
  cbn [deleteContract.id ContractTemplates Contracts ContractClauses].
  assert (Hold : forall x, In x (Contracts d) ->
                           owned (Contract.id c) u x = false).
  { intros x Hx. unfold owned. apply Hfresh in Hx.
    apply String.eqb_neq in Hx. now rewrite Hx. }
  assert (Hnew : owned (Contract.id c) u c = true).
  { apply owned_true. split; [reflexivity|]. now subst c. }
  assert (Hcl : has_clauses
                  (mkDb (ContractTemplates d) (Contracts d ++ [c])
                     (ContractClauses d)) (Contract.id c) = false).
  { apply has_clauses_false. cbn [ContractClauses]. intros cl Hin Heq.
    specialize (Hrefs cl Hin). unfold has_contract in Hrefs.
    apply existsb_exists in Hrefs as (x & Hx & Hid).
    apply String.eqb_eq in Hid. apply (Hfresh x Hx). congruence. }
  rewrite Hcl.
  unfold find_contract. cbn [Contracts]. rewrite !filter_app. cbn [filter].
  rewrite Hnew. cbn [negb app].
  replace (filter (owned (Contract.id c) u) (Contracts d)) with (@nil Contract.t)
    by (symmetry; now apply filter_nil_iff).
  cbn [app hd_error]. rewrite app_nil_r.
  replace (filter (fun x => negb (owned (Contract.id c) u x)) (Contracts d))
    with (Contracts d).
  - now rewrite db_eta.
  - symmetry. apply filter_negb_none. apply hd_error_filter_none. exact Hold.
Qed.

(** ** X10, X11: deleting a clause, reading a contract *)

Lemma forallb_filter_true {R} (p q : R -> bool) (l : list R) :
  forallb q (filter p l) = true <->
  forall x, In x l -> p x = true -> q x = true.
Proof.
  rewrite forallb_forall. split.
  - intros H x Hx Px. apply H. apply filter_In. auto.
  - intros H x Hx. apply filter_In in Hx as [Hx Px]. auto.
Qed.




(** ** X12: a clause saved without an id *)

Lemma filter_null_update (i : string) (f : Clause.t -> Clause.t)
      (l : list Clause.t) :
  (forall x, Clause.id (f x) = Clause.id x) ->
  filter (fun cl => is_null (Clause.id cl))
    (map (fun x => if opt_eqb (Clause.id x) i then f x else x) l)
  = filter (fun cl => is_null (Clause.id cl)) l.
Proof.
  intros H. apply filter_map_keep. intros x _.
  destruct (opt_eqb (Clause.id x) i) eqn:Q.
  - rewrite H. split; [reflexivity|].
    apply opt_eqb_true in Q. rewrite Q. discriminate.
  - split; reflexivity.
Qed.

Lemma change_keeps_clauses_without_id (u : User.t) (d d' : Db) :
  Change u d d' ->
  clauses_without_id d' = clauses_without_id d
  \/ exists cl, Clause.id cl = None
                /\ owns_contract u d (Clause.contractId cl) = true
                /\ ContractClauses d' = (ContractClauses d ++ [cl])%list
                /\ clauses_without_id d' = (clauses_without_id d ++ [cl])%list.
Proof.
  intros Ch.
  destruct Ch as [ | t Hfresh Hown Hname
                   | i f t0 Hfind Hown Hf
                   | x Hfresh Hown Hlink
                   | i f Hf Hlink
                   | i Hnone
                   | cl Hnull Hown Hbody Hpos
                   | i f e Hfind Hown Hf
                   | i cid Hown ];
    unfold clauses_without_id; cbn [ContractClauses]; try (now left).
  - right. exists cl. repeat split; auto.
    rewrite filter_app. cbn. now rewrite Hnull.
  - left. apply filter_null_update. intros x. apply Hf.
  - left. apply filter_filter_keep. intros x Hx.
    destruct (Clause.id x); [discriminate|reflexivity].
Qed.

(** X12. The clauses stored without an id stay as they are.  Whatever the
    action, the input and the caller, the clauses of the store whose id is
    null are after the call those of before, same rows in the same order,
    followed by at most one new row: saveClause adds a clause without an
    id, and no action changes or removes one. *)
Theorem server_keeps_clauses_without_id :
  forall (E : Env) (op : Op) (raw : Raw) (c : Context) (d : Db),
    exists added,
      clauses_without_id (run_db (server E op raw c d))
      = (clauses_without_id d ++ added)%list
      /\ (List.length added <= 1)%nat
      /\ (added <> [] -> op = saveClause).
Proof.
  intros E op raw c d.
  destruct (context_cases c) as [Hc|[u ->]].
  - exists []. rewrite server_anonymous by exact Hc.
    rewrite app_nil_r. repeat split; [cbn; lia|congruence].
  - destruct (server_change E op raw u d) as [Ch _].
    assert (Hother : op <> saveClause ->
              (List.length (ContractClauses (run_db (server E op raw (signedIn u) d)))
               <= List.length (ContractClauses d))%nat).
    { intros Hop.
      destruct op; try congruence; unfold server, defineAction;
        match goal with |- context [match ?s with Some _ => _ | None => _ end] =>
          destruct s; [|apply Nat.le_refl] end;
        rewrite run_db_fmap.
      - rewrite createTemplate_run. cbv zeta.
        destruct (existsb _ _); apply Nat.le_refl.
      - rewrite updateTemplate_run.
        destruct (find_template _ d) as [t|]; [|apply Nat.le_refl].
        destruct (foreign_owner t u); [apply Nat.le_refl|].
        destruct (updateTemplate.no_keys _); apply Nat.le_refl.
      - destruct u0. rewrite listTemplates_run. apply Nat.le_refl.
      - rewrite createContract_run. cbv zeta.
        destruct (run_res (check_template _ u d)) as [e|[]]; [apply Nat.le_refl|].
        destruct (has_contract d _ || negb _); apply Nat.le_refl.
      - rewrite updateContract_run.
        destruct (find_contract _ u d); [|apply Nat.le_refl]. cbv zeta.
        destruct (run_res (check_template _ u d)) as [e|[]]; [apply Nat.le_refl|].
        destruct (updateContract.no_keys _); [apply Nat.le_refl|].
        destruct (match updateContract.templateId _ with
                  | Some tid => negb (has_template d tid)
                  | None => false
                  end); apply Nat.le_refl.
      - destruct u0. rewrite listContracts_run. apply Nat.le_refl.
      - rewrite deleteContract_run.
        destruct (find_contract _ u d); [|apply Nat.le_refl].
        destruct (has_clauses d _); apply Nat.le_refl.
      - rewrite deleteClause_run.
        destruct (find_contract _ u d); [|apply Nat.le_refl].
        destruct (hd_error _); [|apply Nat.le_refl].
        cbn [run_db ContractClauses]. apply filter_length_le.
      - rewrite getContractWithClauses_run.
        destruct (find_contract _ u d); apply Nat.le_refl. }
    destruct (change_keeps_clauses_without_id Ch)
      as [H|(cl & Hnull & Hown & Hall & H)].
    + exists []. rewrite app_nil_r. repeat split; [exact H|cbn; lia|congruence].
    + exists [cl]. repeat split; [exact H|cbn; lia|].
      intros _. destruct op; try reflexivity; exfalso;
        (assert (L := Hother ltac:(discriminate));
         rewrite Hall, length_app in L; cbn in L; lia).
Qed.
(** ** X13, X14: what a creation adds to the lists *)

(** X13. After a createTemplate that succeeded for the caller [u], the
    listTemplates of any signed-in user [v] is the list [v] had before,
    followed by the new template when the template was created as a system
    template or [v] has the id of [u], and by nothing otherwise. *)
Theorem createTemplate_then_listTemplates :
  forall (E E' : Env) (u v : User.t) (input : createTemplate.input) (d : Db)
         (t : Template.t),
    run_res (createTemplate.handler E input (signedIn u) d) = inr (Some t) ->
    let d' := run_db (createTemplate.handler E input (signedIn u) d) in
    exists before,
      run_res (listTemplates.handler E' tt (signedIn v) d) = inr before
      /\ run_res (listTemplates.handler E' tt (signedIn v) d')
         = inr (before
                  ++ (if nullish (createTemplate.isSystem input) false
                         || (User.id u =? User.id v)
                      then [t] else []))%list.
Proof.
  intros E E' u v input d t H d'. subst d'.
  rewrite createTemplate_run in *. cbv zeta in *.
  destruct (existsb _ _); [discriminate|].
  cbn [run_res run_db] in *. injection H as <-.
  rewrite !listTemplates_run. cbn [run_res ContractTemplates].
  eexists. split; [reflexivity|].
  rewrite filter_app. cbn [filter Template.userId].
  destruct (nullish (createTemplate.isSystem input) false); cbn; [reflexivity|].
  destruct (User.id u =? User.id v); reflexivity.
Qed.

(** X14. After a createContract that succeeded for the caller [u], the
    listContracts of [u] is the list of before followed by the new
    contract, and the listContracts of a user with another id is the list
    of before. *)
Theorem createContract_then_listContracts :
  forall (E E' : Env) (u v : User.t) (input : createContract.input) (d : Db)
         (c : Contract.t),
    run_res (createContract.handler E input (signedIn u) d) = inr (Some c) ->
    let d' := run_db (createContract.handler E input (signedIn u) d) in
    exists before,
      run_res (listContracts.handler E' tt (signedIn v) d) = inr before
      /\ run_res (listContracts.handler E' tt (signedIn v) d')
         = inr (before ++ (if User.id u =? User.id v then [c] else []))%list.
Proof.
  intros E E' u v input d c H d'. subst d'.
  destruct (createContract_success E u input d H) as (Hc & Hd & _).
  rewrite Hd, !listContracts_run. cbn [run_res Contracts].
  eexists. split; [reflexivity|].
  rewrite filter_app. cbn [filter]. subst c. cbn [Contract.userId createContract.values].
  destruct (User.id u =? User.id v); reflexivity.
Qed.

(** ** X15, X16: what the actions leave alone *)

(** X15. updateContract never changes the id, the owner or the creation
    time of a contract, and updateTemplate never changes the creation time
    of a template: whatever the input and the caller, the rows of the
    table carry after the call, in order, the values they carried
    before. *)
Theorem updates_keep_identity :
  (forall (E : Env) (input : updateContract.input) (c : Context) (d : Db),
      map (fun x => (Contract.id x, Contract.userId x, Contract.createdAt x))
          (Contracts (run_db (updateContract.handler E input c d)))
      = map (fun x => (Contract.id x, Contract.userId x, Contract.createdAt x))
            (Contracts d))
  /\
  (forall (E : Env) (input : updateTemplate.input) (c : Context) (d : Db),
      map (fun x => (Template.id x, Template.createdAt x))
          (ContractTemplates (run_db (updateTemplate.handler E input c d)))
      = map (fun x => (Template.id x, Template.createdAt x))
            (ContractTemplates d)).
Proof.
  split; intros E input c d.
  - destruct (context_cases c) as [H|[u ->]].
    + unfold updateContract.handler. now rewrite bind_requireUser_none.
    + rewrite updateContract_run.
      destruct (find_contract _ u d); [|reflexivity]. cbv zeta.
      destruct (run_res (check_template _ u d)) as [e|[]]; [reflexivity|].
      destruct (updateContract.no_keys input); [reflexivity|].
      destruct (match updateContract.templateId input with
                | Some tid => negb (has_template d tid)
                | None => false
                end); [reflexivity|].
      cbn [run_db Contracts]. rewrite map_map. apply map_ext. intros x.
      destruct (owned _ u x); reflexivity.
  - destruct (context_cases c) as [H|[u ->]].
    + unfold updateTemplate.handler. now rewrite bind_requireUser_none.
    + rewrite updateTemplate_run.
      destruct (find_template _ d) as [t|]; [|reflexivity].
      destruct (foreign_owner t u); [reflexivity|].
      destruct (updateTemplate.no_keys input); [reflexivity|].
      cbn [run_db ContractTemplates]. rewrite map_map. apply map_ext. intros x.
      destruct (Template.id x =? updateTemplate.id input); reflexivity.
Qed.

(** Closes a goal [confined_to o d r] on an explicit run. *)
Ltac confined :=
  unfold confined_to; cbn;
  repeat split; try reflexivity; intros H; now elim H.

Lemma confined_fmap {A B} (f : A -> B) (o : option TableName) (d : Db)
      (m : Action A) :
  confined_to o d (m d) -> confined_to o d (fmap f m d).
Proof.
  unfold confined_to. now rewrite run_db_fmap, run_log_fmap.
Qed.

(** X16. Every action keeps to its table: createTemplate and updateTemplate
    write ContractTemplates alone, createContract, updateContract and
    deleteContract write Contracts alone, saveClause and deleteClause write
    ContractClauses alone, and listTemplates, listContracts and
    getContractWithClauses write nothing.  Whatever the input and the
    caller, the other tables are after the call what they were before, and
    no write is sent to them; deleting a contract in particular deletes no
    clause. *)
Theorem server_keeps_to_its_table :
  forall (E : Env) (op : Op) (raw : Raw) (c : Context) (d : Db),
    confined_to (written_table op) d (server E op raw c d).
Proof.
  intros E op raw c d.
  destruct op; unfold server, defineAction;
    match goal with |- context [match ?s with Some _ => _ | None => _ end] =>
      destruct s as [i|]; [apply confined_fmap|confined] end;
    cbn [written_table].
  - destruct (context_cases c) as [H|[u ->]].
    + unfold createTemplate.handler. rewrite bind_requireUser_none by exact H.
      confined.
    + rewrite createTemplate_run. cbv zeta.
      destruct (existsb _ _); confined.
  - destruct (context_cases c) as [H|[u ->]].
    + unfold updateTemplate.handler. rewrite bind_requireUser_none by exact H.
      confined.
    + rewrite updateTemplate_run.
      destruct (find_template _ d) as [t0|]; [|confined].
      destruct (foreign_owner t0 u); [confined|].
      destruct (updateTemplate.no_keys i); confined.
  - destruct (context_cases c) as [H|[u ->]].
    + unfold listTemplates.handler. rewrite bind_requireUser_none by exact H.
      confined.
    + destruct i. rewrite listTemplates_run. confined.
  - destruct (context_cases c) as [H|[u ->]].
    + unfold createContract.handler. rewrite bind_requireUser_none by exact H.
      confined.
    + rewrite createContract_run, (check_template_run _ u d). cbv zeta.
      destruct (createContract.templateId i) as [tid|];
        [destruct (truthy tid);
         [destruct (find_template tid d) as [t0|];
          [destruct (foreign_owner t0 u)|]|]|];
        cbn [run_res run_log]; try confined;
        destruct (has_contract d _ || negb _); confined.
  - destruct (context_cases c) as [H|[u ->]].
    + unfold updateContract.handler. rewrite bind_requireUser_none by exact H.
      confined.
    + rewrite updateContract_run, (check_template_run _ u d).
      destruct (find_contract _ u d); [|confined]. cbv zeta.
      destruct (updateContract.templateId i) as [tid|];
        [destruct (truthy tid);
         [destruct (find_template tid d) as [t0|];
          [destruct (foreign_owner t0 u)|]|]|];
        cbn [run_res run_log]; try confined;
        (destruct (updateContract.no_keys i); [confined|]);
        try (destruct (negb (has_template d _))); confined.
  - destruct (context_cases c) as [H|[u ->]].
    + unfold listContracts.handler. rewrite bind_requireUser_none by exact H.
      confined.
    + destruct i. rewrite listContracts_run. confined.
  - destruct (context_cases c) as [H|[u ->]].
    + unfold deleteContract.handler. rewrite bind_requireUser_none by exact H.
      confined.
    + rewrite deleteContract_run. destruct (find_contract _ u d); [|confined].
      destruct (has_clauses d _); confined.
  - destruct (context_cases c) as [H|[u ->]].
    + unfold saveClause.handler. rewrite bind_requireUser_none by exact H.
      confined.
    + destruct (truthy_opt (saveClause.id i)) eqn:T.
      * destruct (saveClause.id i) as [k|] eqn:Hid; [|discriminate].
        cbn in T. apply truthy_true in T.
        rewrite (saveClause_run E u i d Hid T).
        destruct (find_contract _ u d); [|confined].
        destruct (find_clause k d) as [e|]; [|confined].
        destruct (negb (safe_integer (Clause.orderIndex e))); [confined|].
        destruct (Clause.contractId e =? saveClause.contractId i); confined.
      * rewrite (saveClause_insert_run E u i d T).
        destruct (find_contract _ u d); confined.
  - destruct (context_cases c) as [H|[u ->]].
    + unfold deleteClause.handler. rewrite bind_requireUser_none by exact H.
      confined.
    + rewrite deleteClause_run. destruct (find_contract _ u d); [|confined].
      destruct (hd_error _); confined.
  - destruct (context_cases c) as [H|[u ->]].
    + unfold getContractWithClauses.handler.
      rewrite bind_requireUser_none by exact H. confined.
    + rewrite getContractWithClauses_run.
      destruct (find_contract _ u d); confined.
Qed.

(** ** X17 to X19: merging, listing, and what creation has validated *)

(** X17. For a signed-in caller who owns the contract, when the input has
    at least one field besides the id and its [templateId] is absent, or
    is not empty and names a template that is ownerless or the caller's,
    updateContract merges: the row stored under the id afterwards, which
    is also the row returned, has for every column the value of the input
    where the input gives one and the value of the row of before where it
    does not; its id, owner and creation time are those of before and its
    [updatedAt] is the time of the call. *)
Theorem updateContract_merges :
  forall (E : Env) (u : User.t) (input : updateContract.input) (d : Db)
         (c : Contract.t),
    find_contract (updateContract.id input) u d = Some c ->
    (updateContract.templateId input = None
     \/ exists tid t,
          updateContract.templateId input = Some tid
          /\ tid <> ""
          /\ find_template tid d = Some t
          /\ (Template.userId t = None
              \/ Template.userId t = Some (User.id u))) ->
    updateContract.no_keys input = false ->
    let r := updateContract.handler E input (signedIn u) d in
    let pick {A} (new : option A) (old : option A) :=
      match new with Some x => Some x | None => old end in
    let merged :=
      {| Contract.id := Contract.id c;
         Contract.userId := Contract.userId c;
         Contract.templateId :=
           pick (updateContract.templateId input) (Contract.templateId c);
         Contract.title :=
           match updateContract.title input with
           | Some x => x
           | None => Contract.title c
           end;
         Contract.partyAName :=
           pick (updateContract.partyAName input) (Contract.partyAName c);
         Contract.partyBName :=
           pick (updateContract.partyBName input) (Contract.partyBName c);
         Contract.effectiveDate :=
           pick (updateContract.effectiveDate input) (Contract.effectiveDate c);
         Contract.endDate :=
           pick (updateContract.endDate input) (Contract.endDate c);
         Contract.governingLaw :=
           pick (updateContract.governingLaw input) (Contract.governingLaw c);
         Contract.status :=
           pick (updateContract.status input) (Contract.status c);
         Contract.finalText :=
           match updateContract.finalText input with
           | Some x => x
           | None => Contract.finalText c
           end;
         Contract.notes := pick (updateContract.notes input) (Contract.notes c);
         Contract.createdAt := Contract.createdAt c;
         Contract.updatedAt := now E |} in
    run_res r = inr (Some merged)
    /\ find_contract (updateContract.id input) u (run_db r) = Some merged
    /\ List.length (Contracts (run_db r)) = List.length (Contracts d).
Proof.
  intros E u input d c F Htid Hkeys r pick merged. subst r.
  rewrite updateContract_run, F. cbv zeta.
  assert (Hchk : run_res (check_template (updateContract.templateId input) u d)
                 = inr tt
                 /\ match updateContract.templateId input with
                    | Some tid => negb (has_template d tid)
                    | None => false
                    end = false).
  { destruct Htid as [->|(tid & t & -> & Hne & Ft & Ho)]; [split; reflexivity|].
    rewrite check_template_run, has_template_find, Ft.
    apply truthy_true in Hne. rewrite Hne.
    assert (G : foreign_owner t u = false)
      by (apply foreign_owner_false; tauto).
    rewrite G. split; reflexivity. }
  destruct Hchk as [Hchk Hlink]. rewrite Hchk, Hkeys, Hlink.
  cbn [run_res run_db Contracts].
  split; [reflexivity|]. split; [|now rewrite length_map].
  unfold find_contract. cbn [Contracts].
  rewrite hd_error_filter_update by (intros x Hx; exact Hx).
  fold (find_contract (updateContract.id input) u d). now rewrite F.
Qed.

(** X18. For every signed-in caller and every database, listContracts
    leaves the database alone and returns exactly the contracts whose
    [userId] is the caller's id; no contract is in the lists of two users
    whose ids differ. *)
Theorem listContracts_own :
  forall (E : Env) (d : Db) (u : User.t),
    exists cs,
      listContracts.handler E tt (signedIn u) d
      = mkRun d [Read TContracts] (inr cs)
      /\ (forall c, In c cs <->
                    In c (Contracts d) /\ Contract.userId c = User.id u)
      /\ (forall v cs' c,
            run_res (listContracts.handler E tt (signedIn v) d) = inr cs' ->
            In c cs -> In c cs' -> User.id u = User.id v).
Proof.
  intros E d u. eexists. split; [apply listContracts_run|]. split.
  - intros c. now rewrite filter_In, String.eqb_eq.
  - intros v cs' c. rewrite listContracts_run. intros [= <-] H1 H2.
    apply filter_In in H1 as [_ H1]. apply filter_In in H2 as [_ H2].
    apply String.eqb_eq in H1, H2. congruence.
Qed.

(** X19. The rows the server returns from a creation have passed the
    schema: a template returned by createTemplate has a non-empty name and
    body, a contract returned by createContract a non-empty title and final
    text and the caller as its owner, and a clause returned by saveClause a
    non-empty body and a positive [orderIndex]. *)
Theorem created_rows_are_validated :
  forall (E : Env) (raw : Raw) (u : User.t) (d : Db),
    (forall t,
        run_res (server E createTemplate raw (signedIn u) d)
        = inr (reply_template (Some t)) ->
        Template.name t <> "" /\ Template.body t <> "")
    /\ (forall c,
          run_res (server E createContract raw (signedIn u) d)
          = inr (reply_contract (Some c)) ->
          Contract.title c <> "" /\ Contract.finalText c <> ""
          /\ Contract.userId c = User.id u)
    /\ (forall cl,
          run_res (server E saveClause raw (signedIn u) d)
          = inr (reply_clause (Some cl)) ->
          Clause.body cl <> "" /\ (0 < Clause.orderIndex cl)%Z).
Proof.
  intros E raw u d. unfold server, defineAction. split; [|split].
  - intros t. destruct (createTemplate.schema raw) as [i|] eqn:S; [|discriminate].
    rewrite run_res_fmap, createTemplate_run. cbv zeta.
    destruct (existsb _ _); [discriminate|]. cbn [run_res].
    intros [= <-]. cbn. eapply createTemplate_schema_texts, S.
  - intros c. destruct (createContract.schema E raw) as [i|] eqn:S; [|discriminate].
    rewrite run_res_fmap.
    destruct (run_res (createContract.handler E i (signedIn u) d))
      as [e|[c'|]] eqn:R; try discriminate.
    intros [= ->]. apply createContract_success in R as (-> & _).
    cbn. destruct (createContract_schema_texts _ _ S). auto.
  - intros cl. destruct (saveClause.schema raw) as [i|] eqn:S; [|discriminate].
    rewrite run_res_fmap. destruct (saveClause_schema_texts _ S) as [Hb Hp].
    destruct (truthy_opt (saveClause.id i)) eqn:T.
    + destruct (saveClause.id i) as [k|] eqn:Hid; [|discriminate].
      cbn in T. apply truthy_true in T.
      rewrite (saveClause_run E u i d Hid T).
      destruct (find_contract _ u d); [|discriminate].
      destruct (find_clause k d) as [e|]; [|discriminate].
      destruct (negb (safe_integer (Clause.orderIndex e))); [discriminate|].
      destruct (Clause.contractId e =? saveClause.contractId i); [|discriminate].
      cbn [run_res].
      destruct (safe_integer (saveClause.orderIndex i)); [|discriminate].
      intros [= <-]. cbn. auto.
    + rewrite (saveClause_insert_run E u i d T).
      destruct (find_contract _ u d); [|discriminate].
      cbn [run_res].
      destruct (safe_integer (saveClause.orderIndex i)); [|discriminate].
      intros [= <-]. cbn. auto.
Qed.

(** ** X20: the references *)

Lemma owns_contract_has (u : User.t) (d : Db) (i : string) :
  owns_contract u d i = true -> has_contract d i = true.
Proof.
  unfold owns_contract, has_contract. rewrite !existsb_exists.
  intros (x & Hx & Ho). exists x. split; [exact Hx|].
  unfold owned in Ho. now apply andb_true_iff in Ho as [Ho _].
Qed.

Lemma existsb_snoc {R} (p : R -> bool) (l : list R) (x : R) :
  existsb p l = true -> existsb p (l ++ [x]) = true.
Proof. intros H. rewrite existsb_app, H. reflexivity. Qed.

Lemma existsb_key_update {R} (k : R -> string) (i : string) (c : R -> bool)
      (f : R -> R) (l : list R) :
  (forall x, k (f x) = k x) ->
  existsb (fun x => k x =? i) (map (fun x => if c x then f x else x) l)
  = existsb (fun x => k x =? i) l.
Proof.
  intros H. induction l as [|a l IH]; [reflexivity|].
  cbn. rewrite IH. destruct (c a); [rewrite H|]; reflexivity.
Qed.

Lemma change_keeps_references (u : User.t) (d d' : Db) :
  Change u d d' -> references_hold d -> references_hold d'.
Proof.
  intros Ch [Hc Hcl].
  destruct Ch as [ | t Hfresh Hown Hname
                   | i f t0 Hfind Hown Hf
                   | x Hfresh Hown Hlink
                   | i f Hf Hlink
                   | i Hnone
                   | cl Hnull Hown Hbody Hpos
                   | i f e Hfind Hown Hf
                   | i cid Hown ];
    unfold references_hold, link_ok, has_template, has_contract in *;
    cbn [ContractTemplates Contracts ContractClauses];
    (split; [intros y Hy|intros y Hy]); auto.
  - specialize (Hc y Hy). destruct (Contract.templateId y); [|reflexivity].
    now apply existsb_snoc.
  - specialize (Hc y Hy). destruct (Contract.templateId y); [|reflexivity].
    rewrite existsb_key_update; [exact Hc|]. intros z. apply Hf.
  - apply in_app_iff in Hy as [Hy|[<-|[]]]; [now apply Hc|exact Hlink].
  - apply existsb_snoc. now apply Hcl.
  - apply in_map_iff in Hy as (z & <- & Hz).
    destruct (owned i u z) eqn:O; [|now apply Hc].
    apply Hlink; auto.
  - rewrite existsb_key_update; [now apply Hcl|]. intros z. apply Hf.
  - apply filter_In in Hy as [Hy _]. now apply Hc.
  - specialize (Hcl y Hy). apply existsb_exists in Hcl as (z & Hz & Hid).
    apply existsb_exists. exists z. split; [|exact Hid].
    apply filter_In. split; [exact Hz|]. apply negb_true_iff.
    destruct (owned i u z) eqn:O; [|reflexivity].
    apply owned_id in O. apply String.eqb_eq in Hid.
    exfalso. apply (proj1 (has_clauses_false _ _) Hnone y Hy). congruence.
  - apply in_app_iff in Hy as [Hy|[<-|[]]]; [now apply Hcl|].
    now apply owns_contract_has in Hown.
  - apply in_map_iff in Hy as (z & <- & Hz).
    destruct (opt_eqb (Clause.id z) i); [|now apply Hcl].
    fold (has_contract d (Clause.contractId (f z))).
    eapply owns_contract_has. apply Hf.
  - apply filter_In in Hy as [Hy _]. now apply Hcl.
Qed.

(** X20. Every call to the server keeps the references of the tables: if
    before the call the [templateId] of every contract is null or the id of
    a template, and the [contractId] of every clause is the id of a
    contract, the same holds after it, whatever the action, the input and
    the caller. *)
Theorem server_keeps_references :
  forall (E : Env) (op : Op) (raw : Raw) (c : Context) (d : Db),
    references_hold d ->
    references_hold (run_db (server E op raw c d)).
Proof.
  intros E op raw c d K.
  destruct (context_cases c) as [Hc|[u ->]].
  - now rewrite server_anonymous.
  - eapply change_keeps_references; [apply server_change|exact K].
Qed.

(** ** X21: a clause saved without an id stays for good *)

Lemma owns_contract_find (u : User.t) (d : Db) (i : string) :
  owns_contract u d i = true <-> find_contract i u d <> None.
Proof.
  unfold owns_contract, find_contract. rewrite existsb_exists. split.
  - intros (x & Hx & Px) H.
    rewrite (proj1 (hd_error_filter_none _ _) H x Hx) in Px. discriminate.
  - intros H. destruct (hd_error _) as [x|] eqn:F; [|congruence].
    apply hd_error_filter_some in F as [Hx Px]. now exists x.
Qed.

Lemma change_keeps_owned (u' u : User.t) (d d' : Db) (cid : string) :
  Change u' d d' ->
  has_clauses d cid = true ->
  owns_contract u d cid = true -> owns_contract u d' cid = true.
Proof.
  intros Ch Hcl Ho. unfold owns_contract in *.
  apply existsb_exists in Ho as (x & Hx & Px).
  destruct Ch as [ | t Hfresh Hown Hname
                   | i f t0 Hfind Hown Hf
                   | y Hfresh Hown Hlink
                   | i f Hf Hlink
                   | i Hnone
                   | cl Hnull Hown Hbody Hpos
                   | i f e Hfind Hown Hf
                   | i cid' Hown ];
    cbn [Contracts]; apply existsb_exists;
    try (exists x; split; [exact Hx|exact Px]).
  - exists x. split; [apply in_or_app; now left|exact Px].
  - exists (if owned i u' x then f x else x). split.
    + apply in_map_iff. now exists x.
    + destruct (owned i u' x); [|exact Px].
      unfold owned in *. destruct (Hf x) as [-> ->]. exact Px.
  - exists x. split; [|exact Px]. apply filter_In. split; [exact Hx|].
    apply negb_true_iff. destruct (owned i u' x) eqn:O; [|reflexivity].
    apply owned_id in O, Px. congruence.
Qed.

Lemma change_keeps_null_clause (u : User.t) (d d' : Db) (cl : Clause.t) :
  Change u d d' ->
  In cl (clauses_without_id d) -> In cl (clauses_without_id d').
Proof.
  intros Ch Hin.
  destruct (change_keeps_clauses_without_id Ch) as [->|(x & _ & _ & _ & ->)];
    [exact Hin|]. apply in_or_app. now left.
Qed.

Lemma null_clause_has_clauses (d : Db) (cl : Clause.t) :
  In cl (clauses_without_id d) -> has_clauses d (Clause.contractId cl) = true.
Proof.
  intros H. apply filter_In in H as [H _].
  apply has_clauses_true. now exists cl.
Qed.

Lemma after_keeps_null_clause (u : User.t) (cl : Clause.t) (calls : list Call)
      (d : Db) :
  In cl (clauses_without_id d) ->
  owns_contract u d (Clause.contractId cl) = true ->
  In cl (clauses_without_id (after calls d))
  /\ owns_contract u (after calls d) (Clause.contractId cl) = true.
Proof.
  revert d. induction calls as [|k calls IH]; intros d Hin Ho; [now split|].
  unfold after. cbn [fold_left]. apply IH.
  - destruct (context_cases (call_context k)) as [Hc|[u' Hc]].
    + now rewrite server_anonymous.
    + rewrite Hc. eapply change_keeps_null_clause; [apply server_change|exact Hin].
  - destruct (context_cases (call_context k)) as [Hc|[u' Hc]].
    + now rewrite server_anonymous.
    + rewrite Hc. eapply change_keeps_owned; [apply server_change| |exact Ho].
      now apply null_clause_has_clauses.
Qed.

(** X21. A clause that saveClause has inserted stays for good, and its
    contract with it.  Let a signed-in caller who owns the contract save a
    clause without an id (or with the empty id).  The row is stored with a
    null id.  Whatever calls are then made to the server, by whatever
    callers, the row is still in the store as it was inserted, the caller
    still owns the contract, and a deleteContract on the contract by its
    owner is refused by the store. *)
Theorem saved_clause_blocks_deleteContract :
  forall (E E' : Env) (u : User.t) (s : saveClause.input) (d : Db)
         (c : Contract.t) (calls : list Call),
    truthy_opt (saveClause.id s) = false ->
    find_contract (saveClause.contractId s) u d = Some c ->
    let saved :=
      Clause.mk None (saveClause.contractId s) (saveClause.orderIndex s)
        (saveClause.heading s) (saveClause.body s) (saveClause.clauseKey s)
        (now E) in
    let d1 := run_db (saveClause.handler E s (signedIn u) d) in
    let d2 := after calls d1 in
    ContractClauses d1 = (ContractClauses d ++ [saved])%list
    /\ In saved (ContractClauses d2)
    /\ find_contract (saveClause.contractId s) u d2 <> None
    /\ deleteContract.handler E' (deleteContract.mkInput (saveClause.contractId s))
         (signedIn u) d2
       = mkRun d2 [Write TContracts] (inl StoreFailure).
Proof.
  intros E E' u s d c calls Hid Hc saved d1 d2.
  assert (Hd1 : ContractClauses d1 = (ContractClauses d ++ [saved])%list).
  { subst d1. rewrite (saveClause_insert_run E u s d Hid), Hc. reflexivity. }
  assert (Hin : In saved (clauses_without_id d1)).
  { unfold clauses_without_id. rewrite Hd1. apply filter_In. split.
    - apply in_or_app. right. now left.
    - reflexivity. }
  assert (Ho : owns_contract u d1 (Clause.contractId saved) = true).
  { subst d1. rewrite (saveClause_insert_run E u s d Hid), Hc.
    unfold owns_contract. cbn [run_db Contracts Clause.contractId saved].
    apply owns_contract_find. congruence. }
  destruct (after_keeps_null_clause u saved calls d1 Hin Ho) as [Hin2 Ho2].
  fold d2 in Hin2, Ho2. cbn [Clause.contractId saved] in Ho2.
  split; [exact Hd1|]. split.
  { now apply filter_In in Hin2 as [Hin2 _]. }
  split; [now apply owns_contract_find|].
  rewrite deleteContract_run. cbn [deleteContract.id].
  apply owns_contract_find in Ho2.
  destruct (find_contract (saveClause.contractId s) u d2) as [c2|];
    [|congruence].
  apply null_clause_has_clauses in Hin2. cbn [Clause.contractId saved] in Hin2.
  now rewrite Hin2.
Qed.

(** ** X22: a clause saved without an id and read back *)

(** X22. Let a signed-in caller who owns the contract save a clause without
    an id (or with the empty id), with a safe integer as [orderIndex].  The
    call returns the new row, whose id is null and whose other columns are
    those of the input, with the time of the call as [createdAt].  A
    saveClause by the same caller under a non-empty id that no clause had
    before then fails with NotFound: the new row has no id under which it
    could be saved again.  And when the clauses already under the contract
    can be read, getContractWithClauses on the contract returns those
    clauses followed by the new row. *)
Theorem saveClause_new_then_get :
  forall (E1 E2 E3 : Env) (u : User.t) (s : saveClause.input) (d : Db)
         (c : Contract.t),
    truthy_opt (saveClause.id s) = false ->
    find_contract (saveClause.contractId s) u d = Some c ->
    safe_integer (saveClause.orderIndex s) = true ->
    let saved :=
      Clause.mk None (saveClause.contractId s) (saveClause.orderIndex s)
        (saveClause.heading s) (saveClause.body s) (saveClause.clauseKey s)
        (now E1) in
    let r1 := saveClause.handler E1 s (signedIn u) d in
    run_res r1 = inr (Some saved)
    /\ (forall s2 i,
          saveClause.id s2 = Some i -> i <> "" ->
          (forall cl, In cl (ContractClauses d) -> Clause.id cl <> Some i) ->
          run_res (saveClause.handler E2 s2 (signedIn u) (run_db r1))
          = inl NotFound)
    /\ ((forall cl, In cl (ContractClauses d) ->
                    Clause.contractId cl = saveClause.contractId s ->
                    safe_integer (Clause.orderIndex cl) = true) ->
        getContractWithClauses.handler E3
          (getContractWithClauses.mkInput (saveClause.contractId s))
          (signedIn u) (run_db r1)
        = mkRun (run_db r1) [Read TContracts; Read TContractClauses]
            (inr (c, (filter (fun cl => Clause.contractId cl
                                        =? saveClause.contractId s)
                        (ContractClauses d) ++ [saved])%list))).
Proof.
  intros E1 E2 E3 u s d c Hid Hc Hsafe saved r1. subst r1.
  rewrite (saveClause_insert_run E1 u s d Hid), Hc, Hsafe.
  cbn [run_res run_db]. fold saved.
  split; [reflexivity|]. split.
  - intros s2 i Hid2 Hi Hfresh.
    rewrite (saveClause_run E2 u s2 _ Hid2 Hi).
    destruct (find_contract (saveClause.contractId s2) u _); [|reflexivity].
    assert (N : find_clause i
                  (mkDb (ContractTemplates d) (Contracts d)
                     (ContractClauses d ++ [saved])) = None).
    { apply find_clause_none. cbn [ContractClauses]. intros cl Hin.
      apply in_app_iff in Hin as [Hin|[<-|[]]]; [now apply Hfresh|].
      discriminate. }
    now rewrite N.
  - intros Hread. rewrite getContractWithClauses_run.
    cbn [getContractWithClauses.id ContractClauses].
    unfold find_contract at 1. cbn [Contracts].
    fold (find_contract (saveClause.contractId s) u d). rewrite Hc.
    rewrite filter_app. cbn [filter Clause.contractId saved].
    rewrite String.eqb_refl.
    assert (S : forallb (fun cl => safe_integer (Clause.orderIndex cl))
                  (filter (fun cl => Clause.contractId cl
                                     =? saveClause.contractId s)
                     (ContractClauses d) ++ [saved]) = true).
    { rewrite forallb_app. apply andb_true_iff. split.
      - apply forallb_filter_true. intros x Hx Px.
        apply String.eqb_eq in Px. now apply Hread.
      - cbn. now rewrite Hsafe. }
    now rewrite S.
Qed.

(** ** The hypotheses above, met *)

(** Alice deletes her contract "ca", which has no clause, and can no longer
    read it. *)
Lemma deleted_contract_has_no_clauses_witness :
  let d' := run_db (deleteContract.handler (env_at 5000%Z)
                      (deleteContract.mkInput "ca") (signedIn alice) db_ca) in
  Contracts db_ca <> []
  /\ Contracts d' = []
  /\ getContractWithClauses.handler (env_at 6000%Z)
       (getContractWithClauses.mkInput "ca") (signedIn alice) d'
     = mkRun d' [Read TContracts] (inl NotFound).
Proof.
  cbv zeta.
  destruct (@deleted_contract_has_no_clauses (env_at 5000%Z) (env_at 6000%Z)
              alice (deleteContract.mkInput "ca") db_ca
              (createContract.values (env_at 1000%Z) (contract_on "ca" None) alice)
              eq_refl) as (_ & _ & H & _).
  split; [discriminate|]. split; [reflexivity|exact H].
Defined.

Lemma references_hold_db_ca_k1 : references_hold db_ca_k1.
Proof.
  split; cbn; intros x [<-|[]]; reflexivity.
Qed.

(** Alice creates the contract "cb" and deletes it again. *)
Lemma createContract_then_deleteContract_witness :
  deleteContract.handler (env_at 6000%Z) (deleteContract.mkInput "cb")
    (signedIn alice)
    (run_db (createContract.handler (env_at 5000%Z) (contract_on "cb" None)
               (signedIn alice) db_ca_k1))
  = mkRun db_ca_k1 [Write TContracts]
      (inr (createContract.values (env_at 5000%Z) (contract_on "cb" None) alice)).
Proof.
  exact (@createContract_then_deleteContract (env_at 5000%Z) (env_at 6000%Z)
           alice (contract_on "cb" None) db_ca_k1
           (createContract.values (env_at 5000%Z) (contract_on "cb" None) alice)
           references_hold_db_ca_k1 eq_refl).
Defined.

(** Bob's system template "sys" is added to alice's list, his private
    template "t2" is not. *)
Lemma createTemplate_then_listTemplates_witness :
  map Template.id
    (match run_res (listTemplates.handler (env_at 5000%Z) tt (signedIn alice) db_sys)
     with inr l => l | inl _ => [] end) = ["sys"]
  /\ run_res (listTemplates.handler (env_at 5000%Z) tt (signedIn alice) db_bob_t2)
     = inr [].
Proof.
  split.
  - destruct (@createTemplate_then_listTemplates (env_at 1000%Z) (env_at 5000%Z)
                bob alice system_sys empty_db
                (Template.mk "sys" None "Lease" None None None "Premises" true
                   1000%Z 1000%Z) eq_refl) as (before & H1 & H2).
    cbv zeta in H2. fold db_sys in H2. rewrite H2.
    injection H1 as <-. reflexivity.
  - destruct (@createTemplate_then_listTemplates (env_at 1000%Z) (env_at 5000%Z)
                bob alice draft_t2 empty_db
                (Template.mk "t2" (Some "bob") "Offer" None None None "Salary" false
                   1000%Z 1000%Z) eq_refl) as (before & H1 & H2).
    cbv zeta in H2. fold db_bob_t2 in H2. rewrite H2.
    injection H1 as <-. reflexivity.
Defined.

(** Alice's new contract "ca" is in her list and not in bob's. *)
Lemma createContract_then_listContracts_witness :
  run_res (listContracts.handler (env_at 5000%Z) tt (signedIn alice) db_ca)
  = inr [createContract.values (env_at 1000%Z) (contract_on "ca" None) alice]
  /\ run_res (listContracts.handler (env_at 5000%Z) tt (signedIn bob) db_ca)
     = inr [].
Proof.
  split.
  - destruct (@createContract_then_listContracts (env_at 1000%Z) (env_at 5000%Z)
                alice alice (contract_on "ca" None) empty_db
                (createContract.values (env_at 1000%Z) (contract_on "ca" None) alice)
                eq_refl) as (before & H1 & H2).
    cbv zeta in H2. fold db_ca in H2. rewrite H2.
    injection H1 as <-. reflexivity.
  - destruct (@createContract_then_listContracts (env_at 1000%Z) (env_at 5000%Z)
                alice bob (contract_on "ca" None) empty_db
                (createContract.values (env_at 1000%Z) (contract_on "ca" None) alice)
                eq_refl) as (before & H1 & H2).
    cbv zeta in H2. fold db_ca in H2. rewrite H2.
    injection H1 as <-. reflexivity.
Defined.

(** Alice links her contract "ca" to the system template "sys" and gives
    it a new title. *)
Lemma updateContract_merges_witness :
  let r := updateContract.handler (env_at 5000%Z)
             (updateContract.mkInput "ca" (Some "sys") (Some "Lease of the flat")
                None None None None None None None None)
             (signedIn alice) db_sys_ca in
  option_map Contract.templateId (find_contract "ca" alice db_sys_ca)
  = Some None
  /\ run_res r
     = inr (Some (Contract.mk "ca" "alice" (Some "sys") "Lease of the flat" None
                    None None None None None "F" None 1200%Z 5000%Z))
  /\ find_contract "ca" alice (run_db r)
     = Some (Contract.mk "ca" "alice" (Some "sys") "Lease of the flat" None None
               None None None None "F" None 1200%Z 5000%Z).
Proof.
  cbv zeta.
  assert (Htid : updateContract.templateId
                   (updateContract.mkInput "ca" (Some "sys")
                      (Some "Lease of the flat") None None None None None None
                      None None) = None
                 \/ exists tid t,
                      updateContract.templateId
                        (updateContract.mkInput "ca" (Some "sys")
                           (Some "Lease of the flat") None None None None None
                           None None None) = Some tid
                      /\ tid <> ""
                      /\ find_template tid db_sys_ca = Some t
                      /\ (Template.userId t = None
                          \/ Template.userId t = Some (User.id alice))).
  { right. exists "sys".
    exists (Template.mk "sys" None "Lease" None None None "Premises" true
              1000%Z 1000%Z).
    split; [reflexivity|]. split; [discriminate|].
    split; [reflexivity|]. left. reflexivity. }
  destruct (@updateContract_merges (env_at 5000%Z) alice
              (updateContract.mkInput "ca" (Some "sys") (Some "Lease of the flat")
                 None None None None None None None None)
              db_sys_ca
              (createContract.values (env_at 1200%Z) (contract_on "ca" None) alice)
              eq_refl Htid eq_refl) as (H1 & H2 & _).
  split; [reflexivity|]. split; [exact H1 | exact H2].
Defined.

(** Alice's deleteContract on "ca", which has the clause "k1", is refused:
    the references hold as before and the contract is still there. *)
Lemma server_keeps_references_witness :
  let r := server (env_at 5000%Z) deleteContract (RObject [("id", JString "ca")])
             (signedIn alice) db_ca_k1 in
  references_hold (run_db r)
  /\ run_res r = inl StoreFailure
  /\ map Contract.id (Contracts (run_db r)) = ["ca"].
Proof.
  cbv zeta. split; [|split; reflexivity].
  apply server_keeps_references. exact references_hold_db_ca_k1.
Defined.

(** Alice saves the payment clause under her contract "ca".  Bob then
    tries to delete the contract, alice deletes the clause "k1" and gives
    the contract a new title; after that alice's deleteContract on "ca" is
    refused, and the payment clause is still in the store. *)
Lemma saved_clause_blocks_deleteContract_witness :
  let d1 := run_db (saveClause.handler (env_at 2000%Z) payment_clause
                      (signedIn alice) db_ca_k1) in
  let d2 := after later_calls d1 in
  map Clause.id (ContractClauses d1) = [Some "k1"; None]
  /\ map Clause.id (ContractClauses d2) = [None]
  /\ option_map Contract.title (find_contract "ca" alice d2) = Some "Sale"
  /\ deleteContract.handler (env_at 9000%Z) (deleteContract.mkInput "ca")
       (signedIn alice) d2
     = mkRun d2 [Write TContracts] (inl StoreFailure).
Proof.
  cbv zeta.
  destruct (@saved_clause_blocks_deleteContract (env_at 2000%Z) (env_at 9000%Z)
              alice payment_clause db_ca_k1
              (createContract.values (env_at 1000%Z) (contract_on "ca" None) alice)
              later_calls eq_refl eq_refl) as (_ & _ & _ & H).
  split; [reflexivity|]. split; [reflexivity|]. split; [reflexivity|exact H].
Defined.

(** Alice saves the payment clause under her contract "ca", which has the
    clause "k1"; saving it again under the id "k2" fails, and the contract
    is read back with both clauses. *)
Lemma saveClause_new_then_get_witness :
  let r1 := saveClause.handler (env_at 2000%Z) payment_clause
              (signedIn alice) db_ca_k1 in
  exists saved,
    run_res r1 = inr (Some saved)
    /\ Clause.id saved = None
    /\ run_res (saveClause.handler (env_at 3000%Z)
                  (saveClause.mkInput (Some "k2") "ca" 1 None "Pay now" None)
                  (signedIn alice) (run_db r1)) = inl NotFound
    /\ option_map (fun p => map Clause.body (snd p))
         (match run_res (getContractWithClauses.handler (env_at 4000%Z)
                           (getContractWithClauses.mkInput "ca")
                           (signedIn alice) (run_db r1))
          with inr p => Some p | inl _ => None end)
       = Some ["Pay within 30 days"; "Pay within 30 days"].
Proof.
  cbv zeta.
  destruct (@saveClause_new_then_get (env_at 2000%Z) (env_at 3000%Z)
              (env_at 4000%Z) alice payment_clause db_ca_k1
              (createContract.values (env_at 1000%Z) (contract_on "ca" None) alice)
              eq_refl eq_refl eq_refl) as (H1 & H2 & H3).
  eexists. split; [exact H1|]. split; [reflexivity|]. split.
  - apply (H2 (saveClause.mkInput (Some "k2") "ca" 1 None "Pay now" None) "k2");
      [reflexivity|discriminate|].
    intros cl [<-|[]]. discriminate.
  - assert (Hread : forall cl, In cl (ContractClauses db_ca_k1) ->
                      Clause.contractId cl = saveClause.contractId payment_clause ->
                      safe_integer (Clause.orderIndex cl) = true).
    { intros cl [<-|[]] _. reflexivity. }
    specialize (H3 Hread).
    change (saveClause.contractId payment_clause) with "ca" in H3.
    rewrite H3. reflexivity.
Defined.

(** Bob relinks his contract "c1" to the template "sys"; relinking it to a
    template that is not there fails and changes nothing. *)
Lemma updateContract_link_guard_witness :
  (exists c',
      run_res (updateContract.handler (env_at 5000%Z) (relink "c1" "sys")
                 (signedIn bob) db_sys_c1) = inr (Some c')
      /\ Contract.templateId c' = Some "sys")
  /\ run_res (updateContract.handler (env_at 5000%Z) (relink "c1" "nope")
                (signedIn bob) db_sys_c1) = inl NotFound
  /\ run_db (updateContract.handler (env_at 5000%Z) (relink "c1" "nope")
               (signedIn bob) db_sys_c1) = db_sys_c1.
Proof.
  assert (Hsys : "sys" <> "") by discriminate.
  assert (Hnope : "nope" <> "") by discriminate.
  pose proof (@updateContract_link_guard (env_at 5000%Z) bob (relink "c1" "sys")
                db_sys_c1
                (createContract.values (env_at 1500%Z)
                   (contract_on "c1" (Some "sys")) bob)
                "sys" eq_refl eq_refl Hsys) as H.
  pose proof (@updateContract_link_guard (env_at 5000%Z) bob (relink "c1" "nope")
                db_sys_c1
                (createContract.values (env_at 1500%Z)
                   (contract_on "c1" (Some "sys")) bob)
                "nope" eq_refl eq_refl Hnope) as H'.
  cbv zeta in H, H'. destruct H as (_ & _ & H). destruct H' as (Hiff & Hdb & _).
  split.
  - destruct H as (c' & H1 & _ & H3); [vm_compute; discriminate|].
    exists c'. split; [exact H1|exact H3].
  - assert (Hnf : run_res (updateContract.handler (env_at 5000%Z)
                             (relink "c1" "nope") (signedIn bob) db_sys_c1)
                  = inl NotFound).
    { apply Hiff. left. intros t [<-|[]]. discriminate. }
    split; [exact Hnf|exact (Hdb Hnf)].
Defined.

(** Bob's update of "c1" with the empty string as [templateId]. *)
Lemma updateContract_empty_templateId_witness :
  updateContract.handler (env_at 2000%Z) (relink "c1" "") (signedIn bob) db_sys_c1
  = mkRun db_sys_c1 [Read TContracts; Write TContracts] (inl StoreFailure).
Proof.
  apply (@updateContract_empty_templateId (env_at 2000%Z) bob (relink "c1" "")
           db_sys_c1
           (createContract.values (env_at 1500%Z)
              (contract_on "c1" (Some "sys")) bob)
           eq_refl eq_refl).
  intros t [<-|[]]. discriminate.
Defined.

